(** * Fitbit_Fetch.py: a shallow embedding and its verified properties

    The embedding follows [src/Fitbit_Fetch.py]: the class [FitBitFetch]
    becomes a record of its attributes inside a [World] that also holds
    everything the methods touch outside the object (clock, token file,
    network, standard input, log, database sink).  Methods are state
    passing functions that keep the state when an exception is raised,
    as Python does. *)

From Stdlib Require Import ZArith List String Ascii Bool Lia DecimalString.
From Stdlib Require PrimFloat SpecFloat FloatOps.
Import ListNotations.
Set Warnings "-register-all".
Local Open Scope string_scope.
Local Open Scope list_scope.
Local Open Scope Z_scope.

(* ===================================================================== *)
(** * Python values and exceptions *)
(* ===================================================================== *)

(** The exceptions the modelled code can raise or meet. *)
Inductive exn : Type :=
| TypeError
| AttributeError
| KeyError
| IndexError
| ValueError
| UnboundLocalError
| NameError
| OverflowError
| RecursionError
| EOFError
| FileNotFoundError
| JSONDecodeError
| ConnectionError (msg : string)
| HTTPError (status : Z)
| InfluxDBError (msg : string)
| OtherError (name : string).

(** The outcome of running a piece of code: a value or a raised exception. *)
Inductive Res (A : Type) : Type :=
| Ok (a : A)
| Exc (e : exn).
Arguments Ok {A} a.
Arguments Exc {A} e.

(** How a generator ends: it returns, raises, or is cut by the fuel of
    the model (the Python loop would still be running). *)
Inductive gen_end : Type :=
| Finished
| Raised (e : exn)
| OutOfFuel.

(** ** Lists indexed the Python way *)

Definition py_len {A} (l : list A) : Z := Z.of_nat (List.length l).

(** [l[i]]: a negative index counts from the end; out of range raises
    [IndexError] (here [None]). *)
Definition py_index {A} (l : list A) (i : Z) : option A :=
  let n := py_len l in
  if (0 <=? i) && (i <? n) then nth_error l (Z.to_nat i)
  else if (- n <=? i) && (i <? 0) then nth_error l (Z.to_nat (i + n))
  else None.

(** String concatenation, as [+] and f-strings do it. *)
Infix "+++" := String.append (right associativity, at level 60).

(* ===================================================================== *)
(** * JSON payloads and the Python operations applied to them *)
(* ===================================================================== *)

(** A value as [json.load] and [response.json()] produce it.  [JNull] is
    Python's [None], [JNum] a Python [int], [JFloat] a Python [float]
    (IEEE binary64), [JArr] a [list] and [JObj] a [dict] in insertion
    order.  The same type represents the dictionaries the program builds
    (request headers, points). *)
Inductive json : Type :=
| JNull
| JBool (b : bool)
| JNum (n : Z)
| JFloat (f : PrimFloat.float)
| JStr (s : string)
| JArr (items : list json)
| JObj (fields : list (string * json)).

(** Lookup of a key in a dictionary. *)
Fixpoint assoc {V} (k : string) (kv : list (string * V)) : option V :=
  match kv with
  | [] => None
  | (k', v) :: rest => if String.eqb k k' then Some v else assoc k rest
  end.

(** [bool(x)], as [if x:] and [x or y] evaluate it. *)
Definition py_truthy (x : json) : bool :=
  match x with
  | JNull => false
  | JBool b => b
  | JNum n => negb (n =? 0)
  | JFloat f => negb (PrimFloat.eqb f PrimFloat.zero)
  | JStr s => negb (String.eqb s "")
  | JArr l => match l with [] => false | _ => true end
  | JObj kv => match kv with [] => false | _ => true end
  end.

(** [x[k]] with a string key. *)
Definition py_getitem (x : json) (k : string) : Res json :=
  match x with
  | JObj kv => match assoc k kv with Some v => Ok v | None => Exc KeyError end
  | _ => Exc TypeError
  end.

(** [x[i]] with an integer index. *)
Definition py_getitem_int (x : json) (i : Z) : Res json :=
  match x with
  | JArr l => match py_index l i with Some v => Ok v | None => Exc IndexError end
  | JStr s =>
      match py_index (list_ascii_of_string s) i with
      | Some c => Ok (JStr (String c EmptyString))
      | None => Exc IndexError
      end
  | JObj _ => Exc KeyError
  | _ => Exc TypeError
  end.

(** [x.get(k, default)]: only a dictionary has the method. *)
Definition py_get (x : json) (k : string) (default : json) : Res json :=
  match x with
  | JObj kv => match assoc k kv with Some v => Ok v | None => Ok default end
  | _ => Exc AttributeError
  end.

(** Is [k] a substring of [s]? *)
Definition is_substring (k s : string) : bool :=
  match String.index 0 k s with Some _ => true | None => String.eqb k "" end.

(** [k in x] for a string [k]. *)
Definition py_contains (k : string) (x : json) : Res bool :=
  match x with
  | JObj kv => Ok (match assoc k kv with Some _ => true | None => false end)
  | JArr l =>
      Ok (existsb (fun e => match e with JStr s => String.eqb s k | _ => false end) l)
  | JStr s => Ok (is_substring k s)
  | _ => Exc TypeError
  end.

(** The items [for v in x] runs over. *)
Definition py_iter (x : json) : Res (list json) :=
  match x with
  | JArr l => Ok l
  | JObj kv => Ok (map (fun p => JStr (fst p)) kv)
  | JStr s => Ok (map (fun c => JStr (String c EmptyString)) (list_ascii_of_string s))
  | _ => Exc TypeError
  end.

(** [s.lstrip('/')]. *)
Fixpoint lstrip_slash (s : string) : string :=
  match s with
  | String "/" rest => lstrip_slash rest
  | _ => s
  end.

(** [s.strip("Z")]: the letter is removed at both ends. *)
Fixpoint rstrip_Z (s : string) : string :=
  match s with
  | EmptyString => EmptyString
  | String c rest =>
      match rstrip_Z rest with
      | EmptyString => if Ascii.eqb c "Z" then EmptyString else String c EmptyString
      | r => String c r
      end
  end.

Fixpoint lstrip_Z (s : string) : string :=
  match s with
  | String "Z" rest => lstrip_Z rest
  | _ => s
  end.

Definition strip_Z (s : string) : string := rstrip_Z (lstrip_Z s).

(** ASCII lower case, for header names compared without case. *)
Definition lower_ascii (c : ascii) : ascii :=
  let n := nat_of_ascii c in
  if (Nat.leb 65 n && Nat.leb n 90)%bool then ascii_of_nat (n + 32) else c.

Fixpoint lower (s : string) : string :=
  match s with
  | EmptyString => EmptyString
  | String c rest => String (lower_ascii c) (lower rest)
  end.

(** [headers[name]] on the case-insensitive dictionary of a response. *)
Fixpoint header_lookup (name : string) (hs : list (string * string)) : option string :=
  match hs with
  | [] => None
  | (k, v) :: rest =>
      if String.eqb (lower k) (lower name) then Some v else header_lookup name rest
  end.

(** ** The interpreter and library functions the program calls

    Built-in conversions and the [datetime], [pytz] and [base64] modules
    are not part of the repository.  The model takes them as an
    interface; every theorem holds for any implementation of it. *)
Record PyLib : Type := mkPyLib {
  datetime : Type;
  tzinfo : Type;
  (** [str(x)], also the formatting of [{x}] in an f-string *)
  py_str : json -> string;
  (** [int(x)] *)
  py_int : json -> Res Z;
  (** [float(x)] *)
  py_float : json -> Res PrimFloat.float;
  (** conversion of an [int] operand in mixed arithmetic with a [float] *)
  float_of_int : Z -> Res PrimFloat.float;
  (** [f < n] for a [float] and an [int] *)
  float_lt_int : PrimFloat.float -> Z -> bool;
  (** [base64.b64encode(s.encode()).decode()] *)
  b64encode : string -> string;
  (** [pytz.timezone(name)] *)
  pytz_timezone : json -> Res tzinfo;
  (** [datetime.fromisoformat(s)] *)
  fromisoformat : string -> Res datetime;
  (** [tz.localize(dt)] *)
  localize : tzinfo -> datetime -> Res datetime;
  (** [dt.astimezone(pytz.utc)] *)
  astimezone_utc : datetime -> Res datetime;
  (** [dt.isoformat()] *)
  isoformat : datetime -> string;
  (** [datetime.now()] when the clock shows the given second *)
  datetime_now : Z -> datetime;
  (** [dt + timedelta(days=n)] *)
  add_days : datetime -> Z -> Res datetime;
  (** [(a - b).days] *)
  diff_days : datetime -> datetime -> Res Z;
  (** [dt.strftime("%Y-%m-%d")] *)
  strftime_ymd : datetime -> string;
  (** [datetime.strptime(s, "%Y-%m-%d")] *)
  strptime_ymd : string -> Res datetime;
  (** whether the interpreter leaves the annotations of a [def]
      unevaluated when the statement runs (it does from Python 3.14 on) *)
  deferred_annotations : bool;
}.

(** Values read from the environment when the module is loaded. *)
Record Config : Type := mkConfig {
  FITBIT_LANGUAGE : json;
  INFLUXDB_BUCKET : json;
  INFLUXDB_ORGANIZATION : json;
  CLIENT_ID : json;
  CLIENT_SECRET : json;
  DEVICENAME : json;
  AUTO_DATE_RANGE : bool;
  AUTO_UPDATE_DATE_RANGE : Z;
  LOCAL_TIMEZONE : json;
}.

Definition MAX_RETRIES : Z := 3.
Definition EXPIRED_TOKEN_MAX_RETRY : Z := 5.
Definition API_URI : string := "https://api.fitbit.com".

(** ** The world outside the object *)

(** What [requests.request] returned. [resp_json] is the result of
    [response.json()]. *)
Record http_response : Type := mkResponse {
  status_code : Z;
  resp_headers : list (string * string);
  resp_text : string;
  resp_json : Res json;
}.

(** What the network does with one request: it answers, or the call
    raises. *)
Inductive net_event : Type :=
| Respond (r : http_response)
| NetFail (e : exn).

(** A request as it was sent. *)
Record request : Type := mkRequest {
  req_method : string;
  req_url : string;
  req_headers : json;
  req_params : json;
  req_data : json;
}.

(** What the database does with one write. *)
Inductive sink_event : Type :=
| SinkOk
| SinkFail (e : exn).

Inductive level : Type := DEBUG | INFO | WARNING | ERROR.
(* ===================================================================== *)
(** * DateRangePartitioner: [yield_dates_with_gap] *)
(* ===================================================================== *)

(** The [while] loop of [yield_dates_with_gap], entered with the current
    value of [start_index].  The result is the list of yielded pairs and
    the way the generator ended. *)
Fixpoint yield_dates_loop {A} (fuel : nat) (date_list : list A) (gap : Z)
    (start_index : Z) : list (A * A) * gen_end :=
  if start_index <? py_len date_list - 1 then
    match fuel with
    | O => ([], OutOfFuel)
    | S fuel' =>
        let start_index := start_index + gap in
        let end_index := start_index + gap in
        let end_index :=
          if end_index >? py_len date_list - 1
          then py_len date_list - 1 else end_index in
        if start_index >? py_len date_list - 1 then ([], Finished)
        else
          match py_index date_list start_index with
          | None => ([], Raised IndexError)
          | Some a =>
              match py_index date_list end_index with
              | None => ([], Raised IndexError)
              | Some b =>
                  let (rest, e) :=
                    yield_dates_loop fuel' date_list gap start_index in
                  ((a, b) :: rest, e)
              end
          end
    end
  else ([], Finished).

Definition yield_dates_with_gap {A} (fuel : nat) (date_list : list A)
    (gap : Z) : list (A * A) * gen_end :=
  yield_dates_loop fuel date_list gap (-1 * gap).

(** The chunk the specification describes for index [i]:
    [(d[i*s], d[min((i+1)*s, n-1)])]. *)
Definition spec_chunk {A} (d : list A) (s : Z) (dflt : A) (i : nat) : A * A :=
  (nth (Z.to_nat (Z.of_nat i * s)) d dflt,
   nth (Z.to_nat (Z.min ((Z.of_nat i + 1) * s) (py_len d - 1))) d dflt).

(** Number of chunks the loop yields: one for every [i] with
    [i * s <= n - 1]. *)
Definition chunk_count {A} (d : list A) (s : Z) : nat :=
  S (Z.to_nat ((py_len d - 1) / s)).

Definition jan_2024_01_10 : list string :=
  ["2024-01-01"; "2024-01-02"; "2024-01-03"; "2024-01-04"; "2024-01-05";
   "2024-01-06"; "2024-01-07"; "2024-01-08"; "2024-01-09"; "2024-01-10"].

(* ===================================================================== *)
(** * The object, the world and the methods *)
(* ===================================================================== *)

Section Model.

Context (lib : PyLib) (cfg : Config).

(** The attributes of a [FitBitFetch] object.  [timezone], [start_date]
    and [end_date] are unset until [__init__] assigns them. *)
Record FitBitFetch : Type := mkSelf {
  points : list json;
  timezone : option (tzinfo lib);
  end_date : option (datetime lib);
  start_date : option (datetime lib);
}.

(** Everything a method reads or changes.  Time is counted in whole
    seconds and passes only in [time.sleep]; [w_net] and [w_sink] script
    what the network and the database will do next, [w_stdin] what the
    user will type; [w_requests], [w_slept], [w_log] and [w_written]
    record what the program did, oldest first. *)
Record World : Type := mkWorld {
  w_clock : Z;
  w_token_file : option json;
  w_net : list net_event;
  w_requests : list request;
  w_slept : list Z;
  w_log : list (level * string);
  w_stdin : list string;
  w_sink : list sink_event;
  w_written : list (list json);
  self : FitBitFetch;
}.

(** ** Computations: state passing, the state survives an exception *)

Definition M (A : Type) : Type := World -> Res A * World.

Definition ret {A} (a : A) : M A := fun w => (Ok a, w).

Definition raise {A} (e : exn) : M A := fun w => (Exc e, w).

Definition bind {A B} (c : M A) (k : A -> M B) : M B :=
  fun w =>
    match c w with
    | (Ok a, w') => k a w'
    | (Exc e, w') => (Exc e, w')
    end.

(** Runs [c] and hands its outcome to the [except] clauses. *)
Definition try {A} (c : M A) : M (Res A) :=
  fun w => let (r, w') := c w in (Ok r, w').

(** A pure operation that may raise. *)
Definition lift {A} (r : Res A) : M A := fun w => (r, w).

Notation "x <- c ;; k" := (bind c (fun x => k))
  (at level 61, c at next level, right associativity).
Notation "c ;; k" := (bind c (fun _ => k))
  (at level 61, right associativity).

(** [for x in xs: body x]. *)
Fixpoint for_each {A} (xs : list A) (body : A -> M unit) : M unit :=
  match xs with
  | [] => ret tt
  | x :: rest => body x ;; for_each rest body
  end.

(** ** Primitive effects *)

Definition logging (lvl : level) (msg : string) : M unit :=
  fun w => (Ok tt,
    mkWorld (w_clock w) (w_token_file w) (w_net w) (w_requests w) (w_slept w)
            (w_log w ++ [(lvl, msg)]) (w_stdin w) (w_sink w) (w_written w) (self w)).

(** [int(time.time())]. *)
Definition time_now : M Z := fun w => (Ok (w_clock w), w).

(** [time.sleep(secs)]: a negative length is refused. *)
Definition sleep (secs : Z) : M unit :=
  fun w =>
    if secs <? 0 then (Exc ValueError, w)
    else (Ok tt,
      mkWorld (w_clock w + secs) (w_token_file w) (w_net w) (w_requests w)
              (w_slept w ++ [secs]) (w_log w) (w_stdin w) (w_sink w)
              (w_written w) (self w)).

(** [input(prompt)]. *)
Definition input (prompt : string) : M string :=
  fun w =>
    match w_stdin w with
    | [] => (Exc EOFError, w)
    | line :: rest =>
        (Ok line,
         mkWorld (w_clock w) (w_token_file w) (w_net w) (w_requests w) (w_slept w)
                 (w_log w) rest (w_sink w) (w_written w) (self w))
    end.

(** [requests.request(...)]: the request is sent and the network does
    what is scripted next; with nothing scripted the connection fails. *)
Definition requests_request (rq : request) : M http_response :=
  fun w =>
    let sent := w_requests w ++ [rq] in
    match w_net w with
    | [] =>
        (Exc (ConnectionError "unreachable"),
         mkWorld (w_clock w) (w_token_file w) [] sent (w_slept w)
                 (w_log w) (w_stdin w) (w_sink w) (w_written w) (self w))
    | ev :: rest =>
        let w' := mkWorld (w_clock w) (w_token_file w) rest sent (w_slept w)
                          (w_log w) (w_stdin w) (w_sink w) (w_written w) (self w) in
        match ev with
        | Respond r => (Ok r, w')
        | NetFail e => (Exc e, w')
        end
    end.

(** [response.raise_for_status()]. *)
Definition raise_for_status (r : http_response) : M unit :=
  if (400 <=? status_code r) && (status_code r <? 600)
  then raise (HTTPError (status_code r)) else ret tt.

(** [json.load] of the token file. *)
Definition read_token_file : M json :=
  fun w =>
    match w_token_file w with
    | None => (Exc FileNotFoundError, w)
    | Some tokens => (Ok tokens, w)
    end.

(** [tfile.write(json.dumps(tokens))] on the token file. *)
Definition write_token_file (tokens : json) : M unit :=
  fun w => (Ok tt,
    mkWorld (w_clock w) (Some tokens) (w_net w) (w_requests w) (w_slept w)
            (w_log w) (w_stdin w) (w_sink w) (w_written w) (self w)).

(** [write_api.write(bucket, org, batch)]; with nothing scripted the
    database accepts the batch. *)
Definition sink_write (batch : list json) : M unit :=
  fun w =>
    match w_sink w with
    | SinkFail e :: rest =>
        (Exc e,
         mkWorld (w_clock w) (w_token_file w) (w_net w) (w_requests w) (w_slept w)
                 (w_log w) (w_stdin w) rest (w_written w) (self w))
    | sk =>
        (Ok tt,
         mkWorld (w_clock w) (w_token_file w) (w_net w) (w_requests w) (w_slept w)
                 (w_log w) (w_stdin w) (tl sk) (w_written w ++ [batch]) (self w))
    end.

Definition get_self : M FitBitFetch := fun w => (Ok (self w), w).

Definition set_self (s : FitBitFetch) : M unit :=
  fun w => (Ok tt,
    mkWorld (w_clock w) (w_token_file w) (w_net w) (w_requests w) (w_slept w)
            (w_log w) (w_stdin w) (w_sink w) (w_written w) s).

(** [self.points.append(p)]. *)
Definition points_append (p : json) : M unit :=
  s <- get_self ;;
  set_self (mkSelf (points s ++ [p]) (timezone s) (end_date s) (start_date s)).

(** [self.points.clear()]. *)
Definition points_clear : M unit :=
  s <- get_self ;;
  set_self (mkSelf [] (timezone s) (end_date s) (start_date s)).

(** Reading an attribute that [__init__] has not assigned yet. *)
Definition self_timezone : M (tzinfo lib) :=
  s <- get_self ;;
  match timezone s with Some tz => ret tz | None => raise AttributeError end.

Definition self_end_date : M (datetime lib) :=
  s <- get_self ;;
  match end_date s with Some d => ret d | None => raise AttributeError end.

Definition self_start_date : M (datetime lib) :=
  s <- get_self ;;
  match start_date s with Some d => ret d | None => raise AttributeError end.

(** Reading a local variable that may not have been bound. *)
Definition local {A} (v : option A) : M A :=
  match v with Some a => ret a | None => raise UnboundLocalError end.

(** [str(e)] for the exceptions whose text is logged. *)
Definition exn_str (e : exn) : string :=
  match e with
  | ConnectionError msg => msg
  | InfluxDBError msg => msg
  | OtherError name => name
  | _ => ""
  end.

(** ** [fitbit_data_request] *)

(** What the body of the [try] leaves behind: a [return] of the
    function, or falling through to the end of the loop body. *)
Inductive flow : Type :=
| Return (v : json)
| Continue.

(** The [if]/[elif] chain on the status code. *)
Definition classify (r : http_response) : M flow :=
  if status_code r =? 200 then
    v <- lift (resp_json r) ;;
    ret (Return v)
  else if status_code r =? 429 then
    h <- lift (match header_lookup "Retry-After" (resp_headers r) with
               | Some v => Ok v | None => Exc KeyError end) ;;
    n <- lift (py_int lib (JStr h)) ;;
    let retry_after := n + 15 in
    logging WARNING ("Hit API ratelimit. Retrying in "
                     +++ py_str lib (JNum retry_after) +++ "s...") ;;
    sleep retry_after ;;
    ret Continue
  else if status_code r =? 401 then
    logging WARNING ("Unauthorized error: " +++ resp_text r) ;;
    sleep 30 ;;
    ret Continue
  else if existsb (Z.eqb (status_code r)) [500; 502; 503; 504] then
    logging WARNING ("Error " +++ py_str lib (JNum (status_code r))
                     +++ " encountered. Retrying after 120s....") ;;
    sleep 120 ;;
    ret Continue
  else
    logging ERROR ("Fitbit API request failed. Status code: "
                   +++ py_str lib (JNum (status_code r)) +++ " " +++ resp_text r) ;;
    raise_for_status r ;;
    ret (Return JNull).

(** The clause [except ConnectionError as e]; [response] is the binding
    of the local variable when the exception arrived. *)
Definition except_clause (e : exn) (response : option http_response)
  : M (flow * option http_response) :=
  match e with
  | ConnectionError _ =>
      logging ERROR ("Connection error, retrying in 30 seconds: " +++ exn_str e) ;;
      ret (Continue, response)
  | _ => raise e
  end.

(** The default headers, built when [headers] is empty. *)
Definition default_headers (get_access_token : M json) : M json :=
  tok <- get_access_token ;;
  ret (JObj [("Authorization", JStr ("Bearer " +++ py_str lib tok));
             ("Accept", JStr "application/json");
             ("Accept-Language", FITBIT_LANGUAGE cfg)]).

(** The request one attempt sends. *)
Definition the_request (endpoint : string) (headers params data : json)
    (request_type : string) : request :=
  mkRequest request_type (API_URI +++ "/" +++ lstrip_slash endpoint)
            headers params data.

(** The [try] statement of the loop body.  It yields what to do next
    and the binding of [response] it leaves. *)
Definition attempt (endpoint : string) (headers params data : json)
    (request_type : string) (response : option http_response)
  : M (flow * option http_response) :=
  sent <- try (requests_request
                 (the_request endpoint headers params data request_type)) ;;
  match sent with
  | Exc e => except_clause e response
  | Ok r =>
      out <- try (classify r) ;;
      match out with
      | Exc e => except_clause e (Some r)
      | Ok fl => ret (fl, Some r)
      end
  end.

(** The [while] loop, entered with the current values of the local
    variables [headers], [retry_attempts] and [response].  The loop runs
    at most [MAX_RETRIES] times; [fuel] only makes the recursion
    structural. *)
Fixpoint request_loop (fuel : nat) (get_access_token : M json)
    (endpoint : string) (headers params data : json) (request_type : string)
    (retry_attempts : Z) (response : option http_response) : M json :=
  if retry_attempts <? MAX_RETRIES then
    match fuel with
    | O => raise (OtherError "fuel")
    | S fuel' =>
        headers <- (if py_truthy headers then ret headers
                    else default_headers get_access_token) ;;
        after <- attempt endpoint headers params data request_type response ;;
        match fst after with
        | Return v => ret v
        | Continue =>
            sleep 30 ;;
            request_loop fuel' get_access_token endpoint headers params data
                         request_type (retry_attempts + 1) (snd after)
        end
    end
  else
    r <- local response ;;
    logging ERROR ("Retry limit exceeded for " +++ endpoint
                   +++ ". Please debug - " +++ resp_text r) ;;
    ret JNull.

(** The body of [fitbit_data_request], given the method it calls. *)
Definition fitbit_data_request_body (get_access_token : M json)
    (endpoint : string) (headers params data : json) (request_type : string)
  : M json :=
  logging DEBUG ("Requesting endpoint: " +++ endpoint) ;;
  request_loop (Z.to_nat MAX_RETRIES) get_access_token endpoint headers
               params data request_type 0 None.

(** ** [refresh_fitbit_token] and [get_access_token] *)

(** [int(time.time()) + expires_in - 300]. *)
Definition expiry_time_of (now : Z) (expires_in : json) : Res json :=
  match expires_in with
  | JNum n => Ok (JNum (now + n - 300))
  | JBool b => Ok (JNum (now + Z.b2z b - 300))
  | JFloat f =>
      match float_of_int lib now, float_of_int lib 300 with
      | Ok t, Ok m => Ok (JFloat (PrimFloat.sub (PrimFloat.add t f) m))
      | Exc e, _ => Exc e
      | _, Exc e => Exc e
      end
  | _ => Exc TypeError
  end.

(** The headers and the form of the token exchange. *)
Definition refresh_headers : json :=
  JObj [("Authorization",
         JStr ("Basic " +++ b64encode lib (py_str lib (CLIENT_ID cfg) +++ ":"
                                           +++ py_str lib (CLIENT_SECRET cfg))));
        ("Content-Type", JStr "application/x-www-form-urlencoded")].

Definition refresh_data (refresh_token : json) : json :=
  JObj [("grant_type", JStr "refresh_token"); ("refresh_token", refresh_token)].

Definition refresh_fitbit_token_body
    (fitbit_data_request : string -> json -> json -> json -> string -> M json)
    (refresh_token : json) : M (json * json) :=
  logging INFO "Attempting to refresh tokens..." ;;
  let url := "oauth2/token" in
  let headers := refresh_headers in
  let data := refresh_data refresh_token in
  json_data <- fitbit_data_request url headers (JObj []) data "post" ;;
  access_token <- lift (py_getitem json_data "access_token") ;;
  new_refresh_token <- lift (py_getitem json_data "refresh_token") ;;
  now <- time_now ;;
  expires_in <- lift (py_getitem json_data "expires_in") ;;
  expiry_time <- lift (expiry_time_of now expires_in) ;;
  let tokens := JObj [("access_token", access_token);
                      ("refresh_token", new_refresh_token);
                      ("expiry_timestamp", expiry_time)] in
  write_token_file tokens ;;
  logging INFO "Refreshed fitbit token" ;;
  ret (access_token, new_refresh_token).

(** [expiry_timestamp < int(time.time())]. *)
Definition py_lt_int (x : json) (n : Z) : Res bool :=
  match x with
  | JNum m => Ok (m <? n)
  | JBool b => Ok (Z.b2z b <? n)
  | JFloat f => Ok (float_lt_int lib f n)
  | _ => Exc TypeError
  end.

Definition get_access_token_body
    (fitbit_data_request : string -> json -> json -> json -> string -> M json)
  : M json :=
  opened <- try read_token_file ;;
  locals <- match opened with
            | Ok tokens =>
                a <- lift (py_get tokens "access_token" JNull) ;;
                r <- lift (py_get tokens "refresh_token" JNull) ;;
                e <- lift (py_get tokens "expiry_timestamp" (JNum 0)) ;;
                ret (Some a, Some r, Some e)
            | Exc FileNotFoundError =>
                line <- input "No token file found. Please enter a valid refresh token : " ;;
                ret (None, Some (JStr line), None)
            | Exc e => raise e
            end ;;
  let '(access_token, refresh_token, expiry_timestamp) := locals in
  expiry <- local expiry_timestamp ;;
  now <- time_now ;;
  expired <- lift (py_lt_int expiry now) ;;
  if expired : bool then
    rt <- local refresh_token ;;
    pair <- refresh_fitbit_token_body fitbit_data_request rt ;;
    ret (fst pair)
  else
    local access_token.

(** The methods call each other: [fitbit_data_request] calls
    [get_access_token], which calls [refresh_fitbit_token], which calls
    [fitbit_data_request].  [depth] bounds the nesting of these calls the
    way the interpreter's recursion limit does. *)
Fixpoint fitbit_data_request (depth : nat)
  : string -> json -> json -> json -> string -> M json :=
  match depth with
  | O => fun _ _ _ _ _ => raise RecursionError
  | S d =>
      fitbit_data_request_body (get_access_token_body (fitbit_data_request d))
  end.

Definition get_access_token (depth : nat) : M json :=
  get_access_token_body (fitbit_data_request depth).

Definition refresh_fitbit_token (depth : nat) (refresh_token : json)
  : M (json * json) :=
  refresh_fitbit_token_body (fitbit_data_request depth) refresh_token.

(** ** [write_points] *)

Definition write_points : M unit :=
  s <- get_self ;;
  if py_len (points s) >? 0 then
    out <- try (sink_write (points s) ;;
                points_clear ;;
                logging INFO "Successfully updated influxdb database with new points") ;;
    match out with
    | Ok _ => ret tt
    | Exc (InfluxDBError msg) =>
        logging ERROR ("Unable to connect with influxdb database! "
                       +++ exn_str (InfluxDBError msg))
    | Exc e => raise e
    end
  else ret tt.

(** ** The metric handlers *)

Definition end_date_str : M string :=
  d <- self_end_date ;; ret (strftime_ymd lib d).

Definition start_date_str : M string :=
  d <- self_start_date ;; ret (strftime_ymd lib d).

(** [v or default] for an optional string argument. *)
Definition or_default (v : option string) (default : M string) : M string :=
  match v with
  | Some s => if String.eqb s "" then default else ret s
  | None => default
  end.

(** [datetime.fromisoformat(x)]: only a string is accepted. *)
Definition dt_fromisoformat (x : json) : M (datetime lib) :=
  match x with
  | JStr s => lift (fromisoformat lib s)
  | _ => raise TypeError
  end.

(** [self.timezone.localize(log_time).astimezone(pytz.utc).isoformat()]. *)
Definition localize_to_utc (log_time : datetime lib) : M string :=
  tz <- self_timezone ;;
  local_time <- lift (localize lib tz log_time) ;;
  utc <- lift (astimezone_utc lib local_time) ;;
  ret (isoformat lib utc).

Definition tags_device : json := JObj [("Device", DEVICENAME cfg)].

Definition get_battery_level (depth : nat) : M unit :=
  res <- fitbit_data_request depth "1/user/-/devices.json"
           (JObj []) (JObj []) (JObj []) "GET" ;;
  device <- lift (py_getitem_int res 0) ;;
  match device with
  | JNull =>
      logging ERROR ("Recording battery level failed : " +++ py_str lib (DEVICENAME cfg))
  | _ =>
      tz <- self_timezone ;;
      sync <- lift (py_getitem device "lastSyncTime") ;;
      dt <- dt_fromisoformat sync ;;
      local_time <- lift (localize lib tz dt) ;;
      utc <- lift (astimezone_utc lib local_time) ;;
      level <- lift (py_getitem device "batteryLevel") ;;
      value <- lift (py_float lib level) ;;
      points_append (JObj [("measurement", JStr "DeviceBatteryLevel");
                           ("time", JStr (isoformat lib utc));
                           ("fields", JObj [("value", JFloat value)])]) ;;
      logging INFO ("Recorded battery level for " +++ py_str lib (DEVICENAME cfg))
  end.

Definition default_measurement_list : list (string * string * string) :=
  [("heart", "HeartRate_Intraday", "1sec"); ("steps", "Steps_Intraday", "1min")].

Definition get_intraday_data_limit_1d (depth : nat) (date_str : option string)
    (measurement_list : list (string * string * string)) : M unit :=
  date_str <- or_default date_str end_date_str ;;
  for_each measurement_list (fun measurement =>
    let '(m0, m1, m2) := measurement in
    res <- fitbit_data_request depth
             ("1/user/-/activities/" +++ m0 +++ "/date/" +++ date_str +++ "/1d/" +++ m2 +++ ".json")
             (JObj []) (JObj []) (JObj []) "GET" ;;
    intraday <- lift (py_get res ("activities-" +++ m0 +++ "-intraday") (JObj [])) ;;
    data <- lift (py_get intraday "dataset" JNull) ;;
    if py_truthy data then
      items <- lift (py_iter data) ;;
      for_each items (fun value =>
        t <- lift (py_getitem value "time") ;;
        log_time <- lift (fromisoformat lib (date_str +++ "T" +++ py_str lib t)) ;;
        utc_time <- localize_to_utc log_time ;;
        v <- lift (py_getitem value "value") ;;
        n <- lift (py_int lib v) ;;
        points_append (JObj [("measurement", JStr m1);
                             ("time", JStr utc_time);
                             ("tags", tags_device);
                             ("fields", JObj [("value", JNum n)])])) ;;
      logging INFO ("Recorded " +++ m1 +++ " intraday for date " +++ date_str)
    else
      logging ERROR ("Recording failed: " +++ m1 +++ " intraday for date " +++ date_str)).

(** The timestamp of a daily record: midnight of [data['dateTime']] in
    the account's timezone, in UTC. *)
Definition midnight_utc (data : json) : M string :=
  d <- lift (py_getitem data "dateTime") ;;
  log_time <- lift (fromisoformat lib (py_str lib d +++ "T00:00:00")) ;;
  localize_to_utc log_time.

Definition get_daily_data_limit_30d (depth : nat) (start_date end_date : option string)
  : M unit :=
  start_date <- or_default start_date start_date_str ;;
  end_date <- or_default end_date end_date_str ;;
  let range := start_date +++ " to " +++ end_date in
  res_hrv <- fitbit_data_request depth
               ("1/user/-/hrv/date/" +++ start_date +++ "/" +++ end_date +++ ".json")
               (JObj []) (JObj []) (JObj []) "GET" ;;
  hrv_data_list <- lift (py_get res_hrv "hrv" JNull) ;;
  (if py_truthy hrv_data_list then
     items <- lift (py_iter hrv_data_list) ;;
     for_each items (fun data =>
       utc_time <- midnight_utc data ;;
       value <- lift (py_getitem data "value") ;;
       daily <- lift (py_getitem value "dailyRmssd") ;;
       value' <- lift (py_getitem data "value") ;;
       deep <- lift (py_getitem value' "deepRmssd") ;;
       points_append (JObj [("measurement", JStr "HRV");
                            ("time", JStr utc_time);
                            ("tags", tags_device);
                            ("fields", JObj [("dailyRmssd", daily);
                                             ("deepRmssd", deep)])])) ;;
     logging INFO ("Recorded HRV for date " +++ range)
   else
     logging ERROR ("Recording failed HRV for date " +++ range)) ;;
  res_br <- fitbit_data_request depth
              ("1/user/-/br/date/" +++ start_date +++ "/" +++ end_date +++ ".json")
              (JObj []) (JObj []) (JObj []) "GET" ;;
  br_data_list <- lift (py_get res_br "br" JNull) ;;
  (if py_truthy br_data_list then
     items <- lift (py_iter br_data_list) ;;
     for_each items (fun data =>
       utc_time <- midnight_utc data ;;
       value <- lift (py_getitem data "value") ;;
       rate <- lift (py_getitem value "breathingRate") ;;
       points_append (JObj [("measurement", JStr "BreathingRate");
                            ("time", JStr utc_time);
                            ("tags", tags_device);
                            ("fields", JObj [("value", rate)])])) ;;
     logging INFO ("Recorded BR for date " +++ range)
   else
     logging ERROR ("Recording failed : BR for date " +++ range)) ;;
  res_skin <- fitbit_data_request depth
                ("1/user/-/temp/skin/date/" +++ start_date +++ "/" +++ end_date +++ ".json")
                (JObj []) (JObj []) (JObj []) "GET" ;;
  skin_temp_data_list <- lift (py_get res_skin "tempSkin" JNull) ;;
  (if py_truthy skin_temp_data_list then
     items <- lift (py_iter skin_temp_data_list) ;;
     for_each items (fun temp_record =>
       utc_time <- midnight_utc temp_record ;;
       value <- lift (py_getitem temp_record "value") ;;
       rel <- lift (py_getitem value "nightlyRelative") ;;
       points_append (JObj [("measurement", JStr "Skin Temperature Variation");
                            ("time", JStr utc_time);
                            ("tags", tags_device);
                            ("fields", JObj [("RelativeValue", rel)])])) ;;
     logging INFO ("Recorded Skin Temperature Variation for date " +++ range)
   else
     logging ERROR ("Recording failed: Skin Temperature Variation for date " +++ range)) ;;
  spo2_data_list <- fitbit_data_request depth
                      ("1/user/-/spo2/date/" +++ start_date +++ "/" +++ end_date +++ "/all.json")
                      (JObj []) (JObj []) (JObj []) "GET" ;;
  if py_truthy spo2_data_list then
    all_days <- lift (py_iter spo2_data_list) ;;
    for_each all_days (fun days =>
      data <- lift (py_getitem days "minutes") ;;
      records <- lift (py_iter data) ;;
      for_each records (fun record =>
        minute <- lift (py_getitem record "minute") ;;
        log_time <- dt_fromisoformat minute ;;
        utc_time <- localize_to_utc log_time ;;
        v <- lift (py_getitem record "value") ;;
        f <- lift (py_float lib v) ;;
        points_append (JObj [("measurement", JStr "SPO2_Intraday");
                             ("time", JStr utc_time);
                             ("tags", tags_device);
                             ("fields", JObj [("value", JFloat f)])]))) ;;
    logging INFO ("Recorded SPO2 intraday for date " +++ range)
  else
    logging ERROR ("Recording failed: SPO2 intraday for date " +++ range).

(** [record['levels']['summary'][stage]['minutes']]. *)
Definition summary_minutes (record : json) (stage : string) : Res json :=
  match py_getitem record "levels" with
  | Exc e => Exc e
  | Ok levels =>
      match py_getitem levels "summary" with
      | Exc e => Exc e
      | Ok summary =>
          match py_getitem summary stage with
          | Exc e => Exc e
          | Ok st => py_getitem st "minutes"
          end
      end
  end.

Definition sleep_level_mapping : list (string * json) :=
  [("wake", JNum 3); ("rem", JNum 2); ("light", JNum 1); ("deep", JNum 0);
   ("asleep", JNum 1); ("restless", JNum 2); ("awake", JNum 3)].

(** [sleep_level_mapping[k]]: a list or a dictionary cannot be a key. *)
Definition mapping_getitem (k : json) : Res json :=
  match k with
  | JStr s => match assoc s sleep_level_mapping with
              | Some v => Ok v | None => Exc KeyError end
  | JArr _ | JObj _ => Exc TypeError
  | _ => Exc KeyError
  end.

Definition sleep_tags (record : json) : M json :=
  main <- lift (py_getitem record "isMainSleep") ;;
  ret (JObj [("Device", DEVICENAME cfg); ("isMainSleep", main)]).

Definition get_daily_data_limit_100d (depth : nat) (start_date end_date : option string)
  : M unit :=
  start_date <- or_default start_date start_date_str ;;
  end_date <- or_default end_date end_date_str ;;
  let range := start_date +++ " to " +++ end_date in
  res_sleep <- fitbit_data_request depth
                 ("1.2/user/-/sleep/date/" +++ start_date +++ "/" +++ end_date +++ ".json")
                 (JObj []) (JObj []) (JObj []) "GET" ;;
  sleep_data <- lift (py_get res_sleep "sleep" JNull) ;;
  if py_truthy sleep_data then
    items <- lift (py_iter sleep_data) ;;
    for_each items (fun record =>
      st <- lift (py_getitem record "startTime") ;;
      log_time <- dt_fromisoformat st ;;
      utc_time <- localize_to_utc log_time ;;
      staged <- try (l <- lift (summary_minutes record "light") ;;
                     r <- lift (summary_minutes record "rem") ;;
                     d <- lift (summary_minutes record "deep") ;;
                     ret (l, r, d)) ;;
      minutes <- match staged with
                 | Ok m => ret m
                 | Exc _ =>
                     l <- lift (summary_minutes record "asleep") ;;
                     r <- lift (summary_minutes record "restless") ;;
                     ret (l, r, JNum 0)
                 end ;;
      let '(minutesLight, minutesREM, minutesDeep) := minutes in
      tags <- sleep_tags record ;;
      efficiency <- lift (py_getitem record "efficiency") ;;
      minutesAfterWakeup <- lift (py_getitem record "minutesAfterWakeup") ;;
      minutesAsleep <- lift (py_getitem record "minutesAsleep") ;;
      minutesToFallAsleep <- lift (py_getitem record "minutesToFallAsleep") ;;
      timeInBed <- lift (py_getitem record "timeInBed") ;;
      minutesAwake <- lift (py_getitem record "minutesAwake") ;;
      points_append (JObj [("measurement", JStr "Sleep Summary");
                           ("time", JStr utc_time);
                           ("tags", tags);
                           ("fields", JObj [("efficiency", efficiency);
                                            ("minutesAfterWakeup", minutesAfterWakeup);
                                            ("minutesAsleep", minutesAsleep);
                                            ("minutesToFallAsleep", minutesToFallAsleep);
                                            ("minutesInBed", timeInBed);
                                            ("minutesAwake", minutesAwake);
                                            ("minutesLight", minutesLight);
                                            ("minutesREM", minutesREM);
                                            ("minutesDeep", minutesDeep)])]) ;;
      levels <- lift (py_getitem record "levels") ;;
      stages <- lift (py_getitem levels "data") ;;
      stage_items <- lift (py_iter stages) ;;
      for_each stage_items (fun sleep_stage =>
        t <- lift (py_getitem sleep_stage "dateTime") ;;
        log_time <- dt_fromisoformat t ;;
        utc_time <- localize_to_utc log_time ;;
        tags <- sleep_tags record ;;
        lv <- lift (py_getitem sleep_stage "level") ;;
        level <- lift (mapping_getitem lv) ;;
        seconds <- lift (py_getitem sleep_stage "seconds") ;;
        points_append (JObj [("measurement", JStr "Sleep Levels");
                             ("time", JStr utc_time);
                             ("tags", tags);
                             ("fields", JObj [("level", level);
                                              ("duration_seconds", seconds)])])) ;;
      et <- lift (py_getitem record "endTime") ;;
      wake_time <- dt_fromisoformat et ;;
      utc_wake_time <- localize_to_utc wake_time ;;
      tags <- sleep_tags record ;;
      wake <- lift (mapping_getitem (JStr "wake")) ;;
      points_append (JObj [("measurement", JStr "Sleep Levels");
                           ("time", JStr utc_wake_time);
                           ("tags", tags);
                           ("fields", JObj [("level", wake);
                                            ("duration_seconds", JNull)])])) ;;
    logging INFO ("Recorded Sleep data for date " +++ range)
  else
    logging ERROR ("Recording failed : Sleep data for date " +++ range).

(** [for x in xs: body] where the body assigns a local variable that is
    read after the loop: the binding is threaded through. *)
Fixpoint for_fold {A S} (xs : list A) (s : S) (body : A -> S -> M S) : M S :=
  match xs with
  | [] => ret s
  | x :: rest => s' <- body x s ;; for_fold rest s' body
  end.

Definition activity_minutes_list : list string :=
  ["minutesSedentary"; "minutesLightlyActive"; "minutesFairlyActive"; "minutesVeryActive"].

Definition activity_others_list : list string := ["distance"; "calories"; "steps"].

(** [data["value"]["heartRateZones"][i]["minutes"]]. *)
Definition zone_minutes (data : json) (i : Z) : M json :=
  value <- lift (py_getitem data "value") ;;
  zones <- lift (py_getitem value "heartRateZones") ;;
  zone <- lift (py_getitem_int zones i) ;;
  lift (py_getitem zone "minutes").

Definition get_daily_data_limit_365d (depth : nat) (start_date end_date : option string)
  : M unit :=
  start_date <- or_default start_date start_date_str ;;
  end_date <- or_default end_date end_date_str ;;
  let range := start_date +++ " to " +++ end_date in
  for_each activity_minutes_list (fun activity_type =>
    res_activities_minutes <- fitbit_data_request depth
        ("1/user/-/activities/tracker/" +++ activity_type +++ "/date/"
         +++ start_date +++ "/" +++ end_date +++ ".json")
        (JObj []) (JObj []) (JObj []) "GET" ;;
    activity_minutes_data_list <-
      lift (py_get res_activities_minutes ("activities-tracker-" +++ activity_type) JNull) ;;
    if py_truthy activity_minutes_data_list then
      items <- lift (py_iter activity_minutes_data_list) ;;
      for_each items (fun data =>
        utc_time <- midnight_utc data ;;
        v <- lift (py_getitem data "value") ;;
        n <- lift (py_int lib v) ;;
        points_append (JObj [("measurement", JStr "Activity Minutes");
                             ("time", JStr utc_time);
                             ("tags", tags_device);
                             ("fields", JObj [(activity_type, JNum n)])])) ;;
      logging INFO ("Recorded " +++ activity_type +++ " for date " +++ range)
    else
      logging ERROR ("Recording failed : " +++ activity_type +++ " for date " +++ range)) ;;
  (* [activity_name] is assigned only inside the inner loop *)
  _ <- for_fold activity_others_list (@None string)
    (fun activity_type activity_name =>
      res_activities_other <- fitbit_data_request depth
          ("1/user/-/activities/tracker/" +++ activity_type +++ "/date/"
           +++ start_date +++ "/" +++ end_date +++ ".json")
          (JObj []) (JObj []) (JObj []) "GET" ;;
      activity_others_data_list <-
        lift (py_get res_activities_other ("activities-tracker-" +++ activity_type) JNull) ;;
      if py_truthy activity_others_data_list then
        items <- lift (py_iter activity_others_data_list) ;;
        activity_name <- for_fold items activity_name (fun data _ =>
          utc_time <- midnight_utc data ;;
          let activity_name :=
            if String.eqb activity_type "steps" then "Total Steps" else activity_type in
          v <- lift (py_getitem data "value") ;;
          f <- lift (py_float lib v) ;;
          points_append (JObj [("measurement", JStr activity_name);
                               ("time", JStr utc_time);
                               ("tags", tags_device);
                               ("fields", JObj [("value", JFloat f)])]) ;;
          ret (Some activity_name)) ;;
        name <- local activity_name ;;
        logging INFO ("Recorded " +++ name +++ " for date " +++ range) ;;
        ret activity_name
      else
        name <- local activity_name ;;
        logging ERROR ("Recording failed: " +++ name +++ " for date " +++ range) ;;
        ret activity_name) ;;
  res_activities <- fitbit_data_request depth
      ("1/user/-/activities/heart/date/" +++ start_date +++ "/" +++ end_date +++ ".json")
      (JObj []) (JObj []) (JObj []) "GET" ;;
  HR_zones_data_list <- lift (py_getitem res_activities "activities-heart") ;;
  if py_truthy HR_zones_data_list then
    items <- lift (py_iter HR_zones_data_list) ;;
    for_each items (fun data =>
      utc_time <- midnight_utc data ;;
      normal <- zone_minutes data 0 ;;
      fat_burn <- zone_minutes data 1 ;;
      cardio <- zone_minutes data 2 ;;
      peak <- zone_minutes data 3 ;;
      points_append (JObj [("measurement", JStr "HR zones");
                           ("time", JStr utc_time);
                           ("tags", tags_device);
                           ("fields", JObj [("Normal", normal);
                                            ("Fat Burn", fat_burn);
                                            ("Cardio", cardio);
                                            ("Peak", peak)])]) ;;
      value <- lift (py_getitem data "value") ;;
      has_resting <- lift (py_contains "restingHeartRate" value) ;;
      if has_resting : bool then
        value <- lift (py_getitem data "value") ;;
        resting <- lift (py_getitem value "restingHeartRate") ;;
        points_append (JObj [("measurement", JStr "RestingHR");
                             ("time", JStr utc_time);
                             ("tags", tags_device);
                             ("fields", JObj [("value", resting)])])
      else ret tt) ;;
    logging INFO ("Recorded RHR and HR zones for date " +++ range)
  else
    logging ERROR ("Recording failed : RHR and HR zones for date " +++ range).

Definition get_daily_data_limit_none (depth : nat) (start_date end_date : option string)
  : M unit :=
  start_date <- or_default start_date start_date_str ;;
  end_date <- or_default end_date end_date_str ;;
  let range := start_date +++ " to " +++ end_date in
  data_list <- fitbit_data_request depth
                 ("1/user/-/spo2/date/" +++ start_date +++ "/" +++ end_date +++ ".json")
                 (JObj []) (JObj []) (JObj []) "GET" ;;
  if py_truthy data_list then
    items <- lift (py_iter data_list) ;;
    for_each items (fun data =>
      utc_time <- midnight_utc data ;;
      value <- lift (py_getitem data "value") ;;
      avg <- lift (py_getitem value "avg") ;;
      value <- lift (py_getitem data "value") ;;
      max <- lift (py_getitem value "max") ;;
      value <- lift (py_getitem data "value") ;;
      min <- lift (py_getitem value "min") ;;
      points_append (JObj [("measurement", JStr "SPO2");
                           ("time", JStr utc_time);
                           ("tags", tags_device);
                           ("fields", JObj [("avg", avg); ("max", max); ("min", min)])])) ;;
    logging INFO ("Recorded Avg SPO2 for date " +++ range)
  else
    logging ERROR ("Recording failed: Avg SPO2 for date " +++ range).

(** [if key in activity: fields[name] = conv(activity[key])]. *)
Definition add_field (activity : json) (key name : string)
    (conv : json -> Res json) (fields : list (string * json))
  : M (list (string * json)) :=
  present <- lift (py_contains key activity) ;;
  if present : bool then
    v <- lift (py_getitem activity key) ;;
    c <- lift (conv v) ;;
    ret (fields ++ [(name, c)])
  else ret fields.

Definition conv_int (v : json) : Res json :=
  match py_int lib v with Ok n => Ok (JNum n) | Exc e => Exc e end.

Definition conv_float (v : json) : Res json :=
  match py_float lib v with Ok f => Ok (JFloat f) | Exc e => Exc e end.

(** [x.strip("Z")]: only a string has the method. *)
Definition py_strip_Z (x : json) : Res string :=
  match x with
  | JStr s => Ok (strip_Z s)
  | _ => Exc AttributeError
  end.

Definition fetch_latest_activities (depth : nat) (end_date : option string) : M unit :=
  end_date <- or_default end_date end_date_str ;;
  recent_activities_data <- fitbit_data_request depth "1/user/-/activities/list.json"
      (JObj [])
      (JObj [("beforeDate", JStr end_date); ("sort", JStr "desc");
             ("limit", JNum 50); ("offset", JNum 0)])
      (JObj []) "GET" ;;
  if py_truthy recent_activities_data then
    activities <- lift (py_getitem recent_activities_data "activities") ;;
    items <- lift (py_iter activities) ;;
    for_each items (fun activity =>
      fields <- add_field activity "activeDuration" "ActiveDuration" conv_int [] ;;
      fields <- add_field activity "averageHeartRate" "AverageHeartRate" conv_int fields ;;
      fields <- add_field activity "calories" "calories" conv_int fields ;;
      fields <- add_field activity "duration" "duration" conv_int fields ;;
      fields <- add_field activity "distance" "distance" conv_float fields ;;
      fields <- add_field activity "steps" "steps" conv_int fields ;;
      st <- lift (py_getitem activity "startTime") ;;
      stripped <- lift (py_strip_Z st) ;;
      starttime <- lift (fromisoformat lib stripped) ;;
      utc <- lift (astimezone_utc lib starttime) ;;
      let utc_time := isoformat lib utc in
      name <- lift (py_getitem activity "activityName") ;;
      points_append (JObj [("measurement", JStr "Activity Records");
                           ("time", JStr utc_time);
                           ("tags", JObj [("ActivityName", name)]);
                           ("fields", JObj fields)])) ;;
    logging INFO ("Fetched 50 recent activities before date " +++ end_date)
  else
    logging ERROR ("Fetching 50 recent activities failed: before date " +++ end_date).

(** ** Construction and the startup pass *)

(** [self.end_date - timedelta(days=AUTO_UPDATE_DATE_RANGE)]. *)
Definition working_start (end_date : datetime lib) : Res (datetime lib) :=
  add_days lib end_date (- AUTO_UPDATE_DATE_RANGE cfg).

(** [__init__].  Creating the database client opens no connection and
    is left out. *)
Definition init (depth : nat) : M unit :=
  set_self (mkSelf [] None None None) ;;
  tz <- (if py_truthy (LOCAL_TIMEZONE cfg)
         then lift (pytz_timezone lib (LOCAL_TIMEZONE cfg))
         else
           profile <- fitbit_data_request depth "1/user/-/profile.json"
                        (JObj []) (JObj []) (JObj []) "GET" ;;
           user <- lift (py_getitem profile "user") ;;
           name <- lift (py_getitem user "timezone") ;;
           lift (pytz_timezone lib name)) ;;
  s <- get_self ;;
  set_self (mkSelf (points s) (Some tz) (end_date s) (start_date s)) ;;
  now <- time_now ;;
  s <- get_self ;;
  set_self (mkSelf (points s) (timezone s) (Some (datetime_now lib now)) (start_date s)) ;;
  e <- self_end_date ;;
  st <- lift (working_start e) ;;
  s <- get_self ;;
  set_self (mkSelf (points s) (timezone s) (end_date s) (Some st)).

Definition update_working_dates : M unit :=
  now <- time_now ;;
  s <- get_self ;;
  set_self (mkSelf (points s) (timezone s) (Some (datetime_now lib now)) (start_date s)) ;;
  e <- self_end_date ;;
  st <- lift (working_start e) ;;
  s <- get_self ;;
  set_self (mkSelf (points s) (timezone s) (end_date s) (Some st)).

(** [range(n)]. *)
Definition py_range (n : Z) : list Z :=
  map Z.of_nat (seq 0 (Z.to_nat n)).

(** The list comprehension that builds [date_list]. *)
Definition build_date_list : M (list string) :=
  e <- self_end_date ;;
  s <- self_start_date ;;
  days <- lift (diff_days lib e s) ;;
  for_fold (py_range (days + 1)) [] (fun i acc =>
    s <- self_start_date ;;
    d <- lift (add_days lib s i) ;;
    ret (acc ++ [strftime_ymd lib d])).

(** [date_list[i]]. *)
Definition date_at (date_list : list string) (i : Z) : M string :=
  match py_index date_list i with
  | Some d => ret d
  | None => raise IndexError
  end.

(** [for date_range in yield_dates_with_gap(date_list, gap):
       do_bulk_update(handler, date_range[0], date_range[1])].
    The generator only reads [date_list], which nothing changes during
    the sweep, so its chunks are computed first; an exception of the
    generator arrives after the handler has run for the chunks before
    it.  No job is scheduled while the startup pass runs, so the
    [run_pending()] of [do_bulk_update] finds nothing to do. *)
Definition bulk_sweep (date_list : list string) (gap : Z)
    (handler : option string -> option string -> M unit) : M unit :=
  let (chunks, ending) :=
    yield_dates_with_gap (S (List.length date_list)) date_list gap in
  for_each chunks (fun date_range =>
    handler (Some (fst date_range)) (Some (snd date_range))) ;;
  match ending with
  | Finished => ret tt
  | Raised e => raise e
  | OutOfFuel => raise (OtherError "fuel")
  end.

Definition startup_update (depth : nat) : M unit :=
  if AUTO_DATE_RANGE cfg then
    date_list <- build_date_list ;;
    (if py_len date_list >? 3
     then logging WARNING "Auto schedule update is not meant for more than 3 days at a time, please consider lowering the auto_update_date_range variable to aviod rate limit hit!"
     else ret tt) ;;
    for_each date_list (fun date_str =>
      get_intraday_data_limit_1d depth (Some date_str) default_measurement_list) ;;
    get_daily_data_limit_30d depth None None ;;
    get_daily_data_limit_100d depth None None ;;
    get_daily_data_limit_365d depth None None ;;
    get_daily_data_limit_none depth None None ;;
    get_battery_level depth ;;
    fetch_latest_activities depth None
  else
    input_start_date <- input "Enter start date in YYYY-MM-DD format : " ;;
    input_end_date <- input "Enter end date in YYYY-MM-DD format : " ;;
    st <- lift (strptime_ymd lib input_start_date) ;;
    s <- get_self ;;
    set_self (mkSelf (points s) (timezone s) (end_date s) (Some st)) ;;
    en <- lift (strptime_ymd lib input_end_date) ;;
    s <- get_self ;;
    set_self (mkSelf (points s) (timezone s) (Some en) (start_date s)) ;;
    date_list <- build_date_list ;;
    (* [def do_bulk_update(funcname: function, ...)]: the name
       [function] is not defined *)
    (if deferred_annotations lib then ret tt else raise NameError) ;;
    last <- date_at date_list (-1) ;;
    fetch_latest_activities depth (Some last) ;;
    write_points ;;
    first <- date_at date_list 0 ;;
    last <- date_at date_list (-1) ;;
    get_daily_data_limit_none depth (Some first) (Some last) ;;
    bulk_sweep date_list 360 (get_daily_data_limit_365d depth) ;;
    bulk_sweep date_list 98 (get_daily_data_limit_100d depth) ;;
    bulk_sweep date_list 28 (get_daily_data_limit_30d depth) ;;
    for_each date_list (fun single_day =>
      get_intraday_data_limit_1d depth (Some single_day)
        [("heart", "HeartRate_Intraday", "1sec"); ("steps", "Steps_Intraday", "1min")]) ;;
    st <- start_date_str ;;
    en <- end_date_str ;;
    logging INFO ("Success: Bulk update complete for " +++ st +++ " to " +++ en).

(** ** Worlds after an effect, for the statements below *)

(** The world after one attempt of [fitbit_data_request] that sent [rq],
    left [rest] on the network, logged [logs] and slept [sleeps]. *)
Definition after_attempt (w : World) (rq : request) (rest : list net_event)
    (logs : list (level * string)) (sleeps : list Z) : World :=
  mkWorld (w_clock w + fold_right Z.add 0 sleeps) (w_token_file w) rest
          (w_requests w ++ [rq]) (w_slept w ++ sleeps) (w_log w ++ logs)
          (w_stdin w) (w_sink w) (w_written w) (self w).

(** The world with more log lines. *)
Definition with_log (w : World) (logs : list (level * string)) : World :=
  mkWorld (w_clock w) (w_token_file w) (w_net w) (w_requests w) (w_slept w)
          (w_log w ++ logs) (w_stdin w) (w_sink w) (w_written w) (self w).

(** The statuses of the branch that carries the comment "Fitbit server
    is down or not responding". *)
Definition server_down (status : Z) : bool :=
  existsb (Z.eqb status) [500; 502; 503; 504].

(** A response that sends the loop into one of its retry branches
    without raising. *)
Definition retryable (r : http_response) : Prop :=
  status_code r = 401 \/ server_down (status_code r) = true
  \/ (status_code r = 429 /\
      exists h n, header_lookup "Retry-After" (resp_headers r) = Some h
                  /\ py_int lib (JStr h) = Ok n /\ 0 <= n + 15).

(** The retry branches of the loop body: the event [ev] on the network
    sends the attempt into a branch that logs [logs], sleeps [sleeps]
    and leaves [response] bound to [rb] (it was [resp] before). *)
Inductive retry_branch (resp : option http_response)
  : net_event -> option http_response -> list (level * string) -> list Z -> Prop :=
| branch_rate_limited (r : http_response) (h : string) (n : Z) :
    status_code r = 429 ->
    header_lookup "Retry-After" (resp_headers r) = Some h ->
    py_int lib (JStr h) = Ok n ->
    0 <= n + 15 ->
    retry_branch resp (Respond r) (Some r)
      [(WARNING, "Hit API ratelimit. Retrying in "
                 +++ py_str lib (JNum (n + 15)) +++ "s...")]
      [n + 15]
| branch_unauthorized (r : http_response) :
    status_code r = 401 ->
    retry_branch resp (Respond r) (Some r)
      [(WARNING, "Unauthorized error: " +++ resp_text r)] [30]
| branch_server_down (r : http_response) :
    server_down (status_code r) = true ->
    retry_branch resp (Respond r) (Some r)
      [(WARNING, "Error " +++ py_str lib (JNum (status_code r))
                 +++ " encountered. Retrying after 120s....")] [120]
| branch_connection_error (msg : string) :
    retry_branch resp (NetFail (ConnectionError msg)) resp
      [(ERROR, "Connection error, retrying in 30 seconds: " +++ msg)] [].

(** The token file holds a token that has not expired. *)
Definition token_fresh (w : World) : Prop :=
  exists kv e, w_token_file w = Some (JObj kv)
               /\ assoc "expiry_timestamp" kv = Some (JNum e)
               /\ w_clock w <= e.

(** The access token the token file holds. *)
Definition stored_access_token (w : World) : json :=
  match w_token_file w with
  | Some (JObj kv) =>
      match assoc "access_token" kv with Some a => a | None => JNull end
  | _ => JNull
  end.

(** The default headers for a given token. *)
Definition bearer_headers (tok : json) : json :=
  JObj [("Authorization", JStr ("Bearer " +++ py_str lib tok));
        ("Accept", JStr "application/json");
        ("Accept-Language", FITBIT_LANGUAGE cfg)].

(** The request of one token exchange. *)
Definition token_request (refresh_token : json) : request :=
  the_request "oauth2/token" refresh_headers (JObj [])
              (refresh_data refresh_token) "post".

(** The world after a refresh that succeeded at the first attempt:
    one request was sent, the token file was overwritten, three lines
    were logged. *)
Definition after_refresh (w : World) (refresh_token : json)
    (rest : list net_event) (tokens : json) : World :=
  mkWorld (w_clock w) (Some tokens) rest
          (w_requests w ++ [token_request refresh_token]) (w_slept w)
          (w_log w ++ [(INFO, "Attempting to refresh tokens...");
                       (DEBUG, "Requesting endpoint: oauth2/token");
                       (INFO, "Refreshed fitbit token")])
          (w_stdin w) (w_sink w) (w_written w) (self w).

(** The world after the prompt has read a line. *)
Definition after_input (w : World) (rest : list string) : World :=
  mkWorld (w_clock w) (w_token_file w) (w_net w) (w_requests w) (w_slept w)
          (w_log w) rest (w_sink w) (w_written w) (self w).

(** The world after a flush that the database accepted. *)
Definition after_flush (w : World) (rest : list sink_event) : World :=
  mkWorld (w_clock w) (w_token_file w) (w_net w) (w_requests w) (w_slept w)
          (w_log w ++ [(INFO, "Successfully updated influxdb database with new points")])
          (w_stdin w) rest (w_written w ++ [points (self w)])
          (mkSelf [] (timezone (self w)) (end_date (self w)) (start_date (self w))).

(** The world after a flush that the database refused. *)
Definition after_failed_flush (w : World) (rest : list sink_event) (msg : string)
  : World :=
  mkWorld (w_clock w) (w_token_file w) (w_net w) (w_requests w) (w_slept w)
          (w_log w ++ [(ERROR, "Unable to connect with influxdb database! " +++ msg)])
          (w_stdin w) rest (w_written w) (self w).

(** ** Timestamps of points *)

(** The value under ["time"] of a point. *)
Definition point_time (p : json) : option string :=
  match p with
  | JObj kv => match assoc "time" kv with Some (JStr t) => Some t | _ => None end
  | _ => None
  end.

(** [t] is what [tz.localize(fromisoformat(s)).astimezone(utc).isoformat()]
    gives for some text [s]: a timestamp read in the zone [tz] and
    converted to UTC. *)
Definition localized_utc (tz : tzinfo lib) (t : string) : Prop :=
  exists s dt local_time utc,
    fromisoformat lib s = Ok dt
    /\ localize lib tz dt = Ok local_time
    /\ astimezone_utc lib local_time = Ok utc
    /\ t = isoformat lib utc.

Definition localized_point (tz : tzinfo lib) (p : json) : Prop :=
  exists t, point_time p = Some t /\ localized_utc tz t.

(** [t] is what [fromisoformat(s).astimezone(utc).isoformat()] gives for
    some text [s]: the timestamp is converted by the offset it carries,
    or as local time of the machine when it carries none; no zone is
    attached to it first. *)
Definition offset_utc (t : string) : Prop :=
  exists s dt utc,
    fromisoformat lib s = Ok dt
    /\ astimezone_utc lib dt = Ok utc
    /\ t = isoformat lib utc.

Definition offset_point (p : json) : Prop :=
  exists t, point_time p = Some t /\ offset_utc t.

(** The conversion the specification describes, applied to a timestamp
    text: read it, attach the account's zone, convert to UTC, print. *)
Definition account_conversion (tz : tzinfo lib) (s : string) : Res string :=
  match fromisoformat lib s with
  | Exc e => Exc e
  | Ok dt =>
      match localize lib tz dt with
      | Exc e => Exc e
      | Ok local_time =>
          match astimezone_utc lib local_time with
          | Exc e => Exc e
          | Ok utc => Ok (isoformat lib utc)
          end
      end
  end.

(** The conversion [fetch_latest_activities] applies: read the text and
    convert to UTC, without attaching a zone. *)
Definition own_offset_conversion (s : string) : Res string :=
  match fromisoformat lib s with
  | Exc e => Exc e
  | Ok dt =>
      match astimezone_utc lib dt with
      | Exc e => Exc e
      | Ok utc => Ok (isoformat lib utc)
      end
  end.

(** A computation that leaves the object as it is. *)
Definition keeps_self {A} (c : M A) : Prop :=
  forall w, self (snd (c w)) = self w.

(** A computation that, run on an object whose timezone is [tz], keeps
    the timezone, only appends points to the buffer, appends only points
    that satisfy [Q], and returns only values that satisfy [R]. *)
Definition appends (tz : tzinfo lib) (Q : json -> Prop) {A} (c : M A)
    (R : A -> Prop) : Prop :=
  forall w,
    timezone (self w) = Some tz ->
    timezone (self (snd (c w))) = Some tz
    /\ (exists new, points (self (snd (c w))) = points (self w) ++ new
                    /\ Forall Q new)
    /\ (forall a, fst (c w) = Ok a -> R a).

End Model.

(* ===================================================================== *)
(** * A small implementation of the library interface

    Enough of the interpreter and of [datetime]/[pytz] to run the model:
    decimal integers, timestamps of the form [YYYY-MM-DDTHH:MM:SS] with
    an optional [+HH:MM] or [-HH:MM] offset, zones with a fixed offset,
    and a machine whose local time is UTC. *)
(* ===================================================================== *)

Definition digit_of_ascii (c : ascii) : option Z :=
  let n := Z.of_nat (nat_of_ascii c) in
  if (48 <=? n) && (n <=? 57) then Some (n - 48) else None.

Fixpoint parse_digits_from (acc : Z) (s : string) : option Z :=
  match s with
  | EmptyString => Some acc
  | String c rest =>
      match digit_of_ascii c with
      | Some d => parse_digits_from (10 * acc + d) rest
      | None => None
      end
  end.

(** A non-empty run of decimal digits. *)
Definition parse_digits (s : string) : option Z :=
  match s with
  | EmptyString => None
  | _ => parse_digits_from 0 s
  end.

(** An optional sign and decimal digits. *)
Definition parse_int (s : string) : option Z :=
  match s with
  | String "-" rest => option_map Z.opp (parse_digits rest)
  | String "+" rest => parse_digits rest
  | _ => parse_digits s
  end.

Definition string_of_Z (z : Z) : string := NilZero.string_of_int (Z.to_int z).

(** A number between 0 and 99 on two digits. *)
Definition pad2 (z : Z) : string :=
  if z <? 10 then "0" +++ string_of_Z z else string_of_Z z.

Definition pad4 (z : Z) : string :=
  if z <? 10 then "000" +++ string_of_Z z
  else if z <? 100 then "00" +++ string_of_Z z
  else if z <? 1000 then "0" +++ string_of_Z z
  else string_of_Z z.

(** Days between 1970-01-01 and a date of the proleptic Gregorian
    calendar, and back. *)
Definition days_from_civil (y m d : Z) : Z :=
  let y := if m <=? 2 then y - 1 else y in
  let era := y / 400 in
  let yoe := y - era * 400 in
  let doy := (153 * (if m >? 2 then m - 3 else m + 9) + 2) / 5 + d - 1 in
  let doe := yoe * 365 + yoe / 4 - yoe / 100 + doy in
  era * 146097 + doe - 719468.

Definition civil_from_days (z : Z) : Z * Z * Z :=
  let z := z + 719468 in
  let era := z / 146097 in
  let doe := z - era * 146097 in
  let yoe := (doe - doe / 1460 + doe / 36524 - doe / 146096) / 365 in
  let doy := doe - (365 * yoe + yoe / 4 - yoe / 100) in
  let mp := (5 * doy + 2) / 153 in
  let d := doy - (153 * mp + 2) / 5 + 1 in
  let m := if mp <? 10 then mp + 3 else mp - 9 in
  ((if m <=? 2 then yoe + era * 400 + 1 else yoe + era * 400), m, d).

(** A [datetime]: the seconds its wall clock shows since
    1970-01-01T00:00:00, and its offset from UTC in seconds when it is
    aware of one. *)
Record simple_datetime : Type := mkDatetime {
  wall : Z;
  utcoffset : option Z;
}.

Definition days_in_month (y m : Z) : Z :=
  days_from_civil (if m =? 12 then y + 1 else y) (if m =? 12 then 1 else m + 1) 1
  - days_from_civil y m 1.

(** [YYYY-MM-DD]. *)
Definition parse_date (s : string) : option Z :=
  match parse_digits (substring 0 4 s), parse_digits (substring 5 2 s),
        parse_digits (substring 8 2 s) with
  | Some y, Some m, Some d =>
      if String.eqb (substring 4 1 s) "-" && String.eqb (substring 7 1 s) "-"
         && (String.length s =? 10)%nat
         && (1 <=? y) && (1 <=? m) && (m <=? 12) && (1 <=? d)
         && (d <=? days_in_month y m)
      then Some (days_from_civil y m d) else None
  | _, _, _ => None
  end.

(** [HH:MM:SS]. *)
Definition parse_clock (s : string) : option Z :=
  match parse_digits (substring 0 2 s), parse_digits (substring 3 2 s),
        parse_digits (substring 6 2 s) with
  | Some h, Some mi, Some sec =>
      if String.eqb (substring 2 1 s) ":" && String.eqb (substring 5 1 s) ":"
         && (String.length s =? 8)%nat
         && (h <=? 23) && (mi <=? 59) && (sec <=? 59)
      then Some (h * 3600 + mi * 60 + sec) else None
  | _, _, _ => None
  end.

(** [+HH:MM] or [-HH:MM]. *)
Definition parse_offset (s : string) : option Z :=
  match parse_digits (substring 1 2 s), parse_digits (substring 4 2 s) with
  | Some h, Some mi =>
      if String.eqb (substring 3 1 s) ":" && (String.length s =? 6)%nat
         && (h <=? 23) && (mi <=? 59)
      then
        if String.eqb (substring 0 1 s) "+" then Some (h * 3600 + mi * 60)
        else if String.eqb (substring 0 1 s) "-" then Some (- (h * 3600 + mi * 60))
        else None
      else None
  | _, _ => None
  end.

Definition simple_fromisoformat (s : string) : Res simple_datetime :=
  match parse_date (substring 0 10 s), parse_clock (substring 11 8 s) with
  | Some days, Some secs =>
      if negb (String.eqb (substring 10 1 s) "T") then Exc ValueError
      else if (String.length s =? 19)%nat
      then Ok (mkDatetime (days * 86400 + secs) None)
      else
        match parse_offset (substring 19 6 s) with
        | Some off =>
            if (String.length s =? 25)%nat
            then Ok (mkDatetime (days * 86400 + secs) (Some off))
            else Exc ValueError
        | None => Exc ValueError
        end
  | _, _ => Exc ValueError
  end.

Definition format_date (days : Z) : string :=
  let '(y, m, d) := civil_from_days days in
  pad4 y +++ "-" +++ pad2 m +++ "-" +++ pad2 d.

Definition format_offset (off : Z) : string :=
  let a := Z.abs off in
  (if off <? 0 then "-" else "+") +++ pad2 (a / 3600) +++ ":" +++ pad2 ((a mod 3600) / 60).

Definition simple_isoformat (dt : simple_datetime) : string :=
  let days := wall dt / 86400 in
  let secs := wall dt mod 86400 in
  format_date days +++ "T" +++ pad2 (secs / 3600) +++ ":" +++ pad2 ((secs mod 3600) / 60)
  +++ ":" +++ pad2 (secs mod 60)
  +++ match utcoffset dt with Some off => format_offset off | None => "" end.

(** Zones with a fixed offset, by name. *)
Definition simple_timezone (name : json) : Res Z :=
  match name with
  | JStr "UTC" => Ok 0
  | JStr "Asia/Kolkata" => Ok 19800
  | JStr "Asia/Tokyo" => Ok 32400
  | JStr "America/Phoenix" => Ok (-25200)
  | JStr _ => Exc (OtherError "UnknownTimeZoneError")
  | _ => Exc AttributeError
  end.

(** [tz.localize(dt)] refuses a datetime that already has a zone. *)
Definition simple_localize (tz : Z) (dt : simple_datetime) : Res simple_datetime :=
  match utcoffset dt with
  | Some _ => Exc ValueError
  | None => Ok (mkDatetime (wall dt) (Some tz))
  end.

(** [dt.astimezone(pytz.utc)]: a naive datetime is taken to be in the
    machine's local time, here UTC. *)
Definition simple_astimezone_utc (dt : simple_datetime) : Res simple_datetime :=
  match utcoffset dt with
  | Some off => Ok (mkDatetime (wall dt - off) (Some 0))
  | None => Ok (mkDatetime (wall dt) (Some 0))
  end.

Definition simple_str (x : json) : string :=
  match x with
  | JNull => "None"
  | JBool true => "True"
  | JBool false => "False"
  | JNum n => string_of_Z n
  | JStr s => s
  | _ => "<object>"
  end.

(** Conversion of an [int] to a [float]: rounded to the nearest, refused
    when too large. *)
Definition simple_float_of_int (z : Z) : Res PrimFloat.float :=
  match SpecFloat.binary_normalize FloatOps.prec FloatOps.emax z 0 false with
  | SpecFloat.S754_infinity _ => Exc OverflowError
  | sf => Ok (FloatOps.SF2Prim sf)
  end.

(** The exact comparison [f < n]. *)
Definition simple_float_lt_int (f : PrimFloat.float) (n : Z) : bool :=
  match FloatOps.Prim2SF f with
  | SpecFloat.S754_nan => false
  | SpecFloat.S754_zero _ => 0 <? n
  | SpecFloat.S754_infinity s => s
  | SpecFloat.S754_finite s m e =>
      let v := if s then Z.neg m else Z.pos m in
      if 0 <=? e then v * 2 ^ e <? n else v <? n * 2 ^ (- e)
  end.

(** [int(f)]: truncation towards zero. *)
Definition simple_int_of_float (f : PrimFloat.float) : Res Z :=
  match FloatOps.Prim2SF f with
  | SpecFloat.S754_nan => Exc ValueError
  | SpecFloat.S754_zero _ => Ok 0
  | SpecFloat.S754_infinity _ => Exc OverflowError
  | SpecFloat.S754_finite s m e =>
      let v := if s then Z.neg m else Z.pos m in
      Ok (if 0 <=? e then v * 2 ^ e else Z.quot v (2 ^ (- e)))
  end.

Definition simple_int (x : json) : Res Z :=
  match x with
  | JNum n => Ok n
  | JBool b => Ok (Z.b2z b)
  | JStr s => match parse_int s with Some n => Ok n | None => Exc ValueError end
  | JFloat f => simple_int_of_float f
  | _ => Exc TypeError
  end.

(** [float(x)]; of the strings only decimal integers are read. *)
Definition simple_float (x : json) : Res PrimFloat.float :=
  match x with
  | JFloat f => Ok f
  | JNum n => simple_float_of_int n
  | JBool b => Ok (if b then PrimFloat.one else PrimFloat.zero)
  | JStr s =>
      match parse_int s with
      | Some n => simple_float_of_int n
      | None => Exc (OtherError "unsupported")
      end
  | _ => Exc TypeError
  end.

(** Base64 of the bytes of a string. *)
Definition b64_alphabet : string :=
  "ABCDEFGHIJKLMNOPQRSTUVWXYZabcdefghijklmnopqrstuvwxyz0123456789+/".

Definition b64_char (n : Z) : string := substring (Z.to_nat (n mod 64)) 1 b64_alphabet.

Fixpoint b64_bytes (l : list Z) : string :=
  match l with
  | [] => ""
  | [a] =>
      let n := a * 65536 in
      b64_char (n / 262144) +++ b64_char (n / 4096) +++ "=="
  | [a; b] =>
      let n := a * 65536 + b * 256 in
      b64_char (n / 262144) +++ b64_char (n / 4096) +++ b64_char (n / 64) +++ "="
  | a :: b :: c :: rest =>
      let n := a * 65536 + b * 256 + c in
      b64_char (n / 262144) +++ b64_char (n / 4096) +++ b64_char (n / 64)
      +++ b64_char n +++ b64_bytes rest
  end.

Definition b64encode_string (s : string) : string :=
  b64_bytes (map (fun c => Z.of_nat (nat_of_ascii c)) (list_ascii_of_string s)).

Definition simple_diff_days (a b : simple_datetime) : Res Z :=
  match utcoffset a, utcoffset b with
  | None, None => Ok ((wall a - wall b) / 86400)
  | Some oa, Some ob => Ok (((wall a - oa) - (wall b - ob)) / 86400)
  | _, _ => Exc TypeError
  end.

Definition simple_strptime_ymd (s : string) : Res simple_datetime :=
  match parse_date s with
  | Some days => Ok (mkDatetime (days * 86400) None)
  | None => Exc ValueError
  end.

Definition simple_lib : PyLib :=
  mkPyLib simple_datetime Z
    simple_str simple_int simple_float
    simple_float_of_int
    simple_float_lt_int
    b64encode_string
    simple_timezone
    simple_fromisoformat
    simple_localize
    simple_astimezone_utc
    simple_isoformat
    (fun now => mkDatetime now None)
    (fun dt n => Ok (mkDatetime (wall dt + 86400 * n) (utcoffset dt)))
    simple_diff_days
    (fun dt => format_date (wall dt / 86400))
    simple_strptime_ymd
    false.

(* ===================================================================== *)
(** * Concrete worlds for the examples *)
(* ===================================================================== *)

Definition cfg0 : Config :=
  mkConfig (JStr "en_US") (JStr "fitbit") (JStr "home") (JStr "23ABCD")
           (JStr "s3cret") (JStr "Charge 5") true 1 (JStr "Asia/Tokyo").

(** A token file whose access token expires at second 100. *)
Definition token_file_A : json :=
  JObj [("access_token", JStr "A"); ("refresh_token", JStr "R");
        ("expiry_timestamp", JNum 100)].

(** An error answer: a status, headers and a text that is not JSON. *)
Definition error_answer (status : Z) (headers : list (string * string))
    (text : string) : http_response :=
  mkResponse status headers text (Exc JSONDecodeError).

(** A successful answer with a JSON body. *)
Definition ok_answer (body : json) : http_response :=
  mkResponse 200 [] "" (Ok body).

(** A world at a given second with a token file and a network script;
    nothing was done yet and the object is as the constructor starts. *)
Definition world_at (clock : Z) (file : option json) (net : list net_event)
  : World simple_lib :=
  mkWorld simple_lib clock file net [] [] [] [] [] []
          (mkSelf simple_lib [] None None None).

(** The same with the object initialised for Tokyo and a buffer. *)
Definition world_with_points (clock : Z) (net : list net_event)
    (sink : list sink_event) (buffer : list json) : World simple_lib :=
  mkWorld simple_lib clock (Some token_file_A) net [] [] [] [] sink []
          (mkSelf simple_lib buffer (Some 32400)
                  (Some (mkDatetime 1704067200 None))
                  (Some (mkDatetime 1703980800 None))).

Definition devices_body : json :=
  JArr [JObj [("batteryLevel", JNum 85);
              ("lastSyncTime", JStr "2024-01-01T10:00:00")]].

Definition sample_point : json :=
  JObj [("measurement", JStr "DeviceBatteryLevel");
        ("time", JStr "2024-01-01T01:00:00+00:00");
        ("fields", JObj [("value", JNum 85)])].

(** The answer of the token endpoint to an exchange. *)
Definition new_tokens_body : json :=
  JObj [("access_token", JStr "B"); ("refresh_token", JStr "R2");
        ("expires_in", JNum 28800)].

Definition devices_endpoint : string := "1/user/-/devices.json".

(** Three answers 500 in a row. *)
Definition world_three_500 : World simple_lib :=
  world_at 50 (Some token_file_A)
    [Respond (error_answer 500 [] "Internal Server Error");
     Respond (error_answer 500 [] "Internal Server Error");
     Respond (error_answer 500 [] "Internal Server Error")].

(** An answer 404, then nothing. *)
Definition world_404 : World simple_lib :=
  world_at 50 (Some token_file_A) [Respond (error_answer 404 [] "Not Found")].

(** An answer 501, then a success that is never asked for. *)
Definition world_501 : World simple_lib :=
  world_at 50 (Some token_file_A)
    [Respond (error_answer 501 [] "Not Implemented");
     Respond (ok_answer devices_body)].

(** The network is down for every attempt. *)
Definition world_offline : World simple_lib :=
  world_at 50 (Some token_file_A)
    [NetFail (ConnectionError "refused"); NetFail (ConnectionError "refused");
     NetFail (ConnectionError "refused")].

(** 429 with [Retry-After: 5], then 200. *)
Definition world_429_then_200 : World simple_lib :=
  world_at 50 (Some token_file_A)
    [Respond (error_answer 429 [("Retry-After", "5")] "Too Many Requests");
     Respond (ok_answer devices_body)].

(** 401, then 200; the stored token expires at second 100, while the
    second attempt is made at second 110. *)
Definition world_401_then_200 : World simple_lib :=
  world_at 50 (Some token_file_A)
    [Respond (error_answer 401 [] "expired_token");
     Respond (ok_answer devices_body)].

(** The clock shows the very second the token expires. *)
Definition world_expiring_now : World simple_lib :=
  world_at 100 (Some token_file_A) [Respond (ok_answer new_tokens_body)].

(** The token expired 50 seconds ago and the token endpoint answers. *)
Definition world_expired : World simple_lib :=
  world_at 150 (Some token_file_A) [Respond (ok_answer new_tokens_body)].

(** No token file; the user types a refresh token at the prompt. *)
Definition world_no_token_file : World simple_lib :=
  mkWorld simple_lib 50 None [Respond (ok_answer new_tokens_body)] [] [] []
          ["R"] [] [] (mkSelf simple_lib [] None None None).

(** A buffer of one point; the database accepts, or refuses, the next
    write. *)
Definition world_flush_ok : World simple_lib :=
  world_with_points 50 [] [SinkOk] [sample_point].

Definition world_flush_fails : World simple_lib :=
  world_with_points 50 [] [SinkFail (InfluxDBError "timeout")] [sample_point].

(** A call as the handlers make it: no headers, parameters or form. *)
Definition plain_request (w : World simple_lib) : Res json * World simple_lib :=
  fitbit_data_request simple_lib cfg0 2 devices_endpoint
    (JObj []) (JObj []) (JObj []) "GET" w.

(** Every fetch of the first metric fails: three answers 500, then
    answers that would succeed. *)
Definition world_fetch_fails : World simple_lib :=
  world_with_points 50
    [Respond (error_answer 500 [] "Internal Server Error");
     Respond (error_answer 500 [] "Internal Server Error");
     Respond (error_answer 500 [] "Internal Server Error");
     Respond (ok_answer devices_body);
     Respond (ok_answer devices_body)] [] [].

(** The device list arrives. *)
Definition world_battery : World simple_lib :=
  world_with_points 50 [Respond (ok_answer devices_body)] [] [].

(** One activity that started at 10:00:00 on the wall clock, the same
    text as the [lastSyncTime] of [devices_body]. *)
Definition activities_body (start_time : string) : json :=
  JObj [("activities",
         JArr [JObj [("activityName", JStr "Run");
                     ("startTime", JStr start_time);
                     ("steps", JNum 1200)]])].

Definition world_activity (start_time : string) : World simple_lib :=
  world_with_points 50 [Respond (ok_answer (activities_body start_time))] [] [].

(** The times of the points in the buffer. *)
Definition buffered_times (w : World simple_lib) : list (option string) :=
  map point_time (points simple_lib (self simple_lib w)).

(* ===================================================================== *)
(** * Further notions for the statements on the rest of the code *)
(* ===================================================================== *)

(** A function applied to both dates of a chunk. *)
Definition pair_map {A B} (f : A -> B) (p : A * A) : B * B :=
  (f (fst p), f (snd p)).

(** Whether the network answered, whatever the answer. *)
Definition is_response (ev : net_event) : bool :=
  match ev with Respond _ => true | NetFail _ => false end.

(** The answer carries no data under [key]: it is a dictionary in which
    the entry is missing or empty. *)
Definition no_data (key : string) (body : json) : Prop :=
  exists v, py_get body key JNull = Ok v /\ py_truthy v = false.

(** An answer 200 whose body carries no data under [key]. *)
Definition empty_answer (key : string) (r : http_response) : Prop :=
  status_code r = 200
  /\ exists body, resp_json r = Ok body /\ no_data key body.

(** An answer 200 whose body is itself empty. *)
Definition falsy_answer (r : http_response) : Prop :=
  status_code r = 200
  /\ exists body, resp_json r = Ok body /\ py_truthy body = false.

(** The points built from the records of an answer, in order, up to the
    first record that cannot be converted, and the exception that
    record raises. *)
Fixpoint convert_until_failure (f : json -> Res json) (items : list json)
  : list json * option exn :=
  match items with
  | [] => ([], None)
  | x :: rest =>
      match f x with
      | Exc e => ([], Some e)
      | Ok p => let (ps, e) := convert_until_failure f rest in (p :: ps, e)
      end
  end.

Section Further.

Context (lib : PyLib) (cfg : Config).

(** A computation that leaves what [obs] reads of the world as it is,
    whether it returns or raises. *)
Definition preserves {X A} (obs : World lib -> X) (c : M lib A) : Prop :=
  forall w, obs (snd (c w)) = obs w.

(** What the database was given and what it will do next. *)
Definition database (w : World lib) : list sink_event * list (list json) :=
  (w_sink lib w, w_written lib w).

(** What [get_access_token] works with: the token file and what is
    typed at the prompt. *)
Definition token_store (w : World lib) : option json * list string :=
  (w_token_file lib w, w_stdin lib w).

(** Every point the program has taken in and not lost: the batches the
    database accepted, in order, then the buffer. *)
Definition all_points (w : World lib) : list json :=
  List.concat (w_written lib w) ++ points lib (self lib w).

(** What happens on the network sends the loop of [fitbit_data_request]
    into one of its retry branches: an answer that is retried, or a
    connection failure. *)
Definition retry_event (ev : net_event) : Prop :=
  match ev with
  | Respond r => retryable lib r
  | NetFail (ConnectionError _) => True
  | NetFail _ => False
  end.

(** The binding of the local variable [response] after an attempt that
    met [ev]: an answer is bound, a failed connection leaves the
    variable as it was. *)
Definition response_after (resp : option http_response) (ev : net_event)
  : option http_response :=
  match ev with
  | Respond r => Some r
  | NetFail _ => resp
  end.

(** The headers the loop of [fitbit_data_request] works with when the
    token in the file has not expired: the ones passed in, or the
    default ones with the stored token. *)
Definition headers_in_use (h : json) (w : World lib) : json :=
  if py_truthy h then h else bearer_headers lib cfg (stored_access_token lib w).

(** The world after a call of [fitbit_data_request] that was answered at
    its first attempt: the endpoint was logged, the request sent, the
    answer used up. *)
Definition after_fetch (w : World lib) (ep : string) (h p dt : json)
    (rt : string) (rest : list net_event) : World lib :=
  after_attempt lib (with_log lib w [(DEBUG, "Requesting endpoint: " +++ ep)])
    (the_request ep (headers_in_use h w) p dt rt) rest [] [].

(** The world after [self.points.append(p)]. *)
Definition with_point (w : World lib) (p : json) : World lib :=
  mkWorld lib (w_clock lib w) (w_token_file lib w) (w_net lib w)
    (w_requests lib w) (w_slept lib w) (w_log lib w) (w_stdin lib w)
    (w_sink lib w) (w_written lib w)
    (mkSelf lib (points lib (self lib w) ++ [p]) (timezone lib (self lib w))
       (end_date lib (self lib w)) (start_date lib (self lib w))).

(** What the program has sent, what the database has received and what
    the buffer holds. *)
Definition footprint (w : World lib)
  : list request * list (list json) * list json :=
  (w_requests lib w, w_written lib w, points lib (self lib w)).

(** A computation that never returns normally, and leaves what [obs]
    reads of the world as it is. *)
Definition aborts {X A} (obs : World lib -> X) (c : M lib A) : Prop :=
  forall w, (exists e, fst (c w) = Exc e) /\ obs (snd (c w)) = obs w.

(** The point [get_daily_data_limit_none] builds from one record of the
    answer on an object whose timezone is [tz], or the exception the
    record raises: the timestamp first, then the three fields. *)
Definition spo2_point (tz : tzinfo lib) (data : json) : Res json :=
  match py_getitem data "dateTime" with
  | Exc e => Exc e
  | Ok d =>
  match account_conversion lib tz (py_str lib d +++ "T00:00:00") with
  | Exc e => Exc e
  | Ok utc_time =>
  match py_getitem data "value" with
  | Exc e => Exc e
  | Ok value =>
  match py_getitem value "avg" with
  | Exc e => Exc e
  | Ok avg =>
  match py_getitem value "max" with
  | Exc e => Exc e
  | Ok max =>
  match py_getitem value "min" with
  | Exc e => Exc e
  | Ok min =>
      Ok (JObj [("measurement", JStr "SPO2");
                ("time", JStr utc_time);
                ("tags", tags_device cfg);
                ("fields", JObj [("avg", avg); ("max", max); ("min", min)])])
  end end end end end end.

End Further.

(* ===================================================================== *)
(** * More concrete worlds *)
(* ===================================================================== *)

(** 429 without a [Retry-After] header, then a success that is never
    asked for. *)
Definition world_429_bare : World simple_lib :=
  world_at 50 (Some token_file_A)
    [Respond (error_answer 429 [] "Too Many Requests");
     Respond (ok_answer devices_body)].

(** 204: neither a success nor an error status. *)
Definition world_204 : World simple_lib :=
  world_at 50 (Some token_file_A) [Respond (error_answer 204 [] "")].

(** The request raises something that is not a connection error. *)
Definition world_timeout : World simple_lib :=
  world_at 50 (Some token_file_A)
    [NetFail (OtherError "ReadTimeout"); Respond (ok_answer devices_body)].

(** Two connection failures around an answer 503. *)
Definition world_mixed_failures : World simple_lib :=
  world_at 50 (Some token_file_A)
    [NetFail (ConnectionError "refused");
     Respond (error_answer 503 [] "Service Unavailable");
     NetFail (ConnectionError "refused")].

(** A connection failure and a 401, then a success. *)
Definition world_two_retries_then_200 : World simple_lib :=
  world_at 50 (Some token_file_A)
    [NetFail (ConnectionError "refused");
     Respond (error_answer 401 [] "expired_token");
     Respond (ok_answer devices_body)].

(** Two devices. *)
Definition two_devices_body : json :=
  JArr [JObj [("batteryLevel", JNum 85);
              ("lastSyncTime", JStr "2024-01-01T10:00:00")];
        JObj [("batteryLevel", JNum 40);
              ("lastSyncTime", JStr "2023-12-25T08:00:00")]].

Definition world_two_devices : World simple_lib :=
  world_with_points 50 [Respond (ok_answer two_devices_body)] [] [].

(** The level of the first device as a float. *)
Definition level_85 : PrimFloat.float :=
  match simple_float (JNum 85) with Ok v => v | Exc _ => PrimFloat.zero end.

(** The database refuses a write, then accepts one. *)
Definition world_refused_then_accepted : World simple_lib :=
  world_with_points 50 [] [SinkFail (InfluxDBError "timeout"); SinkOk]
    [sample_point].

(** Every request is answered 200 with an empty dictionary, [n] times. *)
Definition world_empty_answers (n : nat) : World simple_lib :=
  world_with_points 50 (repeat (Respond (ok_answer (JObj []))) n) [] [].

(** Three daily averages of the oxygen saturation; the second lacks its
    maximum. *)
Definition spo2_body : json :=
  JArr [JObj [("dateTime", JStr "2024-01-01");
              ("value", JObj [("avg", JNum 96); ("max", JNum 99); ("min", JNum 93)])];
        JObj [("dateTime", JStr "2024-01-02");
              ("value", JObj [("avg", JNum 95)])];
        JObj [("dateTime", JStr "2024-01-03");
              ("value", JObj [("avg", JNum 97); ("max", JNum 99); ("min", JNum 94)])]].

Definition world_spo2 : World simple_lib :=
  world_with_points 50 [Respond (ok_answer spo2_body)] [] [].

(** The configuration of a bulk update. *)
Definition cfg_bulk : Config :=
  mkConfig (JStr "en_US") (JStr "fitbit") (JStr "home") (JStr "23ABCD")
           (JStr "s3cret") (JStr "Charge 5") false 1 (JStr "Asia/Tokyo").

(** The two dates are typed at the prompt; the network would answer. *)
Definition world_bulk : World simple_lib :=
  mkWorld simple_lib 50 (Some token_file_A)
    [Respond (ok_answer (activities_body "2024-01-01T10:00:00"))] [] [] []
    ["2024-01-01"; "2024-01-10"] [] []
    (mkSelf simple_lib [] (Some 32400)
            (Some (mkDatetime 1704067200 None))
            (Some (mkDatetime 1703980800 None))).

(** The token endpoint rejects the exchange of the expired token. *)
Definition world_refresh_rejected : World simple_lib :=
  world_at 150 (Some token_file_A)
    [Respond (error_answer 400 [] "invalid_grant");
     Respond (ok_answer devices_body)].

(** The same library on an interpreter that leaves the annotations of a
    [def] unevaluated. *)
Definition deferred_lib : PyLib :=
  mkPyLib simple_datetime Z
    simple_str simple_int simple_float
    simple_float_of_int
    simple_float_lt_int
    b64encode_string
    simple_timezone
    simple_fromisoformat
    simple_localize
    simple_astimezone_utc
    simple_isoformat
    (fun now => mkDatetime now None)
    (fun dt n => Ok (mkDatetime (wall dt + 86400 * n) (utcoffset dt)))
    simple_diff_days
    (fun dt => format_date (wall dt / 86400))
    simple_strptime_ymd
    true.

(** The end date typed at the prompt lies before the start date. *)
Definition world_bulk_reversed : World deferred_lib :=
  mkWorld deferred_lib 50 (Some token_file_A)
    [Respond (ok_answer (activities_body "2024-01-01T10:00:00"))] [] [] []
    ["2024-01-10"; "2024-01-01"] [] []
    (mkSelf deferred_lib [] (Some 32400)
            (Some (mkDatetime 1704067200 None))
            (Some (mkDatetime 1703980800 None))).
(* ===================================================================== *)
(** * Properties *)
(* ===================================================================== *)

Lemma gtb_true (a b : Z) : b < a -> (a >? b) = true.
Proof. intros H. rewrite Z.gtb_ltb. apply Z.ltb_lt. exact H. Qed.

Lemma gtb_false (a b : Z) : a <= b -> (a >? b) = false.
Proof. intros H. rewrite Z.gtb_ltb. apply Z.ltb_ge. exact H. Qed.

Lemma ltb_true (a b : Z) : a < b -> (a <? b) = true.
Proof. apply Z.ltb_lt. Qed.

Lemma ltb_false (a b : Z) : b <= a -> (a <? b) = false.
Proof. apply Z.ltb_ge. Qed.

Lemma py_index_nth {A} (l : list A) (i : Z) (dflt : A) :
  0 <= i < py_len l ->
  py_index l i = Some (nth (Z.to_nat i) l dflt).
Proof.
  intros Hi. unfold py_index.
  replace ((0 <=? i) && (i <? py_len l)) with true
    by (symmetry; apply andb_true_iff; split;
        [apply Z.leb_le | apply Z.ltb_lt]; lia).
  apply nth_error_nth'. unfold py_len in Hi. lia.
Qed.

(** One unfolding of the loop with fuel left. *)
Lemma yield_dates_loop_S {A} (fuel : nat) (d : list A) (gap st : Z) :
  yield_dates_loop (S fuel) d gap st =
  if st <? py_len d - 1 then
    if st + gap >? py_len d - 1 then ([], Finished)
    else
      match py_index d (st + gap) with
      | None => ([], Raised IndexError)
      | Some a =>
          match py_index d (if st + gap + gap >? py_len d - 1
                            then py_len d - 1 else st + gap + gap) with
          | None => ([], Raised IndexError)
          | Some b =>
              let (rest, e) := yield_dates_loop fuel d gap (st + gap) in
              ((a, b) :: rest, e)
          end
      end
  else ([], Finished).
Proof. reflexivity. Qed.

(** Once the last chunk has been yielded the loop stops: either its
    condition is false or the next start index is past the end. *)
Lemma yield_dates_loop_last {A} (fuel : nat) (d : list A) (s st : Z) :
  1 <= s -> py_len d - 1 < st + s ->
  yield_dates_loop (S fuel) d s st = ([], Finished).
Proof.
  intros Hs Hst. rewrite yield_dates_loop_S.
  destruct (st <? py_len d - 1) eqn:Hc; [|reflexivity].
  rewrite gtb_true by lia. reflexivity.
Qed.

Lemma yield_dates_loop_from {A} (dflt : A) (d : list A) (s : Z) :
  1 <= s -> 1 <= py_len d ->
  forall (m i fuel : nat),
    Z.of_nat i + Z.of_nat m = (py_len d - 1) / s ->
    (m + 2 <= fuel)%nat ->
    yield_dates_loop fuel d s (Z.of_nat i * s - s)
    = (map (spec_chunk d s dflt) (seq i (S m)), Finished).
Proof.
  intros Hs Hn.
  assert (Hdiv : ((py_len d - 1) / s) * s <= py_len d - 1).
  { rewrite Z.mul_comm. apply Z.mul_div_le. lia. }
  assert (Hdiv2 : py_len d - 1 < ((py_len d - 1) / s + 1) * s).
  { pose proof (Z.mul_succ_div_gt (py_len d - 1) s ltac:(lia)). lia. }
  induction m as [|m IH]; intros i fuel Hk Hf.
  - destruct fuel as [|fuel]; [lia|].
    destruct fuel as [|fuel]; [lia|].
    rewrite Z.add_0_r in Hk.
    assert (Hi : Z.of_nat i * s <= py_len d - 1) by (rewrite Hk; exact Hdiv).
    assert (Hi2 : py_len d - 1 < Z.of_nat i * s + s) by (rewrite Hk; lia).
    rewrite yield_dates_loop_S.
    rewrite ltb_true by lia.
    replace (Z.of_nat i * s - s + s) with (Z.of_nat i * s) by lia.
    rewrite gtb_false by lia.
    rewrite gtb_true by lia.
    rewrite (py_index_nth d (Z.of_nat i * s) dflt) by nia.
    rewrite (py_index_nth d (py_len d - 1) dflt) by lia.
    rewrite yield_dates_loop_last by lia.
    cbn [seq map]. unfold spec_chunk.
    rewrite Z.min_r by lia.
    reflexivity.
  - destruct fuel as [|fuel]; [lia|].
    assert (Hi1 : (Z.of_nat i + 1) * s <= py_len d - 1).
    { assert (Z.of_nat i + 1 <= (py_len d - 1) / s) by lia. nia. }
    rewrite yield_dates_loop_S.
    rewrite ltb_true by lia.
    replace (Z.of_nat i * s - s + s) with (Z.of_nat i * s) by lia.
    rewrite gtb_false by lia.
    rewrite gtb_false by lia.
    rewrite (py_index_nth d (Z.of_nat i * s) dflt) by nia.
    rewrite (py_index_nth d (Z.of_nat i * s + s) dflt) by nia.
    replace (yield_dates_loop fuel d s (Z.of_nat i * s))
      with (yield_dates_loop fuel d s (Z.of_nat (S i) * s - s))
      by (f_equal; lia).
    rewrite (IH (S i) fuel) by lia.
    cbn [seq map]. f_equal. f_equal. unfold spec_chunk.
    rewrite Z.min_l by lia.
    f_equal. f_equal. lia.
Qed.

(** The whole generator, started as the source starts it. *)
Lemma yield_dates_with_gap_chunks {A} (dflt : A) (d : list A) (s : Z) (fuel : nat) :
  1 <= s -> (1 <= List.length d)%nat -> (List.length d < fuel)%nat ->
  yield_dates_with_gap fuel d s
  = (map (spec_chunk d s dflt) (seq 0 (chunk_count d s)), Finished).
Proof.
  intros Hs Hn Hf. unfold yield_dates_with_gap, chunk_count.
  assert (Hk : 0 <= (py_len d - 1) / s).
  { apply Z.div_pos; unfold py_len; lia. }
  assert (Hk2 : (py_len d - 1) / s <= py_len d - 1).
  { apply Z.div_le_upper_bound; [lia|]. unfold py_len.
    assert (0 <= Z.of_nat (List.length d) - 1) by lia. nia. }
  replace (-1 * s) with (Z.of_nat 0 * s - s) by lia.
  apply yield_dates_loop_from; try assumption.
  - unfold py_len. lia.
  - rewrite Z2Nat.id by exact Hk. lia.
  - unfold py_len in *. lia.
Qed.

(** C2 (amended): for a date list [d[0..n-1]], [n >= 1], and a span
    [s >= 1], the generator yields exactly the chunks
    [(d[i*s], d[min((i+1)*s, n-1)])] for every [i] with [i*s <= n-1], in
    increasing order of [i]; the end date of a chunk is the start date
    of the next; a single-day list yields exactly one chunk; and
    2024-01-01..2024-01-10 with span 3 yields the four chunks
    (01-01,01-04), (01-04,01-07), (01-07,01-10), (01-10,01-10). *)
Theorem partition_chunks {A} (dflt : A) (d : list A) (s : Z) :
  1 <= s -> (1 <= List.length d)%nat ->
  yield_dates_with_gap (S (List.length d)) d s
  = (map (spec_chunk d s dflt) (seq 0 (chunk_count d s)), Finished)
  /\ (forall i, (S i < chunk_count d s)%nat ->
        snd (spec_chunk d s dflt i) = fst (spec_chunk d s dflt (S i)))
  /\ (List.length d = 1%nat ->
      yield_dates_with_gap (S (List.length d)) d s
      = ([(nth 0 d dflt, nth 0 d dflt)], Finished))
  /\ yield_dates_with_gap 11 jan_2024_01_10 3
     = ([("2024-01-01", "2024-01-04"); ("2024-01-04", "2024-01-07");
         ("2024-01-07", "2024-01-10"); ("2024-01-10", "2024-01-10")], Finished).
Proof.
  intros Hs Hn.
  pose proof (yield_dates_with_gap_chunks dflt d s (S (List.length d)) Hs Hn
                (Nat.lt_succ_diag_r _)) as Hrun.
  split; [exact Hrun|]. split; [|split].
  - intros i Hi. unfold spec_chunk, chunk_count in *. cbn [fst snd].
    assert (Hk : 0 <= (py_len d - 1) / s) by (apply Z.div_pos; unfold py_len; lia).
    assert (Hdiv : ((py_len d - 1) / s) * s <= py_len d - 1).
    { rewrite Z.mul_comm. apply Z.mul_div_le. lia. }
    assert (Hi' : Z.of_nat i + 1 <= (py_len d - 1) / s) by lia.
    rewrite Z.min_l by nia.
    f_equal. f_equal. lia.
  - intros H1. rewrite Hrun. unfold chunk_count, py_len. rewrite H1.
    change (Z.of_nat 1 - 1) with 0. rewrite Z.div_0_l by lia.
    cbn [Z.to_nat seq map]. unfold spec_chunk, py_len. rewrite H1.
    change (Z.of_nat 1 - 1) with 0. change (Z.of_nat 0 * s) with 0.
    rewrite Z.min_r by lia. reflexivity.
  - vm_compute. reflexivity.
Qed.

(* ===================================================================== *)
(** * Running computations *)
(* ===================================================================== *)

Section Running.

Context (lib : PyLib).

Lemma bind_run {A B} (c : M lib A) (k : A -> M lib B) (w : World lib) :
  bind lib c k w
  = match c w with
    | (Ok a, w') => k a w'
    | (Exc e, w') => (Exc e, w')
    end.
Proof. reflexivity. Qed.

Lemma bind_ok {A B} (c : M lib A) (k : A -> M lib B) (w w' : World lib) (a : A) :
  c w = (Ok a, w') -> bind lib c k w = k a w'.
Proof. intros H. rewrite bind_run, H. reflexivity. Qed.

Lemma bind_exc {A B} (c : M lib A) (k : A -> M lib B) (w w' : World lib) (e : exn) :
  c w = (Exc e, w') -> bind lib c k w = (Exc e, w').
Proof. intros H. rewrite bind_run, H. reflexivity. Qed.

Lemma try_run {A} (c : M lib A) (w w' : World lib) (r : Res A) :
  c w = (r, w') -> try lib c w = (Ok r, w').
Proof. intros H. unfold try. rewrite H. reflexivity. Qed.

Lemma sleep_run (secs : Z) (w : World lib) :
  0 <= secs ->
  sleep lib secs w
  = (Ok tt,
     mkWorld lib (w_clock lib w + secs) (w_token_file lib w) (w_net lib w)
       (w_requests lib w) (w_slept lib w ++ [secs]) (w_log lib w)
       (w_stdin lib w) (w_sink lib w) (w_written lib w) (self lib w)).
Proof. intros H. unfold sleep. rewrite ltb_false by exact H. reflexivity. Qed.

End Running.

(* ===================================================================== *)
(** * The API client: retry loop *)
(* ===================================================================== *)

Section ClientProperties.

Context (lib : PyLib) (cfg : Config).

(** One unfolding of the loop. *)
Lemma request_loop_S (fuel : nat) (gat : M lib json)
    (ep : string) (h p dt : json) (rt : string) (ra : Z)
    (resp : option http_response) :
  request_loop lib cfg (S fuel) gat ep h p dt rt ra resp
  = if ra <? MAX_RETRIES then
      bind lib (if py_truthy h then ret lib h else default_headers lib cfg gat)
        (fun headers =>
           bind lib (attempt lib ep headers p dt rt resp)
             (fun after =>
                match fst after with
                | Return v => ret lib v
                | Continue =>
                    bind lib (sleep lib 30)
                      (fun _ => request_loop lib cfg fuel gat ep headers p dt rt
                                  (ra + 1) (snd after))
                end))
    else
      bind lib (local lib resp)
        (fun r =>
           bind lib (logging lib ERROR ("Retry limit exceeded for " +++ ep
                                        +++ ". Please debug - " +++ resp_text r))
             (fun _ => ret lib JNull)).
Proof. reflexivity. Qed.

(** With headers in hand the loop never asks for a token: the method
    passed for it is irrelevant. *)
Lemma request_loop_truthy_headers (fuel : nat) (gat1 gat2 : M lib json)
    (ep : string) (h p dt : json) (rt : string) :
  py_truthy h = true ->
  forall (ra : Z) (resp : option http_response) (w : World lib),
    request_loop lib cfg fuel gat1 ep h p dt rt ra resp w
    = request_loop lib cfg fuel gat2 ep h p dt rt ra resp w.
Proof.
  intros Hh. induction fuel as [|fuel IH]; intros ra resp w.
  - reflexivity.
  - rewrite !request_loop_S. destruct (ra <? MAX_RETRIES); [|reflexivity].
    rewrite Hh. rewrite !(bind_ok lib (ret lib h) _ w w h) by reflexivity.
    rewrite !bind_run.
    destruct (attempt lib ep h p dt rt resp w) as [[[fl rb]|e] w1]; [|reflexivity].
    cbn [fst snd]. destruct fl; [reflexivity|].
    rewrite !bind_run. destruct (sleep lib 30 w1) as [[[]|e] w2]; [|reflexivity].
    apply IH.
Qed.

(** One pass through the loop body when the attempt falls through to
    its end: the trailing [time.sleep(30)], then the next attempt. *)
Lemma request_loop_continue (fuel : nat) (gat : M lib json)
    (ep : string) (h p dt : json) (rt : string) (ra : Z)
    (resp rb : option http_response) (w w1 : World lib) :
  py_truthy h = true ->
  ra < MAX_RETRIES ->
  attempt lib ep h p dt rt resp w = (Ok (Continue, rb), w1) ->
  request_loop lib cfg (S fuel) gat ep h p dt rt ra resp w
  = request_loop lib cfg fuel gat ep h p dt rt (ra + 1) rb
      (mkWorld lib (w_clock lib w1 + 30) (w_token_file lib w1) (w_net lib w1)
         (w_requests lib w1) (w_slept lib w1 ++ [30]) (w_log lib w1)
         (w_stdin lib w1) (w_sink lib w1) (w_written lib w1) (self lib w1)).
Proof.
  intros Hh Hra Hat. rewrite request_loop_S.
  rewrite ltb_true by exact Hra. rewrite Hh.
  rewrite (bind_ok lib (ret lib h) _ w w h) by reflexivity.
  rewrite (bind_ok lib _ _ w w1 (Continue, rb)) by exact Hat.
  cbn [fst snd]. reflexivity.
Qed.

(** ** What one attempt does, by the answer it receives *)

(** The world once the request has been sent and answered. *)
Lemma requests_request_respond (rq : request) (w : World lib)
    (r : http_response) (rest : list net_event) :
  w_net lib w = Respond r :: rest ->
  requests_request lib rq w = (Ok r, after_attempt lib w rq rest [] []).
Proof.
  intros Hnet. unfold requests_request, after_attempt. rewrite Hnet.
  cbn [fold_right]. rewrite Z.add_0_r, !app_nil_r. reflexivity.
Qed.

Lemma requests_request_fail (rq : request) (w : World lib)
    (e : exn) (rest : list net_event) :
  w_net lib w = NetFail e :: rest ->
  requests_request lib rq w = (Exc e, after_attempt lib w rq rest [] []).
Proof.
  intros Hnet. unfold requests_request, after_attempt. rewrite Hnet.
  cbn [fold_right]. rewrite Z.add_0_r, !app_nil_r. reflexivity.
Qed.

(** An attempt whose answer is classified without an exception. *)
Lemma attempt_classified (ep : string) (h p dt : json) (rt : string)
    (resp : option http_response) (w w' : World lib)
    (r : http_response) (rest : list net_event) (fl : flow) :
  w_net lib w = Respond r :: rest ->
  classify lib r (after_attempt lib w (the_request ep h p dt rt) rest [] [])
  = (Ok fl, w') ->
  attempt lib ep h p dt rt resp w = (Ok (fl, Some r), w').
Proof.
  intros Hnet Hcl. unfold attempt.
  rewrite (bind_ok lib _ _ w _ (Ok r))
    by (apply try_run, requests_request_respond; exact Hnet).
  rewrite (bind_ok lib _ _ _ w' (Ok fl)) by (apply try_run; exact Hcl).
  reflexivity.
Qed.

Lemma attempt_429 (ep : string) (h p dt : json) (rt : string)
    (resp : option http_response) (w : World lib)
    (r : http_response) (rest : list net_event) (ra : string) (n : Z) :
  w_net lib w = Respond r :: rest ->
  status_code r = 429 ->
  header_lookup "Retry-After" (resp_headers r) = Some ra ->
  py_int lib (JStr ra) = Ok n ->
  0 <= n + 15 ->
  attempt lib ep h p dt rt resp w
  = (Ok (Continue, Some r),
     after_attempt lib w (the_request ep h p dt rt) rest
       [(WARNING, "Hit API ratelimit. Retrying in "
                  +++ py_str lib (JNum (n + 15)) +++ "s...")]
       [n + 15]).
Proof.
  intros Hnet Hst Hh Hint Hn.
  apply (attempt_classified _ _ _ _ _ _ _ _ _ rest _ Hnet).
  unfold classify. rewrite Hst. cbn [Z.eqb Pos.eqb].
  rewrite Hh.
  rewrite (bind_ok lib _ _ _ _ ra) by reflexivity.
  rewrite (bind_ok lib _ _ _ _ n) by (unfold lift; rewrite Hint; reflexivity).
  rewrite (bind_ok lib _ _ _ _ tt) by reflexivity.
  rewrite (bind_ok lib _ _ _ _ tt) by (apply sleep_run; exact Hn).
  unfold ret, after_attempt. cbn [w_clock w_token_file w_net w_requests w_slept
    w_log w_stdin w_sink w_written self fold_right].
  rewrite !app_nil_r, !Z.add_0_r. reflexivity.
Qed.

Lemma attempt_401 (ep : string) (h p dt : json) (rt : string)
    (resp : option http_response) (w : World lib)
    (r : http_response) (rest : list net_event) :
  w_net lib w = Respond r :: rest ->
  status_code r = 401 ->
  attempt lib ep h p dt rt resp w
  = (Ok (Continue, Some r),
     after_attempt lib w (the_request ep h p dt rt) rest
       [(WARNING, "Unauthorized error: " +++ resp_text r)] [30]).
Proof.
  intros Hnet Hst.
  apply (attempt_classified _ _ _ _ _ _ _ _ _ rest _ Hnet).
  unfold classify. rewrite Hst. cbn [Z.eqb Pos.eqb].
  rewrite (bind_ok lib _ _ _ _ tt) by reflexivity.
  rewrite (bind_ok lib _ _ _ _ tt) by (apply sleep_run; lia).
  unfold ret, after_attempt. cbn [w_clock w_token_file w_net w_requests w_slept
    w_log w_stdin w_sink w_written self fold_right].
  rewrite !app_nil_r, !Z.add_0_r. reflexivity.
Qed.

Lemma server_down_cases (s : Z) :
  server_down s = true -> s = 500 \/ s = 502 \/ s = 503 \/ s = 504.
Proof.
  unfold server_down. cbn [existsb]. rewrite !orb_true_iff, !Z.eqb_eq.
  intros [H|[H|[H|[H|H]]]]; auto; discriminate.
Qed.

Lemma attempt_server_down (ep : string) (h p dt : json) (rt : string)
    (resp : option http_response) (w : World lib)
    (r : http_response) (rest : list net_event) :
  w_net lib w = Respond r :: rest ->
  server_down (status_code r) = true ->
  attempt lib ep h p dt rt resp w
  = (Ok (Continue, Some r),
     after_attempt lib w (the_request ep h p dt rt) rest
       [(WARNING, "Error " +++ py_str lib (JNum (status_code r))
                  +++ " encountered. Retrying after 120s....")] [120]).
Proof.
  intros Hnet Hst.
  apply (attempt_classified _ _ _ _ _ _ _ _ _ rest _ Hnet).
  unfold classify.
  destruct (server_down_cases _ Hst) as [H|[H|[H|H]]]; rewrite H;
    cbn [Z.eqb Pos.eqb existsb orb];
    rewrite (bind_ok lib _ _ _ _ tt) by reflexivity;
    rewrite (bind_ok lib _ _ _ _ tt) by (apply sleep_run; lia);
    unfold ret, after_attempt; cbn [w_clock w_token_file w_net w_requests w_slept
      w_log w_stdin w_sink w_written self fold_right];
    rewrite !app_nil_r, !Z.add_0_r; reflexivity.
Qed.

Lemma attempt_connection_error (ep : string) (h p dt : json) (rt : string)
    (resp : option http_response) (w : World lib)
    (msg : string) (rest : list net_event) :
  w_net lib w = NetFail (ConnectionError msg) :: rest ->
  attempt lib ep h p dt rt resp w
  = (Ok (Continue, resp),
     after_attempt lib w (the_request ep h p dt rt) rest
       [(ERROR, "Connection error, retrying in 30 seconds: " +++ msg)] []).
Proof.
  intros Hnet. unfold attempt.
  rewrite (bind_ok lib _ _ w _ (Exc (ConnectionError msg)))
    by (apply try_run, requests_request_fail; exact Hnet).
  unfold except_clause.
  rewrite (bind_ok lib _ _ _ _ tt) by reflexivity.
  unfold ret, after_attempt. cbn [w_clock w_token_file w_net w_requests w_slept
    w_log w_stdin w_sink w_written self fold_right exn_str].
  rewrite !app_nil_r, !Z.add_0_r. reflexivity.
Qed.

Lemma attempt_200 (ep : string) (h p dt : json) (rt : string)
    (resp : option http_response) (w : World lib)
    (r : http_response) (rest : list net_event) (body : json) :
  w_net lib w = Respond r :: rest ->
  status_code r = 200 ->
  resp_json r = Ok body ->
  attempt lib ep h p dt rt resp w
  = (Ok (Return body, Some r),
     after_attempt lib w (the_request ep h p dt rt) rest [] []).
Proof.
  intros Hnet Hst Hbody.
  apply (attempt_classified _ _ _ _ _ _ _ _ _ rest _ Hnet).
  unfold classify. rewrite Hst. cbn [Z.eqb Pos.eqb].
  rewrite (bind_ok lib _ _ _ _ body) by (unfold lift; rewrite Hbody; reflexivity).
  reflexivity.
Qed.

(** A client or server error outside the branches above is raised on
    the spot: nothing is slept and no further request is sent. *)
Lemma attempt_fatal (ep : string) (h p dt : json) (rt : string)
    (resp : option http_response) (w : World lib)
    (r : http_response) (rest : list net_event) :
  w_net lib w = Respond r :: rest ->
  status_code r <> 200 -> status_code r <> 429 -> status_code r <> 401 ->
  server_down (status_code r) = false ->
  400 <= status_code r < 600 ->
  attempt lib ep h p dt rt resp w
  = (Exc (HTTPError (status_code r)),
     after_attempt lib w (the_request ep h p dt rt) rest
       [(ERROR, "Fitbit API request failed. Status code: "
                +++ py_str lib (JNum (status_code r)) +++ " " +++ resp_text r)] []).
Proof.
  intros Hnet H200 H429 H401 Hsd Hrange. unfold attempt.
  rewrite (bind_ok lib _ _ w _ (Ok r))
    by (apply try_run, requests_request_respond; exact Hnet).
  assert (Hcl : classify lib r
            (after_attempt lib w (the_request ep h p dt rt) rest [] [])
          = (Exc (HTTPError (status_code r)),
             after_attempt lib w (the_request ep h p dt rt) rest
               [(ERROR, "Fitbit API request failed. Status code: "
                  +++ py_str lib (JNum (status_code r)) +++ " " +++ resp_text r)] [])).
  { unfold classify.
    rewrite (proj2 (Z.eqb_neq _ _) H200), (proj2 (Z.eqb_neq _ _) H429),
            (proj2 (Z.eqb_neq _ _) H401).
    change (existsb (Z.eqb (status_code r)) [500; 502; 503; 504])
      with (server_down (status_code r)).
    rewrite Hsd.
    rewrite (bind_ok lib _ _ _ _ tt) by reflexivity.
    unfold raise_for_status.
    replace ((400 <=? status_code r) && (status_code r <? 600)) with true
      by (symmetry; apply andb_true_iff; split;
          [apply Z.leb_le | apply Z.ltb_lt]; lia).
    unfold after_attempt. cbn [w_clock w_token_file w_net w_requests w_slept
      w_log w_stdin w_sink w_written self fold_right].
    rewrite !app_nil_r. reflexivity. }
  rewrite (bind_ok lib _ _ _ _ (Exc (HTTPError (status_code r))))
    by (apply try_run; exact Hcl).
  reflexivity.
Qed.

(** ** The loop, one retry at a time *)

(** The world after an attempt that fell through and the trailing
    [time.sleep(30)]. *)
Lemma after_attempt_then_sleep (w : World lib) (rq : request)
    (rest : list net_event) (logs : list (level * string)) (sleeps : list Z) :
  mkWorld lib (w_clock lib (after_attempt lib w rq rest logs sleeps) + 30)
    (w_token_file lib (after_attempt lib w rq rest logs sleeps))
    (w_net lib (after_attempt lib w rq rest logs sleeps))
    (w_requests lib (after_attempt lib w rq rest logs sleeps))
    (w_slept lib (after_attempt lib w rq rest logs sleeps) ++ [30])
    (w_log lib (after_attempt lib w rq rest logs sleeps))
    (w_stdin lib (after_attempt lib w rq rest logs sleeps))
    (w_sink lib (after_attempt lib w rq rest logs sleeps))
    (w_written lib (after_attempt lib w rq rest logs sleeps))
    (self lib (after_attempt lib w rq rest logs sleeps))
  = after_attempt lib w rq rest logs (sleeps ++ [30]).
Proof.
  unfold after_attempt. cbn [w_clock w_token_file w_net w_requests w_slept
    w_log w_stdin w_sink w_written self].
  rewrite <- app_assoc. f_equal.
  induction sleeps as [|x xs IH]; cbn [fold_right app]; lia.
Qed.

(** Every retry branch is followed by the trailing [time.sleep(30)] and
    the next pass of the loop. *)
Lemma retry_step (fuel : nat) (gat : M lib json)
    (ep : string) (h p dt : json) (rt : string) (ra : Z)
    (resp rb : option http_response) (w : World lib)
    (ev : net_event) (rest : list net_event)
    (logs : list (level * string)) (sleeps : list Z) :
  py_truthy h = true ->
  ra < MAX_RETRIES ->
  w_net lib w = ev :: rest ->
  retry_branch lib resp ev rb logs sleeps ->
  request_loop lib cfg (S fuel) gat ep h p dt rt ra resp w
  = request_loop lib cfg fuel gat ep h p dt rt (ra + 1) rb
      (after_attempt lib w (the_request ep h p dt rt) rest logs (sleeps ++ [30])).
Proof.
  intros Hh Hra Hnet Hbr.
  rewrite <- after_attempt_then_sleep.
  apply request_loop_continue; [exact Hh | exact Hra |].
  destruct Hbr.
  - eapply attempt_429; eassumption.
  - apply attempt_401; assumption.
  - apply attempt_server_down; assumption.
  - apply attempt_connection_error; assumption.
Qed.

(** A successful answer ends the loop with its body. *)
Lemma success_step (fuel : nat) (gat : M lib json)
    (ep : string) (h p dt : json) (rt : string) (ra : Z)
    (resp : option http_response) (w : World lib)
    (r : http_response) (rest : list net_event) (body : json) :
  py_truthy h = true ->
  ra < MAX_RETRIES ->
  w_net lib w = Respond r :: rest ->
  status_code r = 200 ->
  resp_json r = Ok body ->
  request_loop lib cfg (S fuel) gat ep h p dt rt ra resp w
  = (Ok body, after_attempt lib w (the_request ep h p dt rt) rest [] []).
Proof.
  intros Hh Hra Hnet Hst Hbody. rewrite request_loop_S.
  rewrite ltb_true by exact Hra. rewrite Hh.
  rewrite (bind_ok lib (ret lib h) _ w w h) by reflexivity.
  rewrite (bind_ok lib _ _ w _ (Return body, Some r))
    by (eapply attempt_200; eassumption).
  reflexivity.
Qed.

(** A fatal status ends the loop with the exception. *)
Lemma fatal_step (fuel : nat) (gat : M lib json)
    (ep : string) (h p dt : json) (rt : string) (ra : Z)
    (resp : option http_response) (w : World lib)
    (r : http_response) (rest : list net_event) :
  py_truthy h = true ->
  ra < MAX_RETRIES ->
  w_net lib w = Respond r :: rest ->
  status_code r <> 200 -> status_code r <> 429 -> status_code r <> 401 ->
  server_down (status_code r) = false ->
  400 <= status_code r < 600 ->
  request_loop lib cfg (S fuel) gat ep h p dt rt ra resp w
  = (Exc (HTTPError (status_code r)),
     after_attempt lib w (the_request ep h p dt rt) rest
       [(ERROR, "Fitbit API request failed. Status code: "
                +++ py_str lib (JNum (status_code r)) +++ " " +++ resp_text r)] []).
Proof.
  intros Hh Hra Hnet H200 H429 H401 Hsd Hrange. rewrite request_loop_S.
  rewrite ltb_true by exact Hra. rewrite Hh.
  rewrite (bind_ok lib (ret lib h) _ w w h) by reflexivity.
  apply bind_exc. apply attempt_fatal; assumption.
Qed.

(** The loop once the attempts are used up. *)
Lemma exhausted_step (fuel : nat) (gat : M lib json)
    (ep : string) (h p dt : json) (rt : string) (ra : Z)
    (r : http_response) (w : World lib) :
  MAX_RETRIES <= ra ->
  request_loop lib cfg fuel gat ep h p dt rt ra (Some r) w
  = (Ok JNull,
     with_log lib w [(ERROR, "Retry limit exceeded for " +++ ep
                             +++ ". Please debug - " +++ resp_text r)]).
Proof.
  intros Hra. destruct fuel; cbn [request_loop];
    rewrite ltb_false by exact Hra; reflexivity.
Qed.

(** With no response ever received the final log line reads an unbound
    variable. *)
Lemma exhausted_unbound (fuel : nat) (gat : M lib json)
    (ep : string) (h p dt : json) (rt : string) (ra : Z) (w : World lib) :
  MAX_RETRIES <= ra ->
  request_loop lib cfg fuel gat ep h p dt rt ra None w
  = (Exc UnboundLocalError, w).
Proof.
  intros Hra. destruct fuel; cbn [request_loop];
    rewrite ltb_false by exact Hra; reflexivity.
Qed.

(** ** The first pass builds the default headers *)

Lemma request_loop_default_headers (fuel : nat) (gat : M lib json)
    (ep : string) (h p dt : json) (rt : string) (ra : Z)
    (resp : option http_response) (w w1 : World lib) (tok : json) :
  py_truthy h = false ->
  ra < MAX_RETRIES ->
  gat w = (Ok tok, w1) ->
  request_loop lib cfg (S fuel) gat ep h p dt rt ra resp w
  = request_loop lib cfg (S fuel) gat ep (bearer_headers lib cfg tok) p dt rt ra resp w1.
Proof.
  intros Hh Hra Hgat. rewrite !request_loop_S.
  rewrite ltb_true by exact Hra. rewrite Hh.
  change (py_truthy (bearer_headers lib cfg tok)) with true. cbv iota.
  rewrite (bind_ok lib (default_headers lib cfg gat) _ w w1 (bearer_headers lib cfg tok)).
  - rewrite (bind_ok lib (ret lib _) _ w1 w1 (bearer_headers lib cfg tok)) by reflexivity.
    reflexivity.
  - unfold default_headers. rewrite (bind_ok lib gat _ w w1 tok) by exact Hgat.
    reflexivity.
Qed.

(** A token that has not expired is handed out as stored: no refresh,
    no request, nothing changes. *)
Lemma get_access_token_fresh
    (fdr : string -> json -> json -> json -> string -> M lib json) (w : World lib) :
  token_fresh lib w ->
  get_access_token_body lib cfg fdr w = (Ok (stored_access_token lib w), w).
Proof.
  intros (kv & e & Hfile & Hexp & Hclock).
  unfold get_access_token_body, stored_access_token. rewrite Hfile.
  rewrite (bind_ok lib _ _ w w (Ok (JObj kv)))
    by (apply try_run; unfold read_token_file; rewrite Hfile; reflexivity).
  cbn [py_get]. rewrite Hexp.
  destruct (assoc "access_token" kv) as [a|];
    destruct (assoc "refresh_token" kv) as [rf|];
    cbn [lift bind ret local time_now py_lt_int];
    rewrite ltb_false by exact Hclock; reflexivity.
Qed.

(** ** A run of retryable answers *)

Lemma retryable_branch (resp : option http_response) (r : http_response) :
  retryable lib r ->
  exists logs sleeps, retry_branch lib resp (Respond r) (Some r) logs sleeps.
Proof.
  intros [H|[H|(H & h & n & Hh & Hn & Hpos)]].
  - eexists _, _. apply branch_unauthorized. exact H.
  - eexists _, _. apply branch_server_down. exact H.
  - eexists _, _. eapply branch_rate_limited; eassumption.
Qed.

Lemma request_loop_retryable (gat : M lib json)
    (ep : string) (h p dt : json) (rt : string) (rest : list net_event) :
  py_truthy h = true ->
  forall (rs : list http_response) (fuel : nat) (ra : Z)
         (resp : option http_response) (w : World lib),
    Forall (retryable lib) rs ->
    ra + Z.of_nat (List.length rs) = MAX_RETRIES ->
    (List.length rs <= fuel)%nat ->
    (rs = [] -> resp <> None) ->
    w_net lib w = map Respond rs ++ rest ->
    exists w', request_loop lib cfg fuel gat ep h p dt rt ra resp w = (Ok JNull, w')
               /\ w_net lib w' = rest
               /\ self lib w' = self lib w.
Proof.
  intros Hh. induction rs as [|r rs IH]; intros fuel ra resp w Hall Hra Hfuel Hresp Hnet.
  - destruct resp as [r|]; [|exfalso; apply Hresp; reflexivity].
    cbn [List.length] in Hra. eexists. split; [apply exhausted_step; lia|].
    split; [exact Hnet | reflexivity].
  - destruct fuel as [|fuel]; [cbn in Hfuel; lia|].
    inversion Hall as [|r' rs' Hr Hrs]; subst.
    destruct (retryable_branch resp r Hr) as (logs & sleeps & Hbr).
    cbn [List.length] in Hra, Hfuel.
    rewrite (retry_step fuel gat ep h p dt rt ra resp (Some r) w
               (Respond r) (map Respond rs ++ rest) logs sleeps Hh
               ltac:(lia) Hnet Hbr).
    destruct (IH fuel (ra + 1) (Some r)
                (after_attempt lib w (the_request ep h p dt rt)
                   (map Respond rs ++ rest) logs (sleeps ++ [30])))
      as (w' & Hrun & Hnet' & Hself); try assumption.
    + lia.
    + lia.
    + discriminate.
    + reflexivity.
    + exists w'. split; [exact Hrun|]. split; [exact Hnet'|]. exact Hself.
Qed.

(** ** [fitbit_data_request] as a whole *)

Lemma fitbit_data_request_S (d : nat) (ep : string) (h p dt : json) (rt : string)
    (w : World lib) :
  fitbit_data_request lib cfg (S d) ep h p dt rt w
  = request_loop lib cfg (Z.to_nat MAX_RETRIES)
      (get_access_token_body lib cfg (fitbit_data_request lib cfg d))
      ep h p dt rt 0 None
      (with_log lib w [(DEBUG, "Requesting endpoint: " +++ ep)]).
Proof. reflexivity. Qed.

(** With headers passed in, or with a token that has not expired, the
    call is the loop run with headers in hand. *)
Lemma fitbit_data_request_ready (d : nat) (ep : string) (h p dt : json) (rt : string)
    (w : World lib) :
  py_truthy h = true \/ token_fresh lib w ->
  exists h',
    py_truthy h' = true
    /\ fitbit_data_request lib cfg (S d) ep h p dt rt w
       = request_loop lib cfg (Z.to_nat MAX_RETRIES)
           (get_access_token_body lib cfg (fitbit_data_request lib cfg d))
           ep h' p dt rt 0 None
           (with_log lib w [(DEBUG, "Requesting endpoint: " +++ ep)]).
Proof.
  intros Hready. rewrite fitbit_data_request_S.
  destruct (py_truthy h) eqn:Hh.
  - exists h. split; [exact Hh | reflexivity].
  - destruct Hready as [Hc|Hfresh]; [discriminate|].
    exists (bearer_headers lib cfg
              (stored_access_token lib
                 (with_log lib w [(DEBUG, "Requesting endpoint: " +++ ep)]))).
    split; [reflexivity|].
    change (Z.to_nat MAX_RETRIES) with 3%nat.
    apply request_loop_default_headers; [exact Hh | reflexivity |].
    apply get_access_token_fresh.
    destruct Hfresh as (kv & e & Hf & He & Hc). exists kv, e. auto.
Qed.


(** C7 (amended): of the server-side statuses only 500, 502, 503 and 504
    are retried: the attempt sleeps 120 seconds, then the trailing 30,
    and the loop goes on with the next attempt.  Every other status from
    500 through 599 ends the call at once with the HTTP error, without
    sleeping. *)
Theorem server_error_statuses (fuel : nat) (gat : M lib json)
    (ep : string) (h p dt : json) (rt : string) (ra : Z)
    (resp : option http_response) (w : World lib)
    (r : http_response) (rest : list net_event) :
  py_truthy h = true ->
  ra < MAX_RETRIES ->
  w_net lib w = Respond r :: rest ->
  500 <= status_code r <= 599 ->
  (In (status_code r) [500; 502; 503; 504] ->
   request_loop lib cfg (S fuel) gat ep h p dt rt ra resp w
   = request_loop lib cfg fuel gat ep h p dt rt (ra + 1) (Some r)
       (after_attempt lib w (the_request ep h p dt rt) rest
          [(WARNING, "Error " +++ py_str lib (JNum (status_code r))
                     +++ " encountered. Retrying after 120s....")]
          [120; 30]))
  /\ (~ In (status_code r) [500; 502; 503; 504] ->
      request_loop lib cfg (S fuel) gat ep h p dt rt ra resp w
      = (Exc (HTTPError (status_code r)),
         after_attempt lib w (the_request ep h p dt rt) rest
           [(ERROR, "Fitbit API request failed. Status code: "
                    +++ py_str lib (JNum (status_code r)) +++ " " +++ resp_text r)]
           [])).
Proof.
  intros Hh Hra Hnet Hrange. split.
  - intros Hin.
    assert (Hsd : server_down (status_code r) = true).
    { unfold server_down. apply existsb_exists. exists (status_code r).
      split; [exact Hin | apply Z.eqb_refl]. }
    pose proof (branch_server_down lib resp r Hsd) as Hbr.
    exact (retry_step fuel gat ep h p dt rt ra resp (Some r) w (Respond r) rest
             _ _ Hh Hra Hnet Hbr).
  - intros Hnin.
    assert (Hsd : server_down (status_code r) = false).
    { destruct (server_down (status_code r)) eqn:E; [|reflexivity].
      exfalso. apply Hnin. destruct (server_down_cases _ E) as [H|[H|[H|H]]];
        rewrite H; cbn; auto. }
    apply fatal_step; try assumption; lia.
Qed.


End ClientProperties.

(* ===================================================================== *)
(** * The token store and the point buffer *)
(* ===================================================================== *)

Section TokenProperties.

Context (lib : PyLib) (cfg : Config).

(** A token exchange answered 200 at the first attempt: one request,
    the token file overwritten with the new pair and the new expiry. *)
Lemma refresh_fitbit_token_ok (d : nat) (w : World lib) (rt : json)
    (r : http_response) (rest : list net_event) (body a' r' : json) (n : Z) :
  w_net lib w = Respond r :: rest ->
  status_code r = 200 ->
  resp_json r = Ok body ->
  py_getitem body "access_token" = Ok a' ->
  py_getitem body "refresh_token" = Ok r' ->
  py_getitem body "expires_in" = Ok (JNum n) ->
  refresh_fitbit_token lib cfg (S d) rt w
  = (Ok (a', r'),
     after_refresh lib cfg w rt rest
       (JObj [("access_token", a'); ("refresh_token", r');
              ("expiry_timestamp", JNum (w_clock lib w + n - 300))])).
Proof.
  intros Hnet H200 Hbody Ha Hr Hn.
  unfold refresh_fitbit_token, refresh_fitbit_token_body.
  rewrite (bind_ok lib _ _ w _ tt) by reflexivity.
  rewrite (bind_ok lib _ _ _
             (after_attempt lib
                (with_log lib (with_log lib w [(INFO, "Attempting to refresh tokens...")])
                   [(DEBUG, "Requesting endpoint: oauth2/token")])
                (token_request lib cfg rt) rest [] []) body).
  2:{ rewrite fitbit_data_request_S. change (Z.to_nat MAX_RETRIES) with 3%nat.
      apply (success_step lib cfg 2 _ _ _ _ _ _ 0 None _ r rest body);
        try assumption; reflexivity. }
  rewrite (bind_ok lib _ _ _ _ a') by (unfold lift; rewrite Ha; reflexivity).
  rewrite (bind_ok lib _ _ _ _ r') by (unfold lift; rewrite Hr; reflexivity).
  rewrite (bind_ok lib _ _ _ _ (w_clock lib w + 0)) by reflexivity.
  rewrite (bind_ok lib _ _ _ _ (JNum n)) by (unfold lift; rewrite Hn; reflexivity).
  cbn [expiry_time_of lift].
  unfold after_refresh, after_attempt, with_log, write_token_file, logging.
  cbn. rewrite !app_nil_r, !Z.add_0_r, <- !app_assoc. reflexivity.
Qed.

(** [get_access_token] up to the comparison of the expiry with the
    clock. *)
Lemma get_access_token_compare (d : nat) (w : World lib)
    (kv : list (string * json)) (e : Z) :
  w_token_file lib w = Some (JObj kv) ->
  py_get (JObj kv) "expiry_timestamp" (JNum 0) = Ok (JNum e) ->
  get_access_token lib cfg d w
  = if e <? w_clock lib w
    then bind lib (refresh_fitbit_token lib cfg d
                     (match assoc "refresh_token" kv with Some x => x | None => JNull end))
           (fun pair => ret lib (fst pair)) w
    else (Ok (stored_access_token lib w), w).
Proof.
  intros Hfile Hexp.
  unfold get_access_token, get_access_token_body, stored_access_token.
  rewrite Hfile.
  rewrite (bind_ok lib _ _ w w (Ok (JObj kv)))
    by (apply try_run; unfold read_token_file; rewrite Hfile; reflexivity).
  rewrite Hexp. cbn [py_get].
  destruct (assoc "access_token" kv) as [a|];
    destruct (assoc "refresh_token" kv) as [rf|];
    cbn [lift bind ret local time_now py_lt_int];
    destruct (e <? w_clock lib w); reflexivity.
Qed.

(** C6 (amended): [get_access_token] calls [refresh_fitbit_token], once,
    exactly when the stored expiry (0 when the file has none) is
    strictly before the clock; a
    credential that expires now or later is handed out as stored and
    nothing is sent.  When the token endpoint answers the exchange with
    200 and [expires_in] = [n], the new access token is returned and the
    file holds the expiry [now + n - 300]. *)
Theorem refresh_iff_expired (d : nat) (w : World lib)
    (kv : list (string * json)) (e : Z) :
  w_token_file lib w = Some (JObj kv) ->
  py_get (JObj kv) "expiry_timestamp" (JNum 0) = Ok (JNum e) ->
  let rt := match assoc "refresh_token" kv with Some x => x | None => JNull end in
  get_access_token lib cfg d w
  = (if e <? w_clock lib w
     then bind lib (refresh_fitbit_token lib cfg d rt)
            (fun pair => ret lib (fst pair)) w
     else (Ok (stored_access_token lib w), w))
  /\ (w_clock lib w <= e ->
      get_access_token lib cfg d w = (Ok (stored_access_token lib w), w))
  /\ (e < w_clock lib w ->
      forall r rest body a' r' n,
        w_net lib w = Respond r :: rest ->
        status_code r = 200 ->
        resp_json r = Ok body ->
        py_getitem body "access_token" = Ok a' ->
        py_getitem body "refresh_token" = Ok r' ->
        py_getitem body "expires_in" = Ok (JNum n) ->
        get_access_token lib cfg (S d) w
        = (Ok a',
           after_refresh lib cfg w rt rest
             (JObj [("access_token", a'); ("refresh_token", r');
                    ("expiry_timestamp", JNum (w_clock lib w + n - 300))]))).
Proof.
  intros Hfile Hexp rt. split; [|split].
  - apply get_access_token_compare; assumption.
  - intros Hle. rewrite (get_access_token_compare d w kv e Hfile Hexp).
    rewrite ltb_false by exact Hle. reflexivity.
  - intros Hlt r rest body a' r' n Hnet H200 Hbody Ha Hr Hn.
    rewrite (get_access_token_compare (S d) w kv e Hfile Hexp).
    rewrite ltb_true by exact Hlt.
    rewrite (bind_ok lib _ _ w _ (a', r'))
      by (eapply refresh_fitbit_token_ok; eassumption).
    reflexivity.
Qed.

(** C10: without a token file [get_access_token] prompts for a refresh
    token and then reads [expiry_timestamp], which the [except] branch
    never bound: whatever is typed, it raises [UnboundLocalError] before
    any exchange (nothing is sent, logged or written), and in no world
    without a token file does it return a token. *)
Theorem bootstrap_never_returns_token (d : nat) (w : World lib) :
  w_token_file lib w = None ->
  (forall line rest,
      w_stdin lib w = line :: rest ->
      get_access_token lib cfg d w = (Exc UnboundLocalError, after_input lib w rest))
  /\ (forall tok w', get_access_token lib cfg d w <> (Ok tok, w')).
Proof.
  intros Hfile.
  assert (Hopen : try lib (read_token_file lib) w = (Ok (Exc FileNotFoundError), w)).
  { apply try_run. unfold read_token_file. rewrite Hfile. reflexivity. }
  split.
  - intros line rest Hin.
    unfold get_access_token, get_access_token_body.
    rewrite (bind_ok lib _ _ w w (Exc FileNotFoundError)) by exact Hopen.
    rewrite (bind_ok lib _ _ w (after_input lib w rest)
               (None, Some (JStr line), None)).
    + reflexivity.
    + rewrite (bind_ok lib _ _ w (after_input lib w rest) line).
      * reflexivity.
      * unfold input. rewrite Hin. reflexivity.
  - intros tok w' Hrun.
    unfold get_access_token, get_access_token_body in Hrun.
    rewrite (bind_ok lib _ _ w w (Exc FileNotFoundError)) in Hrun by exact Hopen.
    rewrite bind_run in Hrun. rewrite bind_run in Hrun.
    unfold input in Hrun.
    destruct (w_stdin lib w) as [|line rest]; cbn in Hrun; discriminate Hrun.
Qed.


(** Only the database's own error is caught: any other exception of
    the write leaves [write_points], the buffer untouched. *)
Lemma write_points_other_error (w : World lib) (e : exn) (rest : list sink_event) :
  (0 < List.length (points lib (self lib w)))%nat ->
  w_sink lib w = SinkFail e :: rest ->
  (forall msg, e <> InfluxDBError msg) ->
  fst (write_points lib w) = Exc e
  /\ points lib (self lib (snd (write_points lib w))) = points lib (self lib w).
Proof.
  intros HK Hsink Hne.
  assert (Hlen : (py_len (points lib (self lib w)) >? 0) = true).
  { apply gtb_true. unfold py_len. lia. }
  unfold write_points.
  rewrite (bind_ok lib _ _ w w (self lib w)) by reflexivity.
  rewrite Hlen.
  rewrite (bind_ok lib _ _ w
             (mkWorld lib (w_clock lib w) (w_token_file lib w) (w_net lib w)
                (w_requests lib w) (w_slept lib w) (w_log lib w) (w_stdin lib w)
                rest (w_written lib w) (self lib w))
             (Exc e)).
  - destruct e; try (split; reflexivity). exfalso. eapply Hne. reflexivity.
  - apply try_run. rewrite bind_run. unfold sink_write. rewrite Hsink.
    reflexivity.
Qed.

(** An empty buffer is not written at all. *)
Lemma write_points_empty (w : World lib) :
  points lib (self lib w) = [] -> write_points lib w = (Ok tt, w).
Proof.
  intros H. unfold write_points.
  rewrite (bind_ok lib _ _ w w (self lib w)) by reflexivity.
  rewrite H. reflexivity.
Qed.

(** ** The bounds of the model are never met *)

(** The token method enters the loop only through its results. *)
Lemma request_loop_ext (gat1 gat2 : M lib json) (ep : string) (p dt : json)
    (rt : string) :
  (forall w, gat1 w = gat2 w) ->
  forall (fuel : nat) (h : json) (ra : Z) (resp : option http_response)
         (w : World lib),
    request_loop lib cfg fuel gat1 ep h p dt rt ra resp w
    = request_loop lib cfg fuel gat2 ep h p dt rt ra resp w.
Proof.
  intros Hg. induction fuel as [|fuel IH]; intros h ra resp w; [reflexivity|].
  rewrite !request_loop_S. destruct (ra <? MAX_RETRIES); [|reflexivity].
  rewrite !bind_run.
  assert (Hh : (if py_truthy h then ret lib h else default_headers lib cfg gat1) w
               = (if py_truthy h then ret lib h else default_headers lib cfg gat2) w).
  { destruct (py_truthy h); [reflexivity|].
    unfold default_headers. rewrite !bind_run, Hg. reflexivity. }
  rewrite Hh.
  destruct ((if py_truthy h then ret lib h else default_headers lib cfg gat2) w)
    as [[h'|e] w1]; [|reflexivity].
  rewrite !bind_run.
  destruct (attempt lib ep h' p dt rt resp w1) as [[[fl rb]|e] w2]; [|reflexivity].
  cbn [fst snd]. destruct fl; [reflexivity|].
  rewrite !bind_run. destruct (sleep lib 30 w2) as [[[]|e] w3]; [|reflexivity].
  apply IH.
Qed.

(** The loop never runs out of fuel: any fuel that covers the attempts
    left gives the same run. *)
Lemma request_loop_fuel (gat : M lib json) (ep : string) (p dt : json) (rt : string) :
  forall (fuel1 fuel2 : nat) (h : json) (ra : Z) (resp : option http_response)
         (w : World lib),
    (Z.to_nat (MAX_RETRIES - ra) <= fuel1)%nat ->
    (Z.to_nat (MAX_RETRIES - ra) <= fuel2)%nat ->
    request_loop lib cfg fuel1 gat ep h p dt rt ra resp w
    = request_loop lib cfg fuel2 gat ep h p dt rt ra resp w.
Proof.
  induction fuel1 as [|fuel1 IH]; intros fuel2 h ra resp w H1 H2.
  - assert (Hra : MAX_RETRIES <= ra) by lia.
    destruct fuel2; cbn [request_loop]; rewrite ltb_false by exact Hra; reflexivity.
  - destruct (Z.ltb_spec ra MAX_RETRIES) as [Hlt|Hge].
    + destruct fuel2 as [|fuel2]; [lia|].
      rewrite !request_loop_S. rewrite ltb_true by exact Hlt.
      rewrite !bind_run.
      destruct ((if py_truthy h then ret lib h else default_headers lib cfg gat) w)
        as [[h'|e] w1]; [|reflexivity].
      rewrite !bind_run.
      destruct (attempt lib ep h' p dt rt resp w1) as [[[fl rb]|e] w2]; [|reflexivity].
      cbn [fst snd]. destruct fl; [reflexivity|].
      rewrite !bind_run. destruct (sleep lib 30 w2) as [[[]|e] w3]; [|reflexivity].
      apply IH; lia.
    + destruct fuel2; cbn [request_loop]; rewrite ltb_false by exact Hge; reflexivity.
Qed.

(** [get_access_token] uses [fitbit_data_request] for the token exchange
    only. *)
Lemma get_access_token_body_ext
    (fdr1 fdr2 : string -> json -> json -> json -> string -> M lib json) :
  (forall rt w,
      fdr1 "oauth2/token" (refresh_headers lib cfg) (JObj []) (refresh_data rt) "post" w
      = fdr2 "oauth2/token" (refresh_headers lib cfg) (JObj []) (refresh_data rt) "post" w) ->
  forall w, get_access_token_body lib cfg fdr1 w = get_access_token_body lib cfg fdr2 w.
Proof.
  intros Hf w. unfold get_access_token_body. rewrite !bind_run.
  destruct (try lib (read_token_file lib) w) as [[opened|e] w1]; [|reflexivity].
  rewrite !bind_run.
  match goal with
  | |- context [match ?c w1 with _ => _ end] =>
      destruct (c w1) as [[[[a r] ex]|e] w2]; [|reflexivity]
  end.
  rewrite !bind_run.
  destruct (local lib ex w2) as [[expiry|e] w3]; [|reflexivity].
  rewrite !bind_run.
  destruct (time_now lib w3) as [[now|e] w4]; [|reflexivity].
  rewrite !bind_run.
  destruct (lift lib (py_lt_int lib expiry now) w4) as [[[|]|e] w5]; try reflexivity.
  rewrite !bind_run.
  destruct (local lib r w5) as [[rt|e] w6]; [|reflexivity].
  rewrite !bind_run.
  assert (Hr : refresh_fitbit_token_body lib cfg fdr1 rt w6
               = refresh_fitbit_token_body lib cfg fdr2 rt w6).
  { unfold refresh_fitbit_token_body. rewrite !bind_run.
    destruct (logging lib INFO "Attempting to refresh tokens..." w6)
      as [[[]|e] w7]; [|reflexivity].
    rewrite !bind_run, Hf. reflexivity. }
  rewrite Hr. reflexivity.
Qed.

(** The methods nest at most two deep, so no run meets the recursion
    limit of the model: every depth from 2 on gives the same run. *)
Lemma fitbit_data_request_depth (d : nat) (ep : string) (h p dt : json)
    (rt : string) (w : World lib) :
  fitbit_data_request lib cfg (S (S d)) ep h p dt rt w
  = fitbit_data_request lib cfg 2 ep h p dt rt w.
Proof.
  rewrite !fitbit_data_request_S.
  apply request_loop_ext. apply get_access_token_body_ext.
  intros rt' w'. rewrite !fitbit_data_request_S.
  apply request_loop_truthy_headers. reflexivity.
Qed.

End TokenProperties.

(* ===================================================================== *)
(** * What the API client leaves untouched *)
(* ===================================================================== *)

Section Frame.

Context (lib : PyLib) (cfg : Config).

Lemma keeps_self_ret {A} (a : A) : keeps_self lib (ret lib a).
Proof. intros w. reflexivity. Qed.

Lemma keeps_self_raise {A} (e : exn) : keeps_self lib (@raise lib A e).
Proof. intros w. reflexivity. Qed.

Lemma keeps_self_lift {A} (r : Res A) : keeps_self lib (lift lib r).
Proof. intros w. reflexivity. Qed.

Lemma keeps_self_bind {A B} (c : M lib A) (k : A -> M lib B) :
  keeps_self lib c -> (forall a, keeps_self lib (k a)) ->
  keeps_self lib (bind lib c k).
Proof.
  intros Hc Hk w. rewrite bind_run. specialize (Hc w).
  destruct (c w) as [[a|e] w1]; cbn [snd] in *.
  - rewrite Hk. exact Hc.
  - exact Hc.
Qed.

Lemma keeps_self_try {A} (c : M lib A) :
  keeps_self lib c -> keeps_self lib (try lib c).
Proof.
  intros Hc w. unfold try. specialize (Hc w). destruct (c w). exact Hc.
Qed.

Lemma keeps_self_logging (lvl : level) (msg : string) :
  keeps_self lib (logging lib lvl msg).
Proof. intros w. reflexivity. Qed.

Lemma keeps_self_sleep (secs : Z) : keeps_self lib (sleep lib secs).
Proof. intros w. unfold sleep. destruct (secs <? 0); reflexivity. Qed.

Lemma keeps_self_time_now : keeps_self lib (time_now lib).
Proof. intros w. reflexivity. Qed.

Lemma keeps_self_input (prompt : string) : keeps_self lib (input lib prompt).
Proof. intros w. unfold input. destruct (w_stdin lib w); reflexivity. Qed.

Lemma keeps_self_requests_request (rq : request) :
  keeps_self lib (requests_request lib rq).
Proof.
  intros w. unfold requests_request.
  destruct (w_net lib w) as [|[r|e] rest]; reflexivity.
Qed.

Lemma keeps_self_raise_for_status (r : http_response) :
  keeps_self lib (raise_for_status lib r).
Proof.
  intros w. unfold raise_for_status.
  destruct ((400 <=? status_code r) && (status_code r <? 600)); reflexivity.
Qed.

Lemma keeps_self_read_token_file : keeps_self lib (read_token_file lib).
Proof. intros w. unfold read_token_file. destruct (w_token_file lib w); reflexivity. Qed.

Lemma keeps_self_write_token_file (tokens : json) :
  keeps_self lib (write_token_file lib tokens).
Proof. intros w. reflexivity. Qed.

Lemma keeps_self_local {A} (v : option A) : keeps_self lib (local lib v).
Proof. intros w. destruct v; reflexivity. Qed.

Lemma keeps_self_get_self : keeps_self lib (get_self lib).
Proof. intros w. reflexivity. Qed.

Create HintDb frame.

#[local] Hint Resolve keeps_self_ret keeps_self_raise keeps_self_lift
  keeps_self_try keeps_self_logging keeps_self_sleep keeps_self_time_now
  keeps_self_input keeps_self_requests_request keeps_self_raise_for_status
  keeps_self_read_token_file keeps_self_write_token_file keeps_self_local
  keeps_self_get_self : frame.

(** Splits a computation along its binds and case distinctions. *)
Ltac frame :=
  repeat first
    [ progress auto with frame
    | apply keeps_self_bind; [|intros ?]
    | apply keeps_self_try
    | match goal with
      | |- keeps_self _ (if ?b then _ else _) => destruct b
      | |- keeps_self _ (match ?x with _ => _ end) => destruct x
      end ].

Lemma keeps_self_classify (r : http_response) : keeps_self lib (classify lib r).
Proof. unfold classify. frame. Qed.

Lemma keeps_self_except_clause (e : exn) (resp : option http_response) :
  keeps_self lib (except_clause lib e resp).
Proof. unfold except_clause. frame. Qed.

#[local] Hint Resolve keeps_self_classify keeps_self_except_clause : frame.

Lemma keeps_self_attempt (ep : string) (h p dt : json) (rt : string)
    (resp : option http_response) :
  keeps_self lib (attempt lib ep h p dt rt resp).
Proof. unfold attempt. frame. Qed.

#[local] Hint Resolve keeps_self_attempt : frame.

Lemma keeps_self_request_loop (gat : M lib json) (ep : string) (p dt : json)
    (rt : string) :
  keeps_self lib gat ->
  forall (fuel : nat) (h : json) (ra : Z) (resp : option http_response),
    keeps_self lib (request_loop lib cfg fuel gat ep h p dt rt ra resp).
Proof.
  intros Hgat. induction fuel as [|fuel IH]; intros h ra resp.
  - cbn [request_loop]. destruct (ra <? MAX_RETRIES); frame.
  - rewrite request_loop_S. destruct (ra <? MAX_RETRIES); [|frame].
    apply keeps_self_bind.
    + destruct (py_truthy h); [frame|]. unfold default_headers. frame.
    + intros h'. apply keeps_self_bind; [frame|]. intros [fl rb].
      cbn [fst snd]. destruct fl; [frame|].
      apply keeps_self_bind; [frame|]. intros _. apply IH.
Qed.

Lemma keeps_self_get_access_token_body
    (fdr : string -> json -> json -> json -> string -> M lib json) :
  (forall ep h p dt rt, keeps_self lib (fdr ep h p dt rt)) ->
  keeps_self lib (get_access_token_body lib cfg fdr).
Proof.
  intros Hf. unfold get_access_token_body.
  apply keeps_self_bind; [frame|]. intros opened.
  apply keeps_self_bind.
  - destruct opened as [tokens|e]; [frame|]. destruct e; frame.
  - intros [[a r] e].
    apply keeps_self_bind; [frame|]. intros expiry.
    apply keeps_self_bind; [frame|]. intros now.
    apply keeps_self_bind; [frame|]. intros [|]; [|frame].
    apply keeps_self_bind; [frame|]. intros rt.
    apply keeps_self_bind; [|frame].
    unfold refresh_fitbit_token_body.
    apply keeps_self_bind; [frame|]. intros _.
    apply keeps_self_bind; [apply Hf|]. intros json_data. frame.
Qed.

(** The API client never touches the object: not the buffer, not the
    timezone, not the working dates. *)
Lemma keeps_self_fitbit_data_request (d : nat) (ep : string) (h p dt : json)
    (rt : string) :
  keeps_self lib (fitbit_data_request lib cfg d ep h p dt rt).
Proof.
  revert ep h p dt rt. induction d as [|d IH]; intros ep h p dt rt.
  - cbn [fitbit_data_request]. frame.
  - cbn [fitbit_data_request]. unfold fitbit_data_request_body.
    apply keeps_self_bind; [frame|]. intros _.
    apply keeps_self_request_loop.
    apply keeps_self_get_access_token_body. exact IH.
Qed.

End Frame.

(* ===================================================================== *)
(** * The metric handlers: what they append to the buffer *)
(* ===================================================================== *)

Section HandlerProperties.

Context (lib : PyLib) (cfg : Config).
Context (tz : tzinfo lib) (Q : json -> Prop).

Lemma appends_keeps {A} (c : M lib A) :
  keeps_self lib c -> appends lib tz Q c (fun _ => True).
Proof.
  intros Hc w Htz. rewrite (Hc w). split; [exact Htz|]. split; [|trivial].
  exists []. rewrite app_nil_r. split; [reflexivity | constructor].
Qed.

Lemma appends_ret {A} (a : A) (R : A -> Prop) :
  R a -> appends lib tz Q (ret lib a) R.
Proof.
  intros Ha w Htz. cbn [ret fst snd]. split; [exact Htz|]. split.
  - exists []. rewrite app_nil_r. split; [reflexivity | constructor].
  - intros a' E. inversion E; subst. exact Ha.
Qed.

Lemma appends_raise {A} (e : exn) (R : A -> Prop) :
  appends lib tz Q (raise lib e) R.
Proof.
  intros w Htz. cbn [raise fst snd]. split; [exact Htz|]. split.
  - exists []. rewrite app_nil_r. split; [reflexivity | constructor].
  - intros a E. discriminate E.
Qed.

Lemma appends_lift {A} (r : Res A) :
  appends lib tz Q (lift lib r) (fun a => r = Ok a).
Proof.
  intros w Htz. cbn [lift fst snd]. split; [exact Htz|]. split.
  - exists []. rewrite app_nil_r. split; [reflexivity | constructor].
  - intros a E. exact E.
Qed.

Lemma appends_weaken {A} (c : M lib A) (R R' : A -> Prop) :
  appends lib tz Q c R -> (forall a, R a -> R' a) -> appends lib tz Q c R'.
Proof.
  intros Hc HR w Htz. destruct (Hc w Htz) as (H1 & H2 & H3).
  split; [exact H1|]. split; [exact H2|]. intros a E. apply HR, H3, E.
Qed.

Lemma appends_bind {A B} (c : M lib A) (k : A -> M lib B)
    (R1 : A -> Prop) (R2 : B -> Prop) :
  appends lib tz Q c R1 ->
  (forall a, R1 a -> appends lib tz Q (k a) R2) ->
  appends lib tz Q (bind lib c k) R2.
Proof.
  intros Hc Hk w Htz. rewrite bind_run.
  destruct (Hc w Htz) as (Htz1 & (new1 & Hp1 & Hq1) & Hr1).
  destruct (c w) as [[a|e] w1]; cbn [fst snd] in *.
  - destruct (Hk a (Hr1 a eq_refl) w1 Htz1) as (Htz2 & (new2 & Hp2 & Hq2) & Hr2).
    split; [exact Htz2|]. split; [|exact Hr2].
    exists (new1 ++ new2). rewrite Hp2, Hp1, app_assoc.
    split; [reflexivity | apply Forall_app; split; assumption].
  - split; [exact Htz1|]. split.
    + exists new1. split; assumption.
    + intros b E. discriminate E.
Qed.

Lemma appends_try {A} (c : M lib A) (R : A -> Prop) :
  appends lib tz Q c R ->
  appends lib tz Q (try lib c) (fun r => forall a, r = Ok a -> R a).
Proof.
  intros Hc w Htz. unfold try.
  destruct (Hc w Htz) as (H1 & H2 & H3).
  destruct (c w) as [r w1]; cbn [fst snd] in *.
  split; [exact H1|]. split; [exact H2|].
  intros r' E a Ea. inversion E; subst. apply H3. reflexivity.
Qed.

Lemma appends_try_any {A} (c : M lib A) :
  appends lib tz Q c (fun _ => True) ->
  appends lib tz Q (try lib c) (fun _ => True).
Proof.
  intros Hc. eapply appends_weaken; [apply appends_try, Hc|]. trivial.
Qed.

Lemma appends_for_each {A} (xs : list A) (body : A -> M lib unit) :
  (forall x, appends lib tz Q (body x) (fun _ => True)) ->
  appends lib tz Q (for_each lib xs body) (fun _ => True).
Proof.
  intros Hb. induction xs as [|x xs IH]; cbn [for_each].
  - apply appends_ret. exact I.
  - eapply appends_bind; [apply Hb|]. intros _ _. exact IH.
Qed.

Lemma appends_for_fold {A S} (xs : list A) (body : A -> S -> M lib S) :
  (forall x s, appends lib tz Q (body x s) (fun _ => True)) ->
  forall s, appends lib tz Q (for_fold lib xs s body) (fun _ => True).
Proof.
  intros Hb. induction xs as [|x xs IH]; intros s; cbn [for_fold].
  - apply appends_ret. exact I.
  - eapply appends_bind; [apply Hb|]. intros s' _. apply IH.
Qed.

Lemma appends_points_append (p : json) :
  Q p -> appends lib tz Q (points_append lib p) (fun _ => True).
Proof.
  intros Hp w Htz. cbn. split; [exact Htz|]. split; [|trivial].
  exists [p]. split; [reflexivity | repeat constructor; exact Hp].
Qed.

Lemma appends_self_timezone :
  appends lib tz Q (self_timezone lib) (fun a => a = tz).
Proof.
  intros w Htz. unfold self_timezone. rewrite bind_run. cbn [get_self].
  rewrite Htz. cbn [ret fst snd]. split; [exact Htz|]. split.
  - exists []. rewrite app_nil_r. split; [reflexivity | constructor].
  - intros a E. inversion E. reflexivity.
Qed.

Lemma keeps_self_self_end_date : keeps_self lib (self_end_date lib).
Proof.
  intros w. unfold self_end_date. rewrite bind_run. cbn [get_self].
  destruct (end_date lib (self lib w)); reflexivity.
Qed.

Lemma keeps_self_self_start_date : keeps_self lib (self_start_date lib).
Proof.
  intros w. unfold self_start_date. rewrite bind_run. cbn [get_self].
  destruct (start_date lib (self lib w)); reflexivity.
Qed.

Lemma appends_or_default (v : option string) (default : M lib string) :
  keeps_self lib default ->
  appends lib tz Q (or_default lib v default) (fun _ => True).
Proof.
  intros Hd. unfold or_default. destruct v as [s|].
  - destruct (String.eqb s ""); [apply appends_keeps, Hd | apply appends_ret; exact I].
  - apply appends_keeps, Hd.
Qed.

Lemma keeps_self_end_date_str : keeps_self lib (end_date_str lib).
Proof.
  unfold end_date_str. apply keeps_self_bind.
  - apply keeps_self_self_end_date.
  - intros d. apply keeps_self_ret.
Qed.

Lemma keeps_self_start_date_str : keeps_self lib (start_date_str lib).
Proof.
  unfold start_date_str. apply keeps_self_bind.
  - apply keeps_self_self_start_date.
  - intros d. apply keeps_self_ret.
Qed.

Lemma appends_dt_fromisoformat (x : json) :
  appends lib tz Q (dt_fromisoformat lib x)
    (fun dt => exists s, fromisoformat lib s = Ok dt).
Proof.
  unfold dt_fromisoformat. destruct x; try apply appends_raise.
  eapply appends_weaken; [apply appends_lift|]. intros dt H. exists s. exact H.
Qed.

(** The conversion every localizing handler goes through. *)
Lemma appends_localize_to_utc (log_time : datetime lib) :
  appends lib tz Q (localize_to_utc lib log_time)
    (fun t => exists local_time utc,
                localize lib tz log_time = Ok local_time
                /\ astimezone_utc lib local_time = Ok utc
                /\ t = isoformat lib utc).
Proof.
  unfold localize_to_utc.
  eapply appends_bind; [apply appends_self_timezone|]. intros tz' ->.
  eapply appends_bind; [apply appends_lift|]. intros local_time Hl.
  eapply appends_bind; [apply appends_lift|]. intros utc Hu.
  apply appends_ret. exists local_time, utc. auto.
Qed.

Lemma appends_midnight_utc (data : json) :
  appends lib tz Q (midnight_utc lib data) (localized_utc lib tz).
Proof.
  unfold midnight_utc.
  eapply appends_bind; [apply appends_lift|]. intros d Hd.
  eapply appends_bind; [apply appends_lift|]. intros log_time Hp.
  eapply appends_weaken; [apply appends_localize_to_utc|].
  intros t (local_time & utc & Hl & Hu & Ht).
  exists (py_str lib d +++ "T00:00:00"), log_time, local_time, utc. auto.
Qed.

Lemma appends_fitbit_data_request (d : nat) (ep : string) (h p dt : json)
    (rt : string) :
  appends lib tz Q (fitbit_data_request lib cfg d ep h p dt rt) (fun _ => True).
Proof. apply appends_keeps, keeps_self_fitbit_data_request. Qed.

Lemma appends_logging (lvl : level) (msg : string) :
  appends lib tz Q (logging lib lvl msg) (fun _ => True).
Proof. apply appends_keeps, keeps_self_logging. Qed.

End HandlerProperties.

(* ===================================================================== *)
(** * Timestamps of the appended points *)
(* ===================================================================== *)

Section Timestamps.

Context (lib : PyLib) (cfg : Config) (tz : tzinfo lib).

(** Closes the side condition of an append: the point's time is the
    conversion of a parsed text through the zone [tz]. *)
Ltac localized :=
  cbv beta in *;
  repeat match goal with
         | H : exists _, _ |- _ => destruct H
         | H : _ /\ _ |- _ => destruct H
         end;
  subst;
  eexists; split; [reflexivity|];
  match goal with
  | H : localized_utc _ _ ?t |- localized_utc _ _ ?t => exact H
  | Hp : fromisoformat lib ?s = Ok ?dt,
    Hl : localize lib _ ?dt = Ok ?loc,
    Hu : astimezone_utc lib ?loc = Ok ?utc
    |- localized_utc _ _ (isoformat _ ?utc) =>
      exists s, dt, loc, utc; auto
  end.

(** Walks through a handler along its binds, loops and branches. *)
Ltac walk :=
  repeat match goal with
    | |- appends _ _ _ (ret _ _) _ => apply appends_ret; exact I
    | |- appends _ _ _ (raise _ _) _ => apply appends_raise
    | |- appends _ _ _ (logging _ _ _) _ => apply appends_logging
    | |- appends _ _ _ (local _ _) _ => apply appends_keeps, keeps_self_local
    | |- appends _ _ _ (lift _ _) _ => apply appends_keeps, keeps_self_lift
    | |- appends _ _ _ (fitbit_data_request _ _ _ _ _ _ _ _) _ =>
        apply appends_fitbit_data_request
    | |- appends _ _ _ (points_append _ _) _ => apply appends_points_append
    | |- appends _ _ _ (or_default _ _ _) _ =>
        apply appends_or_default;
        first [apply keeps_self_end_date_str | apply keeps_self_start_date_str]
    | |- appends _ _ _ (for_each _ _ _) _ => apply appends_for_each; intros ?
    | |- appends _ _ _ (for_fold _ _ _ _) _ => apply appends_for_fold; intros ? ?
    | |- appends _ _ _ (try _ _) _ => apply appends_try_any
    | |- appends _ _ _ (bind _ (lift _ _) _) _ =>
        eapply appends_bind; [apply appends_lift | intros ? ?]
    | |- appends _ _ _ (bind _ (midnight_utc _ _) _) _ =>
        eapply appends_bind; [apply appends_midnight_utc | intros ? ?]
    | |- appends _ _ _ (bind _ (localize_to_utc _ _) _) _ =>
        eapply appends_bind; [apply appends_localize_to_utc | intros ? ?]
    | |- appends _ _ _ (bind _ (dt_fromisoformat _ _) _) _ =>
        eapply appends_bind; [apply appends_dt_fromisoformat | intros ? ?]
    | |- appends _ _ _ (bind _ (self_timezone _) _) _ =>
        eapply appends_bind; [apply appends_self_timezone | intros ? ?]
    | |- appends _ _ _ (bind _ _ _) _ =>
        apply (appends_bind lib tz _ _ _ (fun _ => True)); [|intros ? _]
    | |- appends _ _ _ (match ?x with _ => _ end) _ => destruct x
    end.

Lemma get_battery_level_localizes (d : nat) :
  appends lib tz (localized_point lib tz) (get_battery_level lib cfg d)
    (fun _ => True).
Proof. unfold get_battery_level. walk. all: localized. Qed.

Lemma get_intraday_data_limit_1d_localizes (d : nat) (date_str : option string)
    (measurement_list : list (string * string * string)) :
  appends lib tz (localized_point lib tz)
    (get_intraday_data_limit_1d lib cfg d date_str measurement_list) (fun _ => True).
Proof. unfold get_intraday_data_limit_1d. walk. all: localized. Qed.

Lemma get_daily_data_limit_30d_localizes (d : nat) (start_date end_date : option string) :
  appends lib tz (localized_point lib tz)
    (get_daily_data_limit_30d lib cfg d start_date end_date) (fun _ => True).
Proof. unfold get_daily_data_limit_30d. walk. all: localized. Qed.

Lemma get_daily_data_limit_100d_localizes (d : nat) (start_date end_date : option string) :
  appends lib tz (localized_point lib tz)
    (get_daily_data_limit_100d lib cfg d start_date end_date) (fun _ => True).
Proof. unfold get_daily_data_limit_100d, sleep_tags. walk. all: localized. Qed.

Lemma get_daily_data_limit_365d_localizes (d : nat) (start_date end_date : option string) :
  appends lib tz (localized_point lib tz)
    (get_daily_data_limit_365d lib cfg d start_date end_date) (fun _ => True).
Proof. unfold get_daily_data_limit_365d, zone_minutes. walk. all: localized. Qed.

Lemma get_daily_data_limit_none_localizes (d : nat) (start_date end_date : option string) :
  appends lib tz (localized_point lib tz)
    (get_daily_data_limit_none lib cfg d start_date end_date) (fun _ => True).
Proof. unfold get_daily_data_limit_none. walk. all: localized. Qed.

(** Closes the side condition of an append in [fetch_latest_activities]:
    the point's time is the conversion of a parsed text by its own
    offset. *)
Ltac own_offset :=
  cbv beta in *;
  repeat match goal with
         | H : exists _, _ |- _ => destruct H
         | H : _ /\ _ |- _ => destruct H
         end;
  subst;
  eexists; split; [reflexivity|];
  match goal with
  | Hp : fromisoformat lib ?s = Ok ?dt,
    Hu : astimezone_utc lib ?dt = Ok ?utc
    |- offset_utc _ (isoformat _ ?utc) =>
      exists s, dt, utc; auto
  end.

Lemma fetch_latest_activities_converts (d : nat) (end_date : option string) :
  appends lib tz (offset_point lib)
    (fetch_latest_activities lib cfg d end_date) (fun _ => True).
Proof. unfold fetch_latest_activities, add_field. walk. all: own_offset. Qed.

Lemma localized_utc_conversion (t : string) :
  localized_utc lib tz t <-> exists s, account_conversion lib tz s = Ok t.
Proof.
  unfold localized_utc, account_conversion. split.
  - intros (s & dt & loc & utc & Hp & Hl & Hu & ->). exists s.
    rewrite Hp, Hl, Hu. reflexivity.
  - intros (s & H). destruct (fromisoformat lib s) as [dt|] eqn:Hp; [|discriminate].
    destruct (localize lib tz dt) as [loc|] eqn:Hl; [|discriminate].
    destruct (astimezone_utc lib loc) as [utc|] eqn:Hu; [|discriminate].
    inversion H. exists s, dt, loc, utc. auto.
Qed.

Lemma offset_utc_conversion (t : string) :
  offset_utc lib t <-> exists s, own_offset_conversion lib s = Ok t.
Proof.
  unfold offset_utc, own_offset_conversion. split.
  - intros (s & dt & utc & Hp & Hu & ->). exists s. rewrite Hp, Hu. reflexivity.
  - intros (s & H). destruct (fromisoformat lib s) as [dt|] eqn:Hp; [|discriminate].
    destruct (astimezone_utc lib dt) as [utc|] eqn:Hu; [|discriminate].
    inversion H. exists s, dt, utc. auto.
Qed.

(** What a handler that only appends has added to the buffer. *)
Lemma appended {A} (Q : json -> Prop) (c : M lib A) (w : World lib) :
  appends lib tz Q c (fun _ => True) ->
  timezone lib (self lib w) = Some tz ->
  exists new, points lib (self lib (snd (c w))) = points lib (self lib w) ++ new
              /\ Forall Q new.
Proof. intros Hc Htz. destruct (Hc w Htz) as (_ & H & _). exact H. Qed.


End Timestamps.

(* ===================================================================== *)
(** * The metric handlers on an absent result *)
(* ===================================================================== *)

Section Isolation.

Context (lib : PyLib) (cfg : Config).

Lemma or_default_given (s : string) (default : M lib string) (w : World lib) :
  s <> "" -> or_default lib (Some s) default w = (Ok s, w).
Proof.
  intros Hs. unfold or_default.
  destruct (String.eqb s "") eqn:E; [|reflexivity].
  apply String.eqb_eq in E. contradiction.
Qed.

(** [get_battery_level] indexes the result before it looks at it: on an
    absent result the subscript raises and the branch that would log
    the failure is never reached. *)
Lemma get_battery_level_absent (d : nat) (w w' : World lib) :
  fitbit_data_request lib cfg d "1/user/-/devices.json"
    (JObj []) (JObj []) (JObj []) "GET" w = (Ok JNull, w') ->
  get_battery_level lib cfg d w = (Exc TypeError, w').
Proof.
  intros H. unfold get_battery_level.
  rewrite (bind_ok lib _ _ w w' JNull) by exact H. reflexivity.
Qed.

(** [get_daily_data_limit_30d] calls [.get] on the result of its first
    fetch: on an absent result the call raises, and the three fetches
    that follow are never made. *)
Lemma get_daily_data_limit_30d_absent (d : nat) (sd ed : string) (w w' : World lib) :
  sd <> "" -> ed <> "" ->
  fitbit_data_request lib cfg d
    ("1/user/-/hrv/date/" +++ sd +++ "/" +++ ed +++ ".json")
    (JObj []) (JObj []) (JObj []) "GET" w = (Ok JNull, w') ->
  get_daily_data_limit_30d lib cfg d (Some sd) (Some ed) w = (Exc AttributeError, w').
Proof.
  intros Hs He H. unfold get_daily_data_limit_30d.
  rewrite (bind_ok lib _ _ w w sd) by (apply or_default_given; exact Hs).
  rewrite (bind_ok lib _ _ w w ed) by (apply or_default_given; exact He).
  rewrite (bind_ok lib _ _ w w' JNull) by exact H. reflexivity.
Qed.

Lemma get_daily_data_limit_100d_absent (d : nat) (sd ed : string) (w w' : World lib) :
  sd <> "" -> ed <> "" ->
  fitbit_data_request lib cfg d
    ("1.2/user/-/sleep/date/" +++ sd +++ "/" +++ ed +++ ".json")
    (JObj []) (JObj []) (JObj []) "GET" w = (Ok JNull, w') ->
  get_daily_data_limit_100d lib cfg d (Some sd) (Some ed) w = (Exc AttributeError, w').
Proof.
  intros Hs He H. unfold get_daily_data_limit_100d.
  rewrite (bind_ok lib _ _ w w sd) by (apply or_default_given; exact Hs).
  rewrite (bind_ok lib _ _ w w ed) by (apply or_default_given; exact He).
  rewrite (bind_ok lib _ _ w w' JNull) by exact H. reflexivity.
Qed.

(** [get_daily_data_limit_none] tests the result before it uses it: an
    absent result is logged as a failure and skipped. *)
Lemma get_daily_data_limit_none_absent (d : nat) (sd ed : string) (w w' : World lib) :
  sd <> "" -> ed <> "" ->
  fitbit_data_request lib cfg d
    ("1/user/-/spo2/date/" +++ sd +++ "/" +++ ed +++ ".json")
    (JObj []) (JObj []) (JObj []) "GET" w = (Ok JNull, w') ->
  get_daily_data_limit_none lib cfg d (Some sd) (Some ed) w
  = (Ok tt,
     with_log lib w'
       [(ERROR, "Recording failed: Avg SPO2 for date " +++ sd +++ " to " +++ ed)]).
Proof.
  intros Hs He H. unfold get_daily_data_limit_none.
  rewrite (bind_ok lib _ _ w w sd) by (apply or_default_given; exact Hs).
  rewrite (bind_ok lib _ _ w w ed) by (apply or_default_given; exact He).
  rewrite (bind_ok lib _ _ w w' JNull) by exact H. reflexivity.
Qed.

(** So does [fetch_latest_activities]. *)
Lemma fetch_latest_activities_absent (d : nat) (ed : string) (w w' : World lib) :
  ed <> "" ->
  fitbit_data_request lib cfg d "1/user/-/activities/list.json" (JObj [])
    (JObj [("beforeDate", JStr ed); ("sort", JStr "desc");
           ("limit", JNum 50); ("offset", JNum 0)])
    (JObj []) "GET" w = (Ok JNull, w') ->
  fetch_latest_activities lib cfg d (Some ed) w
  = (Ok tt,
     with_log lib w'
       [(ERROR, "Fetching 50 recent activities failed: before date " +++ ed)]).
Proof.
  intros He H. unfold fetch_latest_activities.
  rewrite (bind_ok lib _ _ w w ed) by (apply or_default_given; exact He).
  rewrite (bind_ok lib _ _ w w' JNull) by exact H. reflexivity.
Qed.

(** An empty device list is indexed all the same. *)
Lemma get_battery_level_empty_list (d : nat) (w w' : World lib) :
  fitbit_data_request lib cfg d "1/user/-/devices.json"
    (JObj []) (JObj []) (JObj []) "GET" w = (Ok (JArr []), w') ->
  get_battery_level lib cfg d w = (Exc IndexError, w').
Proof.
  intros H. unfold get_battery_level.
  rewrite (bind_ok lib _ _ w w' (JArr [])) by exact H. reflexivity.
Qed.

(** The timezone of the object is the configured one: when
    [LOCAL_TIMEZONE] is set, [__init__] assigns [pytz.timezone] of it
    before anything else can fail. *)
Lemma init_timezone_configured (d : nat) (w : World lib) (tz : tzinfo lib) :
  py_truthy (LOCAL_TIMEZONE cfg) = true ->
  pytz_timezone lib (LOCAL_TIMEZONE cfg) = Ok tz ->
  timezone lib (self lib (snd (init lib cfg d w))) = Some tz.
Proof.
  intros Hset Htz. unfold init. rewrite Hset, Htz.
  unfold working_start.
  cbn.
  destruct (add_days lib (datetime_now lib (w_clock lib w))
              (- AUTO_UPDATE_DATE_RANGE cfg)); reflexivity.
Qed.

End Isolation.

(* ===================================================================== *)
(** * More on the partitioner *)
(* ===================================================================== *)

Lemma py_len_map {A B} (f : A -> B) (l : list A) : py_len (map f l) = py_len l.
Proof. unfold py_len. rewrite length_map. reflexivity. Qed.

Lemma py_index_map {A B} (f : A -> B) (l : list A) (i : Z) :
  py_index (map f l) i = option_map f (py_index l i).
Proof.
  unfold py_index. rewrite py_len_map.
  destruct ((0 <=? i) && (i <? py_len l)); [apply nth_error_map|].
  destruct ((- py_len l <=? i) && (i <? 0)); [apply nth_error_map|reflexivity].
Qed.

Lemma yield_dates_loop_map {A B} (f : A -> B) (d : list A) (gap : Z) :
  forall (fuel : nat) (st : Z),
    yield_dates_loop fuel (map f d) gap st
    = (map (pair_map f) (fst (yield_dates_loop fuel d gap st)),
       snd (yield_dates_loop fuel d gap st)).
Proof.
  induction fuel as [|fuel IH]; intros st.
  - cbn [yield_dates_loop]. rewrite py_len_map.
    destruct (st <? py_len d - 1); reflexivity.
  - rewrite !yield_dates_loop_S, py_len_map.
    destruct (st <? py_len d - 1); [|reflexivity].
    destruct (st + gap >? py_len d - 1); [reflexivity|].
    rewrite !py_index_map.
    destruct (py_index d (st + gap)) as [a|]; [|reflexivity].
    cbn [option_map].
    destruct (py_index d (if st + gap + gap >? py_len d - 1
                          then py_len d - 1 else st + gap + gap)) as [b|];
      [|reflexivity].
    cbn [option_map]. rewrite IH.
    destruct (yield_dates_loop fuel d gap (st + gap)) as [rest e].
    reflexivity.
Qed.


Lemma py_range_of_nat (n : nat) : py_range (Z.of_nat n) = map Z.of_nat (seq 0 n).
Proof. unfold py_range. rewrite Nat2Z.id. reflexivity. Qed.

Lemma py_len_py_range (n : nat) : py_len (py_range (Z.of_nat n)) = Z.of_nat n.
Proof. rewrite py_range_of_nat. unfold py_len. rewrite length_map, length_seq. reflexivity. Qed.

Lemma nth_py_range (n : nat) (k : Z) :
  0 <= k < Z.of_nat n -> nth (Z.to_nat k) (py_range (Z.of_nat n)) 0 = k.
Proof.
  intros Hk. rewrite py_range_of_nat.
  change 0 with (Z.of_nat 0). rewrite map_nth, seq_nth by lia. lia.
Qed.

(** The chunks of the list of positions [0 .. n-1]. *)
Lemma spec_chunk_py_range (n : nat) (s : Z) (i : nat) :
  1 <= s -> Z.of_nat i * s <= Z.of_nat n - 1 ->
  spec_chunk (py_range (Z.of_nat n)) s 0 i
  = (Z.of_nat i * s, Z.min ((Z.of_nat i + 1) * s) (Z.of_nat n - 1)).
Proof.
  intros Hs Hi. unfold spec_chunk. rewrite py_len_py_range.
  rewrite !nth_py_range by nia. reflexivity.
Qed.

(** X2: on the positions [0 .. n-1] of a date list, [n >= 1], and for a
    span [s >= 1], the generator finishes; every chunk [(a, b)] it yields
    lies inside the list and spans at most [s] positions
    ([a <= b <= a + s]), and every position lies in some chunk: the
    chunks cover the range without a gap and none is wider than the
    span. *)
Theorem partition_covers (n : nat) (s : Z) :
  1 <= s -> (1 <= n)%nat ->
  exists chunks,
    yield_dates_with_gap (S n) (py_range (Z.of_nat n)) s = (chunks, Finished)
    /\ Forall (fun p => 0 <= fst p /\ fst p <= snd p
                        /\ snd p <= fst p + s /\ snd p < Z.of_nat n) chunks
    /\ (forall k, 0 <= k < Z.of_nat n ->
                  Exists (fun p => fst p <= k <= snd p) chunks).
Proof.
  intros Hs Hn.
  set (d := py_range (Z.of_nat n)).
  assert (Hlen : List.length d = n).
  { subst d. rewrite py_range_of_nat, length_map, length_seq. reflexivity. }
  assert (Hpl : py_len d = Z.of_nat n) by (apply py_len_py_range).
  assert (Hq : 0 <= (Z.of_nat n - 1) / s) by (apply Z.div_pos; lia).
  assert (Hdiv : ((Z.of_nat n - 1) / s) * s <= Z.of_nat n - 1).
  { rewrite Z.mul_comm. apply Z.mul_div_le. lia. }
  exists (map (spec_chunk d s 0) (seq 0 (chunk_count d s))).
  split; [|split].
  - apply yield_dates_with_gap_chunks; [exact Hs | lia | lia].
  - apply Forall_map, Forall_forall. intros i Hi. apply in_seq in Hi.
    unfold chunk_count in Hi. rewrite Hpl in Hi.
    assert (Hi' : Z.of_nat i * s <= Z.of_nat n - 1) by nia.
    subst d. rewrite spec_chunk_py_range by assumption. cbn [fst snd].
    repeat split; lia.
  - intros k Hk. apply Exists_exists.
    assert (Hks : 0 <= k / s) by (apply Z.div_pos; lia).
    assert (Hk1 : (k / s) * s <= k) by (rewrite Z.mul_comm; apply Z.mul_div_le; lia).
    assert (Hk2 : k < (k / s + 1) * s).
    { pose proof (Z.mul_succ_div_gt k s ltac:(lia)). lia. }
    assert (Hk3 : k / s <= (Z.of_nat n - 1) / s) by (apply Z.div_le_mono; lia).
    exists (spec_chunk d s 0 (Z.to_nat (k / s))). split.
    + apply in_map, in_seq. unfold chunk_count. rewrite Hpl. lia.
    + subst d. rewrite spec_chunk_py_range; rewrite ?Z2Nat.id by exact Hks;
        [cbn [fst snd]; lia | exact Hs | lia].
Qed.

(** X3: an empty date list yields no chunk and the generator finishes
    at once, whatever the span. *)
Theorem partition_empty {A} (gap : Z) (fuel : nat) :
  yield_dates_with_gap (S fuel) (@nil A) gap = ([], Finished).
Proof.
  unfold yield_dates_with_gap. rewrite yield_dates_loop_S.
  change (py_len (@nil A)) with 0.
  destruct (-1 * gap <? 0 - 1) eqn:E1; [|reflexivity].
  apply Z.ltb_lt in E1. rewrite gtb_true by lia. reflexivity.
Qed.

Lemma yield_dates_loop_zero_gap {A} (d : list A) (a : A) :
  py_index d 0 = Some a -> 1 < py_len d ->
  forall fuel : nat,
    yield_dates_loop fuel d 0 0 = (repeat (a, a) fuel, OutOfFuel).
Proof.
  intros Ha Hn. induction fuel as [|fuel IH].
  - cbn [yield_dates_loop repeat]. rewrite ltb_true by lia. reflexivity.
  - rewrite yield_dates_loop_S. rewrite ltb_true by lia.
    rewrite !Z.add_0_r. rewrite !gtb_false by lia.
    rewrite !Ha, IH. reflexivity.
Qed.

(** X4: with a span of 0 and at least two dates the loop never moves
    on: whatever the fuel, it is used up yielding the chunk
    [(d[0], d[0])] again and again, and the generator does not finish. *)
Theorem partition_zero_gap_diverges {A} (a b : A) (rest : list A) (fuel : nat) :
  yield_dates_with_gap fuel (a :: b :: rest) 0 = (repeat (a, a) fuel, OutOfFuel).
Proof.
  unfold yield_dates_with_gap. change (-1 * 0) with 0.
  apply yield_dates_loop_zero_gap; [reflexivity|].
  unfold py_len. cbn [List.length]. lia.
Qed.

(* ===================================================================== *)
(** * What a computation leaves as it is *)
(* ===================================================================== *)

Section Preserving.

Context (lib : PyLib) {X : Type} (obs : World lib -> X).

Lemma preserves_ret {A} (a : A) : preserves lib obs (ret lib a).
Proof. intros w. reflexivity. Qed.

Lemma preserves_raise {A} (e : exn) : preserves lib obs (@raise lib A e).
Proof. intros w. reflexivity. Qed.

Lemma preserves_lift {A} (r : Res A) : preserves lib obs (lift lib r).
Proof. intros w. reflexivity. Qed.

Lemma preserves_local {A} (v : option A) : preserves lib obs (local lib v).
Proof. intros w. destruct v; reflexivity. Qed.

Lemma preserves_time_now : preserves lib obs (time_now lib).
Proof. intros w. reflexivity. Qed.

Lemma preserves_get_self : preserves lib obs (get_self lib).
Proof. intros w. reflexivity. Qed.

Lemma preserves_read_token_file : preserves lib obs (read_token_file lib).
Proof. intros w. unfold read_token_file. destruct (w_token_file lib w); reflexivity. Qed.

Lemma preserves_raise_for_status (r : http_response) :
  preserves lib obs (raise_for_status lib r).
Proof.
  intros w. unfold raise_for_status.
  destruct ((400 <=? status_code r) && (status_code r <? 600)); reflexivity.
Qed.

Lemma preserves_bind {A B} (c : M lib A) (k : A -> M lib B) :
  preserves lib obs c -> (forall a, preserves lib obs (k a)) ->
  preserves lib obs (bind lib c k).
Proof.
  intros Hc Hk w. rewrite bind_run. specialize (Hc w).
  destruct (c w) as [[a|e] w1]; cbn [snd] in *.
  - rewrite Hk. exact Hc.
  - exact Hc.
Qed.

Lemma preserves_try {A} (c : M lib A) :
  preserves lib obs c -> preserves lib obs (try lib c).
Proof.
  intros Hc w. unfold try. specialize (Hc w). destruct (c w). exact Hc.
Qed.

Lemma preserves_for_each {A} (xs : list A) (body : A -> M lib unit) :
  (forall x, preserves lib obs (body x)) ->
  preserves lib obs (for_each lib xs body).
Proof.
  intros Hb. induction xs as [|x xs IH]; cbn [for_each].
  - apply preserves_ret.
  - apply preserves_bind; [apply Hb | intros _; exact IH].
Qed.

Lemma preserves_for_fold {A S} (xs : list A) (body : A -> S -> M lib S) :
  (forall x s, preserves lib obs (body x s)) ->
  forall s, preserves lib obs (for_fold lib xs s body).
Proof.
  intros Hb. induction xs as [|x xs IH]; intros s; cbn [for_fold].
  - apply preserves_ret.
  - apply preserves_bind; [apply Hb | intros s'; apply IH].
Qed.

End Preserving.

(** Splits a computation along its binds, loops and case distinctions;
    what is left are the effects, closed from the context. *)
Ltac preserved :=
  repeat
    match goal with
    | |- preserves _ _ (bind _ _ _) => apply preserves_bind; [|intros ?]
    | |- preserves _ _ (try _ _) => apply preserves_try
    | |- preserves _ _ (ret _ _) => apply preserves_ret
    | |- preserves _ _ (raise _ _) => apply preserves_raise
    | |- preserves _ _ (lift _ _) => apply preserves_lift
    | |- preserves _ _ (local _ _) => apply preserves_local
    | |- preserves _ _ (time_now _) => apply preserves_time_now
    | |- preserves _ _ (get_self _) => apply preserves_get_self
    | |- preserves _ _ (read_token_file _) => apply preserves_read_token_file
    | |- preserves _ _ (raise_for_status _ _) => apply preserves_raise_for_status
    | |- preserves _ _ (for_each _ _ _) => apply preserves_for_each; intros ?
    | |- preserves _ _ (for_fold _ _ _ _) => apply preserves_for_fold; intros ? ?
    | |- preserves _ _ (if ?b then _ else _) => destruct b
    | |- preserves _ _ (match ?x with _ => _ end) => destruct x
    | H : forall a, preserves _ _ (?f a) |- preserves _ _ (?f _) => apply H
    | H : forall a b, preserves _ _ (?f a b) |- preserves _ _ (?f _ _) => apply H
    end.

(* ===================================================================== *)
(** * The API client: what it leaves as it is *)
(* ===================================================================== *)

Section ClientFrame.

Context (lib : PyLib) (cfg : Config) {X : Type} (obs : World lib -> X).

Hypothesis obs_logging : forall lvl msg, preserves lib obs (logging lib lvl msg).
Hypothesis obs_sleep : forall secs, preserves lib obs (sleep lib secs).

Lemma preserves_classify (r : http_response) : preserves lib obs (classify lib r).
Proof. unfold classify. preserved. Qed.

Lemma preserves_except_clause (e : exn) (resp : option http_response) :
  preserves lib obs (except_clause lib e resp).
Proof. unfold except_clause. preserved. Qed.

(** What follows the sending of the request in one attempt. *)
Lemma preserves_after_sending (sent : Res http_response)
    (resp : option http_response) :
  preserves lib obs
    (match sent with
     | Exc e => except_clause lib e resp
     | Ok r =>
         bind lib (try lib (classify lib r))
           (fun out =>
              match out with
              | Exc e => except_clause lib e (Some r)
              | Ok fl => ret lib (fl, Some r)
              end)
     end).
Proof.
  destruct sent as [r|e]; [|apply preserves_except_clause].
  apply preserves_bind; [apply preserves_try, preserves_classify|].
  intros [fl|e]; [apply preserves_ret | apply preserves_except_clause].
Qed.

Hypothesis obs_request : forall rq, preserves lib obs (requests_request lib rq).

Lemma preserves_attempt (ep : string) (h p dt : json) (rt : string)
    (resp : option http_response) :
  preserves lib obs (attempt lib ep h p dt rt resp).
Proof.
  unfold attempt. apply preserves_bind; [apply preserves_try, obs_request|].
  intros sent. apply preserves_after_sending.
Qed.

Lemma preserves_request_loop (gat : M lib json) (ep : string) (p dt : json)
    (rt : string) :
  preserves lib obs gat ->
  forall (fuel : nat) (h : json) (ra : Z) (resp : option http_response),
    preserves lib obs (request_loop lib cfg fuel gat ep h p dt rt ra resp).
Proof.
  intros Hgat. induction fuel as [|fuel IH]; intros h ra resp.
  - cbn [request_loop]. destruct (ra <? MAX_RETRIES); preserved.
  - rewrite request_loop_S. destruct (ra <? MAX_RETRIES); [|preserved].
    apply preserves_bind.
    + destruct (py_truthy h); [apply preserves_ret|].
      unfold default_headers. apply preserves_bind; [exact Hgat|].
      intros tok. apply preserves_ret.
    + intros h'. apply preserves_bind; [apply preserves_attempt|].
      intros [fl rb]. cbn [fst snd]. destruct fl; [apply preserves_ret|].
      apply preserves_bind; [apply obs_sleep | intros _; apply IH].
Qed.

Hypothesis obs_input : forall prompt, preserves lib obs (input lib prompt).
Hypothesis obs_write_token_file :
  forall tokens, preserves lib obs (write_token_file lib tokens).

Lemma preserves_refresh_fitbit_token_body
    (fdr : string -> json -> json -> json -> string -> M lib json)
    (rt : json) :
  (forall ep h p dt rty, preserves lib obs (fdr ep h p dt rty)) ->
  preserves lib obs (refresh_fitbit_token_body lib cfg fdr rt).
Proof.
  intros Hf. unfold refresh_fitbit_token_body.
  apply preserves_bind; [apply obs_logging|]. intros _.
  apply preserves_bind; [apply Hf|]. intros json_data. preserved.
Qed.

Lemma preserves_get_access_token_body
    (fdr : string -> json -> json -> json -> string -> M lib json) :
  (forall ep h p dt rt, preserves lib obs (fdr ep h p dt rt)) ->
  preserves lib obs (get_access_token_body lib cfg fdr).
Proof.
  intros Hf. unfold get_access_token_body.
  apply preserves_bind; [preserved|]. intros opened.
  apply preserves_bind.
  - destruct opened as [tokens|e]; [preserved|].
    destruct e; try apply preserves_raise.
    apply preserves_bind; [apply obs_input | intros line; apply preserves_ret].
  - intros [[a r] e].
    apply preserves_bind; [preserved|]. intros expiry.
    apply preserves_bind; [preserved|]. intros now.
    apply preserves_bind; [preserved|]. intros [|]; [|preserved].
    apply preserves_bind; [preserved|]. intros rt.
    apply preserves_bind; [|intros pair; apply preserves_ret].
    apply preserves_refresh_fitbit_token_body. exact Hf.
Qed.

Lemma preserves_fitbit_data_request (d : nat) (ep : string) (h p dt : json)
    (rt : string) :
  preserves lib obs (fitbit_data_request lib cfg d ep h p dt rt).
Proof.
  revert ep h p dt rt. induction d as [|d IH]; intros ep h p dt rt.
  - cbn [fitbit_data_request]. apply preserves_raise.
  - cbn [fitbit_data_request]. unfold fitbit_data_request_body.
    apply preserves_bind; [apply obs_logging|]. intros _.
    apply preserves_request_loop.
    apply preserves_get_access_token_body. exact IH.
Qed.

End ClientFrame.

Section ClientNeverTouches.

Context (lib : PyLib) (cfg : Config).

Lemma database_logging (lvl : level) (msg : string) :
  preserves lib (database lib) (logging lib lvl msg).
Proof. intros w. reflexivity. Qed.

Lemma database_points_append (p : json) :
  preserves lib (database lib) (points_append lib p).
Proof. intros w. reflexivity. Qed.

Lemma fitbit_data_request_keeps_database (d : nat) (ep : string)
    (h p dt : json) (rt : string) :
  preserves lib (database lib) (fitbit_data_request lib cfg d ep h p dt rt).
Proof.
  apply preserves_fitbit_data_request.
  - apply database_logging.
  - intros secs w0. unfold sleep. destruct (secs <? 0); reflexivity.
  - intros rq w0. unfold requests_request.
    destruct (w_net lib w0) as [|[r|e] rest]; reflexivity.
  - intros prompt w0. unfold input. destruct (w_stdin lib w0); reflexivity.
  - intros tokens w0. reflexivity.
Qed.

(** X5: a call of [fitbit_data_request], whatever its arguments, the
    answers of the network and its outcome, never touches the object
    (buffer, timezone, working dates) and never writes to the database. *)
Theorem client_leaves_object_and_database (d : nat) (ep : string)
    (h p dt : json) (rt : string) (w : World lib) :
  self lib (snd (fitbit_data_request lib cfg d ep h p dt rt w)) = self lib w
  /\ w_sink lib (snd (fitbit_data_request lib cfg d ep h p dt rt w)) = w_sink lib w
  /\ w_written lib (snd (fitbit_data_request lib cfg d ep h p dt rt w))
     = w_written lib w.
Proof.
  split; [apply keeps_self_fitbit_data_request|].
  pose proof (fitbit_data_request_keeps_database d ep h p dt rt w) as H.
  unfold database in H. inversion H. auto.
Qed.

Lemma fitbit_data_request_keeps_token_store (d : nat) (ep : string)
    (h p dt : json) (rt : string) :
  py_truthy h = true ->
  preserves lib (token_store lib) (fitbit_data_request lib cfg d ep h p dt rt).
Proof.
  intros Hh.
  assert (Hl : forall lvl msg, preserves lib (token_store lib) (logging lib lvl msg))
    by (intros lvl msg w1; reflexivity).
  assert (Hs : forall secs, preserves lib (token_store lib) (sleep lib secs))
    by (intros secs w1; unfold sleep; destruct (secs <? 0); reflexivity).
  assert (Hr : forall rq, preserves lib (token_store lib) (requests_request lib rq))
    by (intros rq w1; unfold requests_request;
        destruct (w_net lib w1) as [|[r|e] rest]; reflexivity).
  destruct d as [|d]; [apply preserves_raise|].
  intros w0. rewrite fitbit_data_request_S.
  rewrite (request_loop_truthy_headers lib cfg _ _ (ret lib JNull)) by exact Hh.
  exact (preserves_request_loop lib cfg (token_store lib) Hl Hs Hr (ret lib JNull)
           ep p dt rt (preserves_ret lib (token_store lib) JNull) _ h 0 None
           (with_log lib w0 [(DEBUG, "Requesting endpoint: " +++ ep)])).
Qed.

(** X6: a call that is given its headers never consults the token store:
    the token file is neither read for a refresh nor rewritten and
    nothing is asked at the prompt, whatever the network answers. *)
Theorem client_with_headers_leaves_token_store (d : nat) (ep : string)
    (h p dt : json) (rt : string) (w : World lib) :
  py_truthy h = true ->
  w_token_file lib (snd (fitbit_data_request lib cfg d ep h p dt rt w))
  = w_token_file lib w
  /\ w_stdin lib (snd (fitbit_data_request lib cfg d ep h p dt rt w))
     = w_stdin lib w.
Proof.
  intros Hh.
  pose proof (fitbit_data_request_keeps_token_store d ep h p dt rt Hh w) as H.
  unfold token_store in H. inversion H. auto.
Qed.

End ClientNeverTouches.

(* ===================================================================== *)
(** * The API client: how many requests, and how the loop ends *)
(* ===================================================================== *)

Section ClientRuns.

Context (lib : PyLib) (cfg : Config).

Lemma skipn_S_tl {A} (k : nat) (l : list A) : skipn (S k) l = skipn k (tl l).
Proof. destruct l; [cbn [tl]; rewrite !skipn_nil|]; reflexivity. Qed.

(** One attempt sends the request once and uses up what the network
    does next, whatever the outcome. *)
Lemma attempt_sends_once (ep : string) (h p dt : json) (rt : string)
    (resp : option http_response) (w : World lib) :
  w_requests lib (snd (attempt lib ep h p dt rt resp w))
  = w_requests lib w ++ [the_request ep h p dt rt]
  /\ w_net lib (snd (attempt lib ep h p dt rt resp w)) = tl (w_net lib w).
Proof.
  set (obs := fun w0 : World lib => (w_requests lib w0, w_net lib w0)).
  assert (Hl : forall lvl msg, preserves lib obs (logging lib lvl msg))
    by (intros lvl msg w1; reflexivity).
  assert (Hs : forall secs, preserves lib obs (sleep lib secs))
    by (intros secs w1; unfold sleep; destruct (secs <? 0); reflexivity).
  unfold attempt. rewrite bind_run.
  destruct (requests_request lib (the_request ep h p dt rt) w) as [sent w1] eqn:E.
  assert (Hw1 : w_requests lib w1 = w_requests lib w ++ [the_request ep h p dt rt]
                /\ w_net lib w1 = tl (w_net lib w)).
  { unfold requests_request in E.
    destruct (w_net lib w) as [|[r|e] rest]; inversion E; subst;
      split; reflexivity. }
  rewrite (try_run lib _ w w1 sent E).
  pose proof (preserves_after_sending lib obs Hl Hs sent resp w1) as H.
  unfold obs in H. inversion H as [[H1 H2]].
  rewrite H1, H2. exact Hw1.
Qed.

(** The loop with headers in hand: it sends the same request at every
    pass, one pass for every attempt that is left at most, and uses up
    one step of the network for every request. *)
Lemma request_loop_sends (gat : M lib json) (ep : string) (h p dt : json)
    (rt : string) :
  py_truthy h = true ->
  forall (fuel : nat) (ra : Z) (resp : option http_response) (w : World lib),
    exists k : nat,
      (k <= fuel)%nat
      /\ Z.of_nat k <= Z.max 0 (MAX_RETRIES - ra)
      /\ (ra < MAX_RETRIES -> (0 < fuel)%nat -> (1 <= k)%nat)
      /\ w_requests lib (snd (request_loop lib cfg fuel gat ep h p dt rt ra resp w))
         = w_requests lib w ++ repeat (the_request ep h p dt rt) k
      /\ w_net lib (snd (request_loop lib cfg fuel gat ep h p dt rt ra resp w))
         = skipn k (w_net lib w).
Proof.
  intros Hh. induction fuel as [|fuel IH]; intros ra resp w.
  - exists 0%nat. cbn [request_loop repeat skipn]. rewrite app_nil_r.
    repeat split; try lia;
      destruct (ra <? MAX_RETRIES); destruct resp; reflexivity.
  - rewrite request_loop_S.
    destruct (Z.ltb_spec ra MAX_RETRIES) as [Hlt|Hge].
    + rewrite Hh. rewrite (bind_ok lib (ret lib h) _ w w h) by reflexivity.
      rewrite bind_run.
      destruct (attempt_sends_once ep h p dt rt resp w) as [Hr Hn].
      destruct (attempt lib ep h p dt rt resp w) as [[[fl rb]|e] w1];
        cbn [fst snd] in *.
      * destruct fl as [v|].
        -- exists 1%nat. cbn [ret snd repeat]. rewrite skipn_S_tl. cbn [skipn].
           repeat split; try lia; assumption.
        -- rewrite bind_run, sleep_run by lia. cbv beta iota.
           match goal with
           | |- context [request_loop lib cfg fuel gat ep h p dt rt (ra + 1) rb ?w2] =>
               destruct (IH (ra + 1) rb w2) as (k & Hk1 & Hk2 & _ & Hk3 & Hk4)
           end.
           exists (S k). rewrite Hk3, Hk4. cbn [w_requests w_net repeat].
           rewrite Hr, Hn, skipn_S_tl, <- app_assoc.
           repeat split; try lia; reflexivity.
      * exists 1%nat. cbn [snd repeat]. rewrite skipn_S_tl. cbn [skipn].
        repeat split; try lia; assumption.
    + exists 0%nat. cbn [repeat skipn]. rewrite app_nil_r.
      repeat split; try lia; destruct resp; reflexivity.
Qed.

(** The call as the loop with headers in hand, the headers made
    explicit. *)
Lemma fitbit_data_request_in_use (d : nat) (ep : string) (h p dt : json)
    (rt : string) (w : World lib) :
  py_truthy h = true \/ token_fresh lib w ->
  py_truthy (headers_in_use lib cfg h w) = true
  /\ fitbit_data_request lib cfg (S d) ep h p dt rt w
     = request_loop lib cfg (Z.to_nat MAX_RETRIES)
         (get_access_token_body lib cfg (fitbit_data_request lib cfg d))
         ep (headers_in_use lib cfg h w) p dt rt 0 None
         (with_log lib w [(DEBUG, "Requesting endpoint: " +++ ep)]).
Proof.
  intros Hready. rewrite fitbit_data_request_S. unfold headers_in_use.
  destruct (py_truthy h) eqn:Hh.
  - split; [exact Hh | reflexivity].
  - destruct Hready as [Hc|Hfresh]; [discriminate|].
    split; [reflexivity|].
    change (Z.to_nat MAX_RETRIES) with 3%nat.
    apply (request_loop_default_headers lib cfg 2 _ ep h p dt rt 0 None
             (with_log lib w [(DEBUG, "Requesting endpoint: " +++ ep)])
             (with_log lib w [(DEBUG, "Requesting endpoint: " +++ ep)])
             (stored_access_token lib w)); [exact Hh | reflexivity |].
    apply (get_access_token_fresh lib cfg _
             (with_log lib w [(DEBUG, "Requesting endpoint: " +++ ep)])).
    destruct Hfresh as (kv & e & Hf & He & Hc). exists kv, e. auto.
Qed.

(** X7: a call made with headers, or without headers while the stored
    token has not expired, sends one and the same request at every
    attempt (the headers of the first attempt are kept), at least once
    and at most [MAX_RETRIES] times, and uses up one step of the network
    for each. *)
Theorem client_request_count (d : nat) (ep : string) (h p dt : json)
    (rt : string) (w : World lib) :
  py_truthy h = true \/ token_fresh lib w ->
  exists k : nat,
    (1 <= k <= Z.to_nat MAX_RETRIES)%nat
    /\ w_requests lib (snd (fitbit_data_request lib cfg (S d) ep h p dt rt w))
       = w_requests lib w
         ++ repeat (the_request ep (headers_in_use lib cfg h w) p dt rt) k
    /\ w_net lib (snd (fitbit_data_request lib cfg (S d) ep h p dt rt w))
       = skipn k (w_net lib w).
Proof.
  intros Hready.
  destruct (fitbit_data_request_in_use d ep h p dt rt w Hready) as [Hh ->].
  destruct (request_loop_sends
              (get_access_token_body lib cfg (fitbit_data_request lib cfg d))
              ep (headers_in_use lib cfg h w) p dt rt Hh
              (Z.to_nat MAX_RETRIES) 0 None
              (with_log lib w [(DEBUG, "Requesting endpoint: " +++ ep)]))
    as (k & Hk1 & Hk2 & Hk3 & Hk4 & Hk5).
  exists k. split; [|split; assumption].
  split; [apply Hk3; [reflexivity | cbn; lia] | exact Hk1].
Qed.

(** ** A run of retry branches *)

Lemma retry_event_branch (resp : option http_response) (ev : net_event) :
  retry_event lib ev ->
  exists logs sleeps,
    retry_branch lib resp ev (response_after resp ev) logs sleeps
    /\ 0 <= fold_right Z.add 0 sleeps.
Proof.
  destruct ev as [r|e]; cbn [retry_event response_after].
  - intros [H|[H|(H & hv & n & Hh & Hn & Hpos)]].
    + eexists _, _. split; [apply branch_unauthorized; exact H | cbn; lia].
    + eexists _, _. split; [apply branch_server_down; exact H | cbn; lia].
    + eexists _, _. split; [eapply branch_rate_limited; eassumption | cbn; lia].
  - destruct e; try contradiction. intros _.
    eexists _, _. split; [apply branch_connection_error | cbn; lia].
Qed.

Lemma fold_right_add_app (l1 l2 : list Z) :
  fold_right Z.add 0 (l1 ++ l2) = fold_right Z.add 0 l1 + fold_right Z.add 0 l2.
Proof. induction l1 as [|x l1 IH]; cbn [fold_right app]; lia. Qed.

(** The loop when every attempt that is left ends in a retry branch. *)
Lemma request_loop_retry_events (gat : M lib json)
    (ep : string) (h p dt : json) (rt : string) (rest : list net_event) :
  py_truthy h = true ->
  forall (evs : list net_event) (fuel : nat) (ra : Z)
         (resp : option http_response) (w : World lib),
    Forall (retry_event lib) evs ->
    ra + Z.of_nat (List.length evs) = MAX_RETRIES ->
    (List.length evs <= fuel)%nat ->
    w_net lib w = evs ++ rest ->
    exists w',
      request_loop lib cfg fuel gat ep h p dt rt ra resp w
      = (match fold_left response_after evs resp with
         | Some _ => Ok JNull
         | None => Exc UnboundLocalError
         end, w')
      /\ w_net lib w' = rest.
Proof.
  intros Hh. induction evs as [|ev evs IH]; intros fuel ra resp w Hall Hra Hfuel Hnet.
  - cbn [List.length] in Hra. cbn [fold_left].
    destruct resp as [r|].
    + eexists. split; [apply exhausted_step; lia | exact Hnet].
    + eexists. split; [apply exhausted_unbound; lia | exact Hnet].
  - destruct fuel as [|fuel]; [cbn in Hfuel; lia|].
    inversion Hall as [|ev' evs' Hev Hevs]; subst.
    destruct (retry_event_branch resp ev Hev) as (logs & sleeps & Hbr & _).
    cbn [List.length] in Hra, Hfuel. cbn [fold_left].
    rewrite (retry_step lib cfg fuel gat ep h p dt rt ra resp
               (response_after resp ev) w ev (evs ++ rest) logs sleeps Hh
               ltac:(lia) Hnet Hbr).
    apply IH; [exact Hevs | lia | lia | reflexivity].
Qed.

Lemma fold_left_response_after (evs : list net_event)
    (resp : option http_response) :
  (exists r, fold_left response_after evs resp = Some r)
  <-> (resp <> None \/ existsb is_response evs = true).
Proof.
  revert resp. induction evs as [|ev evs IH]; intros resp; cbn [fold_left existsb].
  - split.
    + intros [r Hr]. left. rewrite Hr. discriminate.
    + intros [H|H]; [|discriminate]. destruct resp as [r|]; [eauto | contradiction].
  - rewrite IH. destruct ev as [r|e]; cbn [response_after is_response orb].
    + split; intros _; [right; reflexivity | left; discriminate].
    + reflexivity.
Qed.


(** The loop when retry branches are followed by a successful answer
    while attempts are left. *)
Lemma request_loop_success_after (gat : M lib json)
    (ep : string) (h p dt : json) (rt : string)
    (r : http_response) (body : json) (rest : list net_event) :
  py_truthy h = true ->
  status_code r = 200 ->
  resp_json r = Ok body ->
  forall (evs : list net_event) (fuel : nat) (ra : Z)
         (resp : option http_response) (w : World lib),
    Forall (retry_event lib) evs ->
    ra + Z.of_nat (List.length evs) < MAX_RETRIES ->
    (List.length evs < fuel)%nat ->
    w_net lib w = evs ++ Respond r :: rest ->
    exists w',
      request_loop lib cfg fuel gat ep h p dt rt ra resp w = (Ok body, w')
      /\ w_net lib w' = rest
      /\ w_clock lib w + 30 * Z.of_nat (List.length evs) <= w_clock lib w'
      /\ w_requests lib w'
         = w_requests lib w
           ++ repeat (the_request ep h p dt rt) (S (List.length evs)).
Proof.
  intros Hh H200 Hbody.
  induction evs as [|ev evs IH]; intros fuel ra resp w Hall Hra Hfuel Hnet.
  - destruct fuel as [|fuel]; [cbn in Hfuel; lia|].
    cbn [List.length] in Hra.
    rewrite (success_step lib cfg fuel gat ep h p dt rt ra resp w r rest body
               Hh ltac:(lia) Hnet H200 Hbody).
    eexists. split; [reflexivity|].
    cbn [after_attempt w_net w_clock w_requests fold_right List.length repeat].
    repeat split; try reflexivity; lia.
  - destruct fuel as [|fuel]; [cbn in Hfuel; lia|].
    inversion Hall as [|ev' evs' Hev Hevs]; subst.
    destruct (retry_event_branch resp ev Hev) as (logs & sleeps & Hbr & Hpos).
    cbn [List.length] in Hra, Hfuel.
    rewrite (retry_step lib cfg fuel gat ep h p dt rt ra resp
               (response_after resp ev) w ev (evs ++ Respond r :: rest)
               logs sleeps Hh ltac:(lia) Hnet Hbr).
    destruct (IH fuel (ra + 1) (response_after resp ev)
                (after_attempt lib w (the_request ep h p dt rt)
                   (evs ++ Respond r :: rest) logs (sleeps ++ [30])))
      as (w' & Hrun & Hnet' & Hclock & Hreq); [exact Hevs | lia | lia | reflexivity |].
    exists w'. split; [exact Hrun|]. split; [exact Hnet'|].
    cbn [after_attempt w_clock w_requests] in Hclock, Hreq.
    rewrite fold_right_add_app in Hclock. cbn [fold_right] in Hclock.
    split.
    + cbn [List.length]. lia.
    + rewrite Hreq, <- app_assoc. reflexivity.
Qed.


(** ** Attempts that end the call *)

(** An exception of the [try] body that is not a connection error
    leaves the loop. *)
Lemma attempt_raises (ep : string) (h p dt : json) (rt : string)
    (resp : option http_response) (w w' : World lib)
    (r : http_response) (rest : list net_event) (e : exn) :
  w_net lib w = Respond r :: rest ->
  classify lib r (after_attempt lib w (the_request ep h p dt rt) rest [] [])
  = (Exc e, w') ->
  (forall msg, e <> ConnectionError msg) ->
  attempt lib ep h p dt rt resp w = (Exc e, w').
Proof.
  intros Hnet Hcl Hne. unfold attempt.
  rewrite (bind_ok lib _ _ w _ (Ok r))
    by (apply try_run, requests_request_respond; exact Hnet).
  rewrite (bind_ok lib _ _ _ w' (Exc e)) by (apply try_run; exact Hcl).
  unfold except_clause. destruct e; try reflexivity.
  exfalso. eapply Hne. reflexivity.
Qed.

Lemma request_loop_raises (fuel : nat) (gat : M lib json)
    (ep : string) (h p dt : json) (rt : string) (ra : Z)
    (resp : option http_response) (w w' : World lib) (e : exn) :
  py_truthy h = true ->
  ra < MAX_RETRIES ->
  attempt lib ep h p dt rt resp w = (Exc e, w') ->
  request_loop lib cfg (S fuel) gat ep h p dt rt ra resp w = (Exc e, w').
Proof.
  intros Hh Hra Hat. rewrite request_loop_S.
  rewrite ltb_true by exact Hra. rewrite Hh.
  rewrite (bind_ok lib (ret lib h) _ w w h) by reflexivity.
  apply bind_exc. exact Hat.
Qed.

Lemma request_loop_returns (fuel : nat) (gat : M lib json)
    (ep : string) (h p dt : json) (rt : string) (ra : Z)
    (resp rb : option http_response) (w w' : World lib) (v : json) :
  py_truthy h = true ->
  ra < MAX_RETRIES ->
  attempt lib ep h p dt rt resp w = (Ok (Return v, rb), w') ->
  request_loop lib cfg (S fuel) gat ep h p dt rt ra resp w = (Ok v, w').
Proof.
  intros Hh Hra Hat. rewrite request_loop_S.
  rewrite ltb_true by exact Hra. rewrite Hh.
  rewrite (bind_ok lib (ret lib h) _ w w h) by reflexivity.
  rewrite (bind_ok lib _ _ w w' (Return v, rb)) by exact Hat.
  reflexivity.
Qed.

(** X10: an answer 429 is retried only if it says when: without a
    [Retry-After] header the lookup raises [KeyError], which the
    [except] clause does not catch; the call ends at once with that
    exception, having sent one request and slept not at all. *)
Theorem rate_limit_without_retry_after (d : nat) (ep : string) (h p dt : json)
    (rt : string) (w : World lib) (r : http_response) (rest : list net_event) :
  py_truthy h = true \/ token_fresh lib w ->
  w_net lib w = Respond r :: rest ->
  status_code r = 429 ->
  header_lookup "Retry-After" (resp_headers r) = None ->
  exists w',
    fitbit_data_request lib cfg (S d) ep h p dt rt w = (Exc KeyError, w')
    /\ w_requests lib w'
       = w_requests lib w ++ [the_request ep (headers_in_use lib cfg h w) p dt rt]
    /\ w_slept lib w' = w_slept lib w
    /\ w_net lib w' = rest.
Proof.
  intros Hready Hnet Hst Hhd.
  destruct (fitbit_data_request_in_use d ep h p dt rt w Hready) as [Hh ->].
  change (Z.to_nat MAX_RETRIES) with 3%nat.
  eexists. split.
  - apply request_loop_raises; [exact Hh | reflexivity |].
    eapply attempt_raises; [exact Hnet | | intros msg; discriminate].
    unfold classify. rewrite Hst. cbn [Z.eqb Pos.eqb]. rewrite Hhd.
    reflexivity.
  - cbn [after_attempt with_log w_requests w_slept w_net].
    rewrite app_nil_r. repeat split; reflexivity.
Qed.


(** X12: only a connection error is retried.  When sending the request
    raises anything else, the call ends at once with that exception:
    one request, no log line but the first, no sleep. *)
Theorem other_network_error_propagates (d : nat) (ep : string) (h p dt : json)
    (rt : string) (w : World lib) (e : exn) (rest : list net_event) :
  py_truthy h = true \/ token_fresh lib w ->
  w_net lib w = NetFail e :: rest ->
  (forall msg, e <> ConnectionError msg) ->
  fitbit_data_request lib cfg (S d) ep h p dt rt w
  = (Exc e,
     after_attempt lib
       (with_log lib w [(DEBUG, "Requesting endpoint: " +++ ep)])
       (the_request ep (headers_in_use lib cfg h w) p dt rt) rest [] []).
Proof.
  intros Hready Hnet Hne.
  destruct (fitbit_data_request_in_use d ep h p dt rt w Hready) as [Hh ->].
  change (Z.to_nat MAX_RETRIES) with 3%nat.
  apply request_loop_raises; [exact Hh | reflexivity |].
  unfold attempt.
  rewrite (bind_ok lib _ _ _ _ (Exc e))
    by (apply try_run, requests_request_fail; exact Hnet).
  unfold except_clause. destruct e; try reflexivity.
  exfalso. eapply Hne. reflexivity.
Qed.

End ClientRuns.

(* ===================================================================== *)
(** * More on the token store and the point buffer *)
(* ===================================================================== *)

Section TokenStore.

Context (lib : PyLib) (cfg : Config).

Lemma refresh_headers_truthy : py_truthy (refresh_headers lib cfg) = true.
Proof. reflexivity. Qed.

(** X13: the token file is written by a refresh that succeeds, and by
    nothing else in it: when [refresh_fitbit_token] returns, the file
    holds the pair it returns, under the keys [get_access_token] reads;
    when it raises, whatever the reason (the exchange failed, the answer
    lacks a field, the lifetime is not a number), the file is as it
    was. *)
Theorem refresh_writes_only_on_success (d : nat) (rt : json) (w : World lib) :
  match refresh_fitbit_token lib cfg d rt w with
  | (Ok tokens, w') =>
      exists expiry,
        w_token_file lib w'
        = Some (JObj [("access_token", fst tokens); ("refresh_token", snd tokens);
                      ("expiry_timestamp", expiry)])
  | (Exc e, w') => w_token_file lib w' = w_token_file lib w
  end.
Proof.
  unfold refresh_fitbit_token, refresh_fitbit_token_body.
  rewrite (bind_ok lib _ _ w
             (with_log lib w [(INFO, "Attempting to refresh tokens...")]) tt)
    by reflexivity.
  rewrite bind_run.
  pose proof (fitbit_data_request_keeps_token_store lib cfg d "oauth2/token"
                (refresh_headers lib cfg) (JObj []) (refresh_data rt) "post"
                refresh_headers_truthy
                (with_log lib w [(INFO, "Attempting to refresh tokens...")])) as Hkeep.
  destruct (fitbit_data_request lib cfg d "oauth2/token" (refresh_headers lib cfg)
              (JObj []) (refresh_data rt) "post"
              (with_log lib w [(INFO, "Attempting to refresh tokens...")]))
    as [[json_data|e] w1]; cbn [snd] in Hkeep;
    unfold token_store in Hkeep; injection Hkeep as Hfile Hin;
    cbn [with_log w_token_file] in Hfile; [|exact Hfile].
  rewrite bind_run. unfold lift at 1.
  destruct (py_getitem json_data "access_token") as [a|e]; [|exact Hfile].
  rewrite bind_run. unfold lift at 1.
  destruct (py_getitem json_data "refresh_token") as [r|e]; [|exact Hfile].
  rewrite bind_run. unfold time_now at 1.
  rewrite bind_run. unfold lift at 1.
  destruct (py_getitem json_data "expires_in") as [n|e]; [|exact Hfile].
  rewrite bind_run. unfold lift at 1.
  destruct (expiry_time_of lib (w_clock lib w1) n) as [expiry|e]; [|exact Hfile].
  exists expiry. reflexivity.
Qed.

(** X14: an expired token is exchanged once.  When the exchange is
    answered with a new pair whose lifetime is at least the 300 seconds
    of the safety margin, [get_access_token] returns the new access
    token, and a second call right after returns the same token from the
    file: nothing more is sent or written. *)
Theorem refreshed_token_is_reused (d d' : nat) (w : World lib)
    (kv : list (string * json)) (e : Z)
    (r : http_response) (rest : list net_event) (body a' r' : json) (n : Z) :
  w_token_file lib w = Some (JObj kv) ->
  py_get (JObj kv) "expiry_timestamp" (JNum 0) = Ok (JNum e) ->
  e < w_clock lib w ->
  w_net lib w = Respond r :: rest ->
  status_code r = 200 ->
  resp_json r = Ok body ->
  py_getitem body "access_token" = Ok a' ->
  py_getitem body "refresh_token" = Ok r' ->
  py_getitem body "expires_in" = Ok (JNum n) ->
  300 <= n ->
  exists w1,
    get_access_token lib cfg (S d) w = (Ok a', w1)
    /\ get_access_token lib cfg d' w1 = (Ok a', w1).
Proof.
  intros Hfile Hexp Hlt Hnet H200 Hbody Ha Hr Hn Hmargin.
  eexists. split.
  - rewrite (get_access_token_compare lib cfg (S d) w kv e Hfile Hexp).
    rewrite ltb_true by exact Hlt.
    rewrite (bind_ok lib _ _ w _ (a', r'))
      by (eapply refresh_fitbit_token_ok; eassumption).
    reflexivity.
  - unfold get_access_token.
    rewrite get_access_token_fresh.
    + reflexivity.
    + eexists _, (w_clock lib w + n - 300).
      split; [reflexivity|]. split; [reflexivity|].
      cbn [after_refresh w_clock]. lia.
Qed.

(** X25: when the stored token has expired and the token endpoint
    rejects the exchange with a client or server error that is not
    retried (a 400 for a revoked refresh token, say), a call made
    without headers fails with that HTTP error before it has sent its
    own request: the only request sent is the exchange, and the token
    file is as it was. *)
Theorem rejected_refresh_fails_the_call (d : nat) (ep : string) (p dt : json)
    (rt : string) (w : World lib) (kv : list (string * json)) (e : Z)
    (r : http_response) (rest : list net_event) :
  w_token_file lib w = Some (JObj kv) ->
  py_get (JObj kv) "expiry_timestamp" (JNum 0) = Ok (JNum e) ->
  e < w_clock lib w ->
  w_net lib w = Respond r :: rest ->
  400 <= status_code r < 600 ->
  status_code r <> 429 -> status_code r <> 401 ->
  server_down (status_code r) = false ->
  fst (fitbit_data_request lib cfg (S (S d)) ep (JObj []) p dt rt w)
  = Exc (HTTPError (status_code r))
  /\ w_requests lib (snd (fitbit_data_request lib cfg (S (S d)) ep (JObj []) p dt rt w))
     = w_requests lib w
       ++ [token_request lib cfg
             (match assoc "refresh_token" kv with Some x => x | None => JNull end)]
  /\ w_token_file lib (snd (fitbit_data_request lib cfg (S (S d)) ep (JObj []) p dt rt w))
     = w_token_file lib w
  /\ w_net lib (snd (fitbit_data_request lib cfg (S (S d)) ep (JObj []) p dt rt w))
     = rest.
Proof.
  intros Hfile Hexp Hlt Hnet Hrange H429 H401 Hsd.
  set (tok := match assoc "refresh_token" kv with Some x => x | None => JNull end).
  set (w0 := with_log lib w [(DEBUG, "Requesting endpoint: " +++ ep)]).
  set (w1 := with_log lib
               (with_log lib w0 [(INFO, "Attempting to refresh tokens...")])
               [(DEBUG, "Requesting endpoint: oauth2/token")]).
  assert (Hrefresh :
            refresh_fitbit_token lib cfg (S d) tok w0
            = (Exc (HTTPError (status_code r)),
               after_attempt lib w1 (token_request lib cfg tok) rest
                 [(ERROR, "Fitbit API request failed. Status code: "
                          +++ py_str lib (JNum (status_code r)) +++ " "
                          +++ resp_text r)] [])).
  { unfold refresh_fitbit_token, refresh_fitbit_token_body.
    rewrite (bind_ok lib _ _ w0 _ tt) by reflexivity.
    apply bind_exc. rewrite fitbit_data_request_S.
    change (Z.to_nat MAX_RETRIES) with 3%nat.
    apply (fatal_step lib cfg 2 _ "oauth2/token" (refresh_headers lib cfg) (JObj [])
             (refresh_data tok) "post" 0 None w1 r rest);
      try assumption; try reflexivity; lia. }
  assert (Htoken :
            get_access_token lib cfg (S d) w0
            = (Exc (HTTPError (status_code r)),
               after_attempt lib w1 (token_request lib cfg tok) rest
                 [(ERROR, "Fitbit API request failed. Status code: "
                          +++ py_str lib (JNum (status_code r)) +++ " "
                          +++ resp_text r)] [])).
  { rewrite (get_access_token_compare lib cfg (S d) w0 kv e Hfile Hexp).
    rewrite ltb_true by exact Hlt.
    apply bind_exc. exact Hrefresh. }
  rewrite fitbit_data_request_S. fold w0.
  change (Z.to_nat MAX_RETRIES) with 3%nat. rewrite request_loop_S.
  rewrite ltb_true by reflexivity. cbn [py_truthy].
  rewrite (bind_exc lib _ _ w0
             (after_attempt lib w1 (token_request lib cfg tok) rest
                [(ERROR, "Fitbit API request failed. Status code: "
                         +++ py_str lib (JNum (status_code r)) +++ " "
                         +++ resp_text r)] [])
             (HTTPError (status_code r))).
  - cbn [fst snd after_attempt w_requests w_token_file w_net].
    repeat split; reflexivity.
  - unfold default_headers. apply bind_exc. exact Htoken.
Qed.

End TokenStore.

Section PointBuffer.

Context (lib : PyLib).

Lemma write_points_accepted (w : World lib) (rest : list sink_event) :
  points lib (self lib w) <> [] ->
  w_sink lib w = SinkOk :: rest ->
  write_points lib w = (Ok tt, after_flush lib w rest).
Proof.
  intros HK Hsink. unfold write_points.
  rewrite (bind_ok lib _ _ w w (self lib w)) by reflexivity.
  rewrite gtb_true
    by (unfold py_len; destruct (points lib (self lib w));
        [contradiction | cbn [List.length]; lia]).
  rewrite (bind_ok lib _ _ w (after_flush lib w rest) (Ok tt)); [reflexivity|].
  apply try_run. rewrite bind_run. unfold sink_write. rewrite Hsink.
  reflexivity.
Qed.

Lemma write_points_refused (w : World lib) (msg : string)
    (rest : list sink_event) :
  points lib (self lib w) <> [] ->
  w_sink lib w = SinkFail (InfluxDBError msg) :: rest ->
  write_points lib w = (Ok tt, after_failed_flush lib w rest msg).
Proof.
  intros HK Hsink. unfold write_points.
  rewrite (bind_ok lib _ _ w w (self lib w)) by reflexivity.
  rewrite gtb_true
    by (unfold py_len; destruct (points lib (self lib w));
        [contradiction | cbn [List.length]; lia]).
  rewrite (bind_ok lib _ _ w
             (mkWorld lib (w_clock lib w) (w_token_file lib w) (w_net lib w)
                (w_requests lib w) (w_slept lib w) (w_log lib w) (w_stdin lib w)
                rest (w_written lib w) (self lib w))
             (Exc (InfluxDBError msg))); [reflexivity|].
  apply try_run. rewrite bind_run. unfold sink_write. rewrite Hsink.
  reflexivity.
Qed.

(** X15: a flush neither loses nor duplicates a point, whatever the
    database does: in every world, and whether [write_points] returns or
    raises, the points the database holds followed by the buffer are
    afterwards what they were before. *)
Theorem write_points_conserves (w : World lib) :
  all_points lib (snd (write_points lib w)) = all_points lib w.
Proof.
  unfold write_points, all_points.
  rewrite (bind_ok lib _ _ w w (self lib w)) by reflexivity.
  destruct (py_len (points lib (self lib w)) >? 0); [|reflexivity].
  rewrite bind_run. unfold try. rewrite bind_run. unfold sink_write.
  destruct (w_sink lib w) as [|[|e] rest].
  - cbn. rewrite concat_app. cbn. rewrite !app_nil_r. reflexivity.
  - cbn. rewrite concat_app. cbn. rewrite !app_nil_r. reflexivity.
  - destruct e; reflexivity.
Qed.

(** X16: the points a refused flush keeps go out with the next flush:
    after a flush the database refuses, one more point appended and a
    flush the database accepts, the database has received a single new
    batch, the points kept followed by the new one, and the buffer is
    empty. *)
Theorem refused_points_go_out_next (w : World lib) (msg : string)
    (rest : list sink_event) (p : json) :
  points lib (self lib w) <> [] ->
  w_sink lib w = SinkFail (InfluxDBError msg) :: SinkOk :: rest ->
  exists w',
    bind lib (write_points lib)
      (fun _ => bind lib (points_append lib p) (fun _ => write_points lib)) w
    = (Ok tt, w')
    /\ w_written lib w' = w_written lib w ++ [points lib (self lib w) ++ [p]]
    /\ points lib (self lib w') = []
    /\ w_sink lib w' = rest.
Proof.
  intros HK Hsink.
  rewrite (bind_ok lib _ _ w _ tt (write_points_refused w msg _ HK Hsink)).
  rewrite (bind_ok lib _ _ _
             (with_point lib (after_failed_flush lib w (SinkOk :: rest) msg) p) tt)
    by reflexivity.
  rewrite (write_points_accepted _ rest).
  - eexists. split; [reflexivity|]. repeat split.
  - cbn. destruct (points lib (self lib w)); discriminate.
  - reflexivity.
Qed.

End PointBuffer.

(* ===================================================================== *)
(** * The metric handlers: what they leave as it is *)
(* ===================================================================== *)

(** Opens the helpers of the handlers on the way. *)
Ltac preserved_handler :=
  repeat first
    [ progress preserved
    | match goal with
      | |- preserves _ _ (or_default _ _ _) => unfold or_default
      | |- preserves _ _ (end_date_str _) => unfold end_date_str
      | |- preserves _ _ (start_date_str _) => unfold start_date_str
      | |- preserves _ _ (self_end_date _) => unfold self_end_date
      | |- preserves _ _ (self_start_date _) => unfold self_start_date
      | |- preserves _ _ (self_timezone _) => unfold self_timezone
      | |- preserves _ _ (dt_fromisoformat _ _) => unfold dt_fromisoformat
      | |- preserves _ _ (localize_to_utc _ _) => unfold localize_to_utc
      | |- preserves _ _ (midnight_utc _ _) => unfold midnight_utc
      | |- preserves _ _ (zone_minutes _ _ _) => unfold zone_minutes
      | |- preserves _ _ (sleep_tags _ _ _) => unfold sleep_tags
      | |- preserves _ _ (add_field _ _ _ _ _ _) => unfold add_field
      | H : forall d ep h p dt rt,
            preserves _ _ (fitbit_data_request _ _ d ep h p dt rt)
        |- preserves _ _ (fitbit_data_request _ _ _ _ _ _ _ _) => apply H
      end ].

Section HandlerFrame.

Context (lib : PyLib) (cfg : Config) {X : Type} (obs : World lib -> X).

Hypothesis obs_logging : forall lvl msg, preserves lib obs (logging lib lvl msg).
Hypothesis obs_points_append : forall p, preserves lib obs (points_append lib p).
Hypothesis obs_request :
  forall d ep h p dt rt,
    preserves lib obs (fitbit_data_request lib cfg d ep h p dt rt).

Lemma preserves_get_battery_level (d : nat) :
  preserves lib obs (get_battery_level lib cfg d).
Proof. unfold get_battery_level. preserved_handler. Qed.

Lemma preserves_get_intraday_data_limit_1d (d : nat) (date_str : option string)
    (measurement_list : list (string * string * string)) :
  preserves lib obs (get_intraday_data_limit_1d lib cfg d date_str measurement_list).
Proof. unfold get_intraday_data_limit_1d. preserved_handler. Qed.

Lemma preserves_get_daily_data_limit_30d (d : nat) (sd ed : option string) :
  preserves lib obs (get_daily_data_limit_30d lib cfg d sd ed).
Proof. unfold get_daily_data_limit_30d. preserved_handler. Qed.

Lemma preserves_get_daily_data_limit_100d (d : nat) (sd ed : option string) :
  preserves lib obs (get_daily_data_limit_100d lib cfg d sd ed).
Proof. unfold get_daily_data_limit_100d. preserved_handler. Qed.

Lemma preserves_get_daily_data_limit_365d (d : nat) (sd ed : option string) :
  preserves lib obs (get_daily_data_limit_365d lib cfg d sd ed).
Proof. unfold get_daily_data_limit_365d. preserved_handler. Qed.

Lemma preserves_get_daily_data_limit_none (d : nat) (sd ed : option string) :
  preserves lib obs (get_daily_data_limit_none lib cfg d sd ed).
Proof. unfold get_daily_data_limit_none. preserved_handler. Qed.

Lemma preserves_fetch_latest_activities (d : nat) (ed : option string) :
  preserves lib obs (fetch_latest_activities lib cfg d ed).
Proof. unfold fetch_latest_activities. preserved_handler. Qed.

End HandlerFrame.

Section HandlersNeverWrite.

Context (lib : PyLib) (cfg : Config).

(** X17: no metric handler writes to the database: whatever the network
    answers and however the handler ends, what the database has received
    is what it had received before.  Points reach the database through
    [write_points] only. *)
Theorem handlers_never_write (d : nat) (sd ed : option string)
    (measurement_list : list (string * string * string)) :
  preserves lib (database lib) (get_battery_level lib cfg d)
  /\ preserves lib (database lib)
       (get_intraday_data_limit_1d lib cfg d sd measurement_list)
  /\ preserves lib (database lib) (get_daily_data_limit_30d lib cfg d sd ed)
  /\ preserves lib (database lib) (get_daily_data_limit_100d lib cfg d sd ed)
  /\ preserves lib (database lib) (get_daily_data_limit_365d lib cfg d sd ed)
  /\ preserves lib (database lib) (get_daily_data_limit_none lib cfg d sd ed)
  /\ preserves lib (database lib) (fetch_latest_activities lib cfg d ed).
Proof.
  pose proof (database_logging lib) as Hl.
  pose proof (database_points_append lib) as Hp.
  pose proof (fitbit_data_request_keeps_database lib cfg) as Hr.
  split; [apply preserves_get_battery_level; assumption|].
  split; [apply preserves_get_intraday_data_limit_1d; assumption|].
  split; [apply preserves_get_daily_data_limit_30d; assumption|].
  split; [apply preserves_get_daily_data_limit_100d; assumption|].
  split; [apply preserves_get_daily_data_limit_365d; assumption|].
  split; [apply preserves_get_daily_data_limit_none; assumption|].
  apply preserves_fetch_latest_activities; assumption.
Qed.

End HandlersNeverWrite.

(* ===================================================================== *)
(** * The metric handlers on the answers they receive *)
(* ===================================================================== *)

Section HandlerRuns.

Context (lib : PyLib) (cfg : Config).

Lemma logging_run (lvl : level) (msg : string) (w : World lib) :
  logging lib lvl msg w = (Ok tt, with_log lib w [(lvl, msg)]).
Proof. reflexivity. Qed.

(** A call answered 200 at its first attempt. *)
Lemma fetch_answered (d : nat) (ep : string) (h p dt : json) (rt : string)
    (w : World lib) (r : http_response) (rest : list net_event) (body : json) :
  py_truthy h = true \/ token_fresh lib w ->
  w_net lib w = Respond r :: rest ->
  status_code r = 200 ->
  resp_json r = Ok body ->
  fitbit_data_request lib cfg (S d) ep h p dt rt w
  = (Ok body, after_fetch lib cfg w ep h p dt rt rest).
Proof.
  intros Hready Hnet H200 Hbody.
  destruct (fitbit_data_request_in_use lib cfg d ep h p dt rt w Hready) as [Hh ->].
  change (Z.to_nat MAX_RETRIES) with 3%nat.
  apply (success_step lib cfg 2 _ ep _ p dt rt 0 None
           (with_log lib w [(DEBUG, "Requesting endpoint: " +++ ep)]) r rest body
           Hh); [reflexivity | exact Hnet | exact H200 | exact Hbody].
Qed.

Lemma token_fresh_after_fetch (w : World lib) (ep : string) (h p dt : json)
    (rt : string) (rest : list net_event) :
  token_fresh lib w -> token_fresh lib (after_fetch lib cfg w ep h p dt rt rest).
Proof.
  intros (kv & e & Hf & He & Hc). exists kv, e.
  split; [exact Hf|]. split; [exact He|].
  cbn [after_fetch after_attempt with_log w_clock fold_right]. lia.
Qed.

(** The same, keeping of the world after the call only what the next
    call needs. *)
Lemma fetch_step (d : nat) (ep : string) (p dt : json) (rt : string)
    (w : World lib) (r : http_response) (rest : list net_event) (body : json) :
  token_fresh lib w ->
  w_net lib w = Respond r :: rest ->
  status_code r = 200 ->
  resp_json r = Ok body ->
  exists w',
    fitbit_data_request lib cfg (S d) ep (JObj []) p dt rt w = (Ok body, w')
    /\ token_fresh lib w'
    /\ w_net lib w' = rest
    /\ self lib w' = self lib w.
Proof.
  intros Hfresh Hnet H200 Hbody.
  exists (after_fetch lib cfg w ep (JObj []) p dt rt rest).
  split; [apply (fetch_answered d ep (JObj []) p dt rt w r rest body); auto|].
  split; [apply token_fresh_after_fetch; exact Hfresh|].
  split; reflexivity.
Qed.

Lemma self_timezone_run (w : World lib) (tz : tzinfo lib) :
  timezone lib (self lib w) = Some tz -> self_timezone lib w = (Ok tz, w).
Proof.
  intros Htz. unfold self_timezone. rewrite bind_run. cbn [get_self].
  rewrite Htz. reflexivity.
Qed.

(** X18: of the devices in the answer [get_battery_level] records the
    first one only: one point is appended, with the battery level of
    that device and its last sync time read in the account's timezone,
    whatever devices follow in the list. *)
Theorem battery_level_of_first_device (d : nat) (w : World lib)
    (r : http_response) (rest : list net_event) (dev : json) (others : list json)
    (tz : tzinfo lib) (s : string) (dt0 local_time utc : datetime lib)
    (level : json) (value : PrimFloat.float) :
  token_fresh lib w ->
  timezone lib (self lib w) = Some tz ->
  w_net lib w = Respond r :: rest ->
  status_code r = 200 ->
  resp_json r = Ok (JArr (dev :: others)) ->
  py_getitem dev "lastSyncTime" = Ok (JStr s) ->
  fromisoformat lib s = Ok dt0 ->
  localize lib tz dt0 = Ok local_time ->
  astimezone_utc lib local_time = Ok utc ->
  py_getitem dev "batteryLevel" = Ok level ->
  py_float lib level = Ok value ->
  get_battery_level lib cfg (S d) w
  = (Ok tt,
     with_log lib
       (with_point lib
          (after_fetch lib cfg w "1/user/-/devices.json" (JObj []) (JObj [])
             (JObj []) "GET" rest)
          (JObj [("measurement", JStr "DeviceBatteryLevel");
                 ("time", JStr (isoformat lib utc));
                 ("fields", JObj [("value", JFloat value)])]))
       [(INFO, "Recorded battery level for " +++ py_str lib (DEVICENAME cfg))]).
Proof.
  intros Hfresh Htz Hnet H200 Hbody Hsync Hiso Hloc Hutc Hlevel Hvalue.
  unfold get_battery_level.
  rewrite (bind_ok lib _ _ w _ (JArr (dev :: others)))
    by (apply (fetch_answered d _ _ _ _ _ w r rest); auto).
  rewrite (bind_ok lib _ _ _ _ dev) by reflexivity.
  assert (Hdev : exists kv, dev = JObj kv)
    by (destruct dev; try discriminate Hsync; eauto).
  destruct Hdev as [kv ->].
  rewrite (bind_ok lib _ _ _ _ tz) by (apply self_timezone_run; exact Htz).
  rewrite (bind_ok lib _ _ _ _ (JStr s)) by (unfold lift; rewrite Hsync; reflexivity).
  rewrite (bind_ok lib _ _ _ _ dt0)
    by (unfold dt_fromisoformat, lift; rewrite Hiso; reflexivity).
  rewrite (bind_ok lib _ _ _ _ local_time) by (unfold lift; rewrite Hloc; reflexivity).
  rewrite (bind_ok lib _ _ _ _ utc) by (unfold lift; rewrite Hutc; reflexivity).
  rewrite (bind_ok lib _ _ _ _ level) by (unfold lift; rewrite Hlevel; reflexivity).
  rewrite (bind_ok lib _ _ _ _ value) by (unfold lift; rewrite Hvalue; reflexivity).
  reflexivity.
Qed.

End HandlerRuns.

Section EmptyAnswers.

Context (lib : PyLib) (cfg : Config).

(** X19: [get_daily_data_limit_365d] cannot report that the first of
    its "other" activity metrics has no data.  When the four answers for
    the activity minutes and the answer for the distance are all 200
    without data, the four failures of the minutes are logged and the
    handler then raises [UnboundLocalError]: the failure message of the
    distance reads [activity_name], which only the loop over the data
    assigns.  The three fetches that would follow are not made and no
    point is appended. *)
Theorem activity_failure_reads_unbound_name (d : nat) (w : World lib)
    (sd ed : string) (r1 r2 r3 r4 r5 : http_response) (rest : list net_event) :
  token_fresh lib w ->
  sd <> "" -> ed <> "" ->
  w_net lib w
  = Respond r1 :: Respond r2 :: Respond r3 :: Respond r4 :: Respond r5 :: rest ->
  empty_answer "activities-tracker-minutesSedentary" r1 ->
  empty_answer "activities-tracker-minutesLightlyActive" r2 ->
  empty_answer "activities-tracker-minutesFairlyActive" r3 ->
  empty_answer "activities-tracker-minutesVeryActive" r4 ->
  empty_answer "activities-tracker-distance" r5 ->
  fst (get_daily_data_limit_365d lib cfg (S d) (Some sd) (Some ed) w)
  = Exc UnboundLocalError
  /\ w_net lib (snd (get_daily_data_limit_365d lib cfg (S d) (Some sd) (Some ed) w))
     = rest
  /\ points lib
       (self lib (snd (get_daily_data_limit_365d lib cfg (S d) (Some sd) (Some ed) w)))
     = points lib (self lib w).
Proof.
  intros Hfresh Hsd Hed Hnet
    (H1 & b1 & Hb1 & v1 & Hg1 & Hv1) (H2 & b2 & Hb2 & v2 & Hg2 & Hv2)
    (H3 & b3 & Hb3 & v3 & Hg3 & Hv3) (H4 & b4 & Hb4 & v4 & Hg4 & Hv4)
    (H5 & b5 & Hb5 & v5 & Hg5 & Hv5).
  destruct (get_daily_data_limit_365d lib cfg (S d) (Some sd) (Some ed) w)
    as [res w'] eqn:E.
  cbn [fst snd].
  unfold get_daily_data_limit_365d in E.
  rewrite (bind_ok lib _ _ w w sd) in E by (apply or_default_given; exact Hsd).
  rewrite (bind_ok lib _ _ w w ed) in E by (apply or_default_given; exact Hed).
  unfold activity_minutes_list, activity_others_list in E.
  cbn [for_each for_fold String.append] in E.
  rewrite ?bind_run in E.
  match type of E with
  | context [fitbit_data_request lib cfg (S d) ?ep ?h ?p ?dt ?rt w] =>
      destruct (fetch_step lib cfg d ep p dt rt w r1 _ b1 Hfresh Hnet H1 Hb1)
        as (w1 & Hrun1 & Hf1 & Hn1 & Hs1)
  end.
  rewrite Hrun1 in E. cbv beta iota in E.
  rewrite ?bind_run in E. unfold lift at 1 in E. cbv beta in E.
  rewrite Hg1 in E. cbv beta iota in E. rewrite Hv1 in E.
  rewrite logging_run in E. cbv beta iota in E.
  rewrite ?bind_run in E.
  match type of E with
  | context [fitbit_data_request lib cfg (S d) ?ep ?h ?p ?dt ?rt ?W] =>
      destruct (fetch_step lib cfg d ep p dt rt W r2 _ b2 Hf1 Hn1 H2 Hb2)
        as (w2 & Hrun2 & Hf2 & Hn2 & Hs2)
  end.
  rewrite Hrun2 in E. cbv beta iota in E.
  rewrite ?bind_run in E. unfold lift at 1 in E. cbv beta in E.
  rewrite Hg2 in E. cbv beta iota in E. rewrite Hv2 in E.
  rewrite logging_run in E. cbv beta iota in E.
  rewrite ?bind_run in E.
  match type of E with
  | context [fitbit_data_request lib cfg (S d) ?ep ?h ?p ?dt ?rt ?W] =>
      destruct (fetch_step lib cfg d ep p dt rt W r3 _ b3 Hf2 Hn2 H3 Hb3)
        as (w3 & Hrun3 & Hf3 & Hn3 & Hs3)
  end.
  rewrite Hrun3 in E. cbv beta iota in E.
  rewrite ?bind_run in E. unfold lift at 1 in E. cbv beta in E.
  rewrite Hg3 in E. cbv beta iota in E. rewrite Hv3 in E.
  rewrite logging_run in E. cbv beta iota in E.
  rewrite ?bind_run in E.
  match type of E with
  | context [fitbit_data_request lib cfg (S d) ?ep ?h ?p ?dt ?rt ?W] =>
      destruct (fetch_step lib cfg d ep p dt rt W r4 _ b4 Hf3 Hn3 H4 Hb4)
        as (w4 & Hrun4 & Hf4 & Hn4 & Hs4)
  end.
  rewrite Hrun4 in E. cbv beta iota in E.
  rewrite ?bind_run in E. unfold lift at 1 in E. cbv beta in E.
  rewrite Hg4 in E. cbv beta iota in E. rewrite Hv4 in E.
  rewrite logging_run in E. cbv beta iota in E.
  rewrite ?bind_run in E. unfold ret at 1 in E. cbv beta iota in E.
  rewrite ?bind_run in E.
  match type of E with
  | context [fitbit_data_request lib cfg (S d) ?ep ?h ?p ?dt ?rt ?W] =>
      destruct (fetch_step lib cfg d ep p dt rt W r5 _ b5 Hf4 Hn4 H5 Hb5)
        as (w5 & Hrun5 & Hf5 & Hn5 & Hs5)
  end.
  rewrite Hrun5 in E. cbv beta iota in E.
  rewrite ?bind_run in E. unfold lift at 1 in E. cbv beta in E.
  rewrite Hg5 in E. cbv beta iota in E. rewrite Hv5 in E.
  cbn [local raise] in E. cbv beta iota in E.
  injection E as <- <-.
  split; [reflexivity|]. split; [exact Hn5|].
  rewrite Hs5. cbn [with_log self]. rewrite Hs4. cbn [with_log self].
  rewrite Hs3. cbn [with_log self]. rewrite Hs2. cbn [with_log self].
  rewrite Hs1. reflexivity.
Qed.

End EmptyAnswers.

Section EmptyAnswers30d.

Context (lib : PyLib) (cfg : Config).

(** X20: answers without data are isolated by
    [get_daily_data_limit_30d], metric by metric: when the answers for
    the heart rate variability, the breathing rate and the skin
    temperature are 200 without data and the answer for the oxygen
    saturation is 200 and empty, the handler makes all four fetches,
    appends no point and returns normally. *)
Theorem empty_answers_are_skipped (d : nat) (w : World lib)
    (sd ed : string) (r1 r2 r3 r4 : http_response) (rest : list net_event) :
  token_fresh lib w ->
  sd <> "" -> ed <> "" ->
  w_net lib w = Respond r1 :: Respond r2 :: Respond r3 :: Respond r4 :: rest ->
  empty_answer "hrv" r1 ->
  empty_answer "br" r2 ->
  empty_answer "tempSkin" r3 ->
  falsy_answer r4 ->
  fst (get_daily_data_limit_30d lib cfg (S d) (Some sd) (Some ed) w) = Ok tt
  /\ w_net lib (snd (get_daily_data_limit_30d lib cfg (S d) (Some sd) (Some ed) w))
     = rest
  /\ points lib
       (self lib (snd (get_daily_data_limit_30d lib cfg (S d) (Some sd) (Some ed) w)))
     = points lib (self lib w).
Proof.
  intros Hfresh Hsd Hed Hnet
    (H1 & b1 & Hb1 & v1 & Hg1 & Hv1) (H2 & b2 & Hb2 & v2 & Hg2 & Hv2)
    (H3 & b3 & Hb3 & v3 & Hg3 & Hv3) (H4 & b4 & Hb4 & Hv4).
  destruct (get_daily_data_limit_30d lib cfg (S d) (Some sd) (Some ed) w)
    as [res w'] eqn:E.
  cbn [fst snd].
  unfold get_daily_data_limit_30d in E.
  rewrite (bind_ok lib _ _ w w sd) in E by (apply or_default_given; exact Hsd).
  rewrite (bind_ok lib _ _ w w ed) in E by (apply or_default_given; exact Hed).
  rewrite ?bind_run in E.
  match type of E with
  | context [fitbit_data_request lib cfg (S d) ?ep ?h ?p ?dt ?rt w] =>
      destruct (fetch_step lib cfg d ep p dt rt w r1 _ b1 Hfresh Hnet H1 Hb1)
        as (w1 & Hrun1 & Hf1 & Hn1 & Hs1)
  end.
  rewrite Hrun1 in E. cbv beta iota in E.
  rewrite ?bind_run in E. unfold lift at 1 in E. cbv beta in E.
  rewrite Hg1 in E. cbv beta iota in E. rewrite Hv1 in E.
  cbv beta iota in E. rewrite ?bind_run in E.
  rewrite logging_run in E. cbv beta iota in E.
  rewrite ?bind_run in E.
  match type of E with
  | context [fitbit_data_request lib cfg (S d) ?ep ?h ?p ?dt ?rt ?W] =>
      destruct (fetch_step lib cfg d ep p dt rt W r2 _ b2 Hf1 Hn1 H2 Hb2)
        as (w2 & Hrun2 & Hf2 & Hn2 & Hs2)
  end.
  rewrite Hrun2 in E. cbv beta iota in E.
  rewrite ?bind_run in E. unfold lift at 1 in E. cbv beta in E.
  rewrite Hg2 in E. cbv beta iota in E. rewrite Hv2 in E.
  cbv beta iota in E. rewrite ?bind_run in E.
  rewrite logging_run in E. cbv beta iota in E.
  rewrite ?bind_run in E.
  match type of E with
  | context [fitbit_data_request lib cfg (S d) ?ep ?h ?p ?dt ?rt ?W] =>
      destruct (fetch_step lib cfg d ep p dt rt W r3 _ b3 Hf2 Hn2 H3 Hb3)
        as (w3 & Hrun3 & Hf3 & Hn3 & Hs3)
  end.
  rewrite Hrun3 in E. cbv beta iota in E.
  rewrite ?bind_run in E. unfold lift at 1 in E. cbv beta in E.
  rewrite Hg3 in E. cbv beta iota in E. rewrite Hv3 in E.
  cbv beta iota in E. rewrite ?bind_run in E.
  rewrite logging_run in E. cbv beta iota in E.
  rewrite ?bind_run in E.
  match type of E with
  | context [fitbit_data_request lib cfg (S d) ?ep ?h ?p ?dt ?rt ?W] =>
      destruct (fetch_step lib cfg d ep p dt rt W r4 _ b4 Hf3 Hn3 H4 Hb4)
        as (w4 & Hrun4 & Hf4 & Hn4 & Hs4)
  end.
  rewrite Hrun4 in E. cbv beta iota in E. rewrite Hv4 in E.
  rewrite logging_run in E.
  injection E as <- <-.
  split; [reflexivity|]. split; [exact Hn4|].
  cbn [with_log self].
  rewrite Hs4. cbn [with_log self]. rewrite Hs3. cbn [with_log self].
  rewrite Hs2. cbn [with_log self]. rewrite Hs1. reflexivity.
Qed.

End EmptyAnswers30d.

Section RecordsInOrder.

Context (lib : PyLib) (cfg : Config).

Lemma bind_lift {A B} (r : Res A) (k : A -> M lib B) (w : World lib) :
  bind lib (lift lib r) k w
  = match r with Ok a => k a w | Exc e => (Exc e, w) end.
Proof. destruct r; reflexivity. Qed.

Lemma bind_assoc {A B C} (c : M lib A) (k1 : A -> M lib B) (k2 : B -> M lib C)
    (w : World lib) :
  bind lib (bind lib c k1) k2 w = bind lib c (fun a => bind lib (k1 a) k2) w.
Proof. rewrite !bind_run. destruct (c w) as [[a|e] w1]; reflexivity. Qed.

(** A loop whose body appends the point a record converts to, or raises
    what the conversion raises: the points of the records before the
    first failure are appended, in order. *)
Lemma for_each_convert (tz : tzinfo lib) (f : json -> Res json)
    (body : json -> M lib unit) :
  (forall x w,
      timezone lib (self lib w) = Some tz ->
      exists w',
        body x w = (match f x with Ok _ => Ok tt | Exc e => Exc e end, w')
        /\ points lib (self lib w')
           = points lib (self lib w) ++ match f x with Ok p => [p] | Exc _ => [] end
        /\ timezone lib (self lib w') = Some tz) ->
  forall items w,
    timezone lib (self lib w) = Some tz ->
    exists w',
      for_each lib items body w
      = (match snd (convert_until_failure f items) with
         | None => Ok tt
         | Some e => Exc e
         end, w')
      /\ points lib (self lib w')
         = points lib (self lib w) ++ fst (convert_until_failure f items)
      /\ timezone lib (self lib w') = Some tz.
Proof.
  intros Hbody. induction items as [|x items IH]; intros w Htz.
  - exists w. cbn. rewrite app_nil_r. auto.
  - cbn [for_each convert_until_failure]. rewrite bind_run.
    destruct (Hbody x w Htz) as (w1 & Hrun & Hpts & Htz1). rewrite Hrun.
    destruct (f x) as [p|e].
    + destruct (IH w1 Htz1) as (w2 & Hrun2 & Hpts2 & Htz2).
      exists w2. rewrite Hrun2.
      destruct (convert_until_failure f items) as [ps oe]. cbn [fst snd] in *.
      split; [reflexivity|]. split; [|exact Htz2].
      rewrite Hpts2, Hpts, <- app_assoc. reflexivity.
    + exists w1. cbn [fst snd]. auto.
Qed.

(** X21: [get_daily_data_limit_none] appends one point for every record
    of the answer, in the order of the answer, each built from the
    record alone.  A record that cannot be converted ends the handler
    with its exception, and the points of the records before it stay in
    the buffer: nothing is rolled back. *)
Theorem spo2_points_in_order (d : nat) (w : World lib) (sd ed : string)
    (r : http_response) (rest : list net_event) (body : json)
    (items : list json) (tz : tzinfo lib) :
  token_fresh lib w ->
  sd <> "" -> ed <> "" ->
  timezone lib (self lib w) = Some tz ->
  w_net lib w = Respond r :: rest ->
  status_code r = 200 ->
  resp_json r = Ok body ->
  py_truthy body = true ->
  py_iter body = Ok items ->
  fst (get_daily_data_limit_none lib cfg (S d) (Some sd) (Some ed) w)
  = match snd (convert_until_failure (spo2_point lib cfg tz) items) with
    | None => Ok tt
    | Some e => Exc e
    end
  /\ points lib
       (self lib (snd (get_daily_data_limit_none lib cfg (S d) (Some sd) (Some ed) w)))
     = points lib (self lib w)
       ++ fst (convert_until_failure (spo2_point lib cfg tz) items).
Proof.
  intros Hfresh Hsd Hed Htz Hnet H200 Hbody Htruthy Hiter.
  unfold get_daily_data_limit_none.
  rewrite (bind_ok lib _ _ w w sd) by (apply or_default_given; exact Hsd).
  rewrite (bind_ok lib _ _ w w ed) by (apply or_default_given; exact Hed).
  rewrite (bind_ok lib _ _ w _ body)
    by (apply (fetch_answered lib cfg d _ _ _ _ _ w r rest); auto).
  rewrite Htruthy. rewrite bind_lift, Hiter. cbv beta iota.
  match goal with
  | |- context [bind lib (for_each lib items ?b) _ ?W] =>
      destruct (for_each_convert tz (spo2_point lib cfg tz) b) with (items := items) (w := W)
        as (w2 & Hrun & Hpts & Htz2)
  end.
  - intros x w0 Htz0.
    unfold spo2_point, account_conversion, midnight_utc, localize_to_utc.
    rewrite ?bind_assoc, bind_lift.
    destruct (py_getitem x "dateTime") as [dte|e];
      [|exists w0; rewrite app_nil_r; auto].
    rewrite ?bind_assoc, bind_lift.
    destruct (fromisoformat lib (py_str lib dte +++ "T00:00:00")) as [lt|e];
      [|exists w0; rewrite app_nil_r; auto].
    rewrite ?bind_assoc.
    rewrite (bind_ok lib _ _ w0 w0 tz) by (apply self_timezone_run; exact Htz0).
    rewrite ?bind_assoc, bind_lift.
    destruct (localize lib tz lt) as [loc|e];
      [|exists w0; rewrite app_nil_r; auto].
    rewrite ?bind_assoc, bind_lift.
    destruct (astimezone_utc lib loc) as [utc|e];
      [|exists w0; rewrite app_nil_r; auto].
    rewrite ?bind_assoc.
    rewrite (bind_ok lib _ _ w0 w0 (isoformat lib utc)) by reflexivity.
    rewrite bind_lift.
    destruct (py_getitem x "value") as [value|e];
      [|exists w0; rewrite app_nil_r; auto].
    rewrite bind_lift.
    destruct (py_getitem value "avg") as [avg|e];
      [|exists w0; rewrite app_nil_r; auto].
    rewrite bind_lift. rewrite bind_lift.
    destruct (py_getitem value "max") as [max|e];
      [|exists w0; rewrite app_nil_r; auto].
    rewrite bind_lift. rewrite bind_lift.
    destruct (py_getitem value "min") as [min|e];
      [|exists w0; rewrite app_nil_r; auto].
    eexists. split; [reflexivity|]. split; [reflexivity | exact Htz0].
  - exact Htz.
  - rewrite bind_run, Hrun.
    destruct (snd (convert_until_failure (spo2_point lib cfg tz) items)).
    + split; [reflexivity | exact Hpts].
    + split; [reflexivity | exact Hpts].
Qed.

End RecordsInOrder.

(* ===================================================================== *)
(** * Construction and the startup pass *)
(* ===================================================================== *)

Section Aborting.

Context (lib : PyLib) {X : Type} (obs : World lib -> X).

Lemma aborts_raise {A} (e : exn) : aborts lib obs (@raise lib A e).
Proof. intros w. split; [exists e|]; reflexivity. Qed.

Lemma aborts_bind_left {A B} (c : M lib A) (k : A -> M lib B) :
  aborts lib obs c -> aborts lib obs (bind lib c k).
Proof.
  intros Hc w. rewrite bind_run. destruct (Hc w) as [[e He] Ho].
  destruct (c w) as [[a|e'] w1]; cbn [fst snd] in *; [discriminate He|].
  split; [exists e'; reflexivity | exact Ho].
Qed.

Lemma aborts_bind {A B} (c : M lib A) (k : A -> M lib B) :
  preserves lib obs c -> (forall a, aborts lib obs (k a)) ->
  aborts lib obs (bind lib c k).
Proof.
  intros Hc Hk w. rewrite bind_run. specialize (Hc w).
  destruct (c w) as [[a|e] w1]; cbn [fst snd] in *.
  - destruct (Hk a w1) as [He Ho]. split; [exact He|].
    rewrite Ho. exact Hc.
  - split; [exists e; reflexivity | exact Hc].
Qed.

End Aborting.

Section Startup.

Context (lib : PyLib) (cfg : Config).

Lemma footprint_input (prompt : string) :
  preserves lib (footprint lib) (input lib prompt).
Proof. intros w. unfold input. destruct (w_stdin lib w); reflexivity. Qed.

(** An assignment to an attribute other than the buffer. *)
Lemma aborts_assign {A} (g : FitBitFetch lib -> FitBitFetch lib) (rest : M lib A) :
  (forall s, points lib (g s) = points lib s) ->
  aborts lib (footprint lib) rest ->
  aborts lib (footprint lib)
    (bind lib (get_self lib)
       (fun s => bind lib (set_self lib (g s)) (fun _ => rest))).
Proof.
  intros Hg Hrest w.
  rewrite (bind_ok lib _ _ w w (self lib w)) by reflexivity.
  rewrite (bind_ok lib _ _ w
             (mkWorld lib (w_clock lib w) (w_token_file lib w) (w_net lib w)
                (w_requests lib w) (w_slept lib w) (w_log lib w) (w_stdin lib w)
                (w_sink lib w) (w_written lib w) (g (self lib w))) tt)
    by reflexivity.
  match goal with
  | |- context [rest ?W] => destruct (Hrest W) as [He Ho]
  end.
  split; [exact He|]. rewrite Ho. unfold footprint. cbn [w_requests w_written self].
  rewrite Hg. reflexivity.
Qed.

Lemma footprint_build_date_list :
  preserves lib (footprint lib) (build_date_list lib).
Proof. unfold build_date_list. preserved_handler. Qed.

(** X22: on an interpreter that evaluates the annotations of a [def]
    when the statement runs, the bulk update (no [AUTO_DATE_RANGE])
    never completes: [startup_update] always ends with an exception, at
    the latest the [NameError] of the annotation [function] of
    [do_bulk_update], and until then it has sent no request, written
    nothing to the database and buffered no point. *)
Theorem bulk_update_never_completes (d : nat) (w : World lib) :
  AUTO_DATE_RANGE cfg = false ->
  deferred_annotations lib = false ->
  (exists e, fst (startup_update lib cfg d w) = Exc e)
  /\ w_requests lib (snd (startup_update lib cfg d w)) = w_requests lib w
  /\ w_written lib (snd (startup_update lib cfg d w)) = w_written lib w
  /\ points lib (self lib (snd (startup_update lib cfg d w)))
     = points lib (self lib w).
Proof.
  intros Hauto Hdef.
  assert (H : aborts lib (footprint lib) (startup_update lib cfg d)).
  { unfold startup_update. rewrite Hauto, Hdef.
    apply aborts_bind; [apply footprint_input|]. intros line1.
    apply aborts_bind; [apply footprint_input|]. intros line2.
    apply aborts_bind; [apply preserves_lift|]. intros st.
    apply (aborts_assign
             (fun s => mkSelf lib (points lib s) (timezone lib s) (end_date lib s)
                         (Some st))); [reflexivity|].
    apply aborts_bind; [apply preserves_lift|]. intros en.
    apply (aborts_assign
             (fun s => mkSelf lib (points lib s) (timezone lib s) (Some en)
                         (start_date lib s))); [reflexivity|].
    apply aborts_bind; [apply footprint_build_date_list|]. intros date_list.
    apply aborts_bind_left, aborts_raise. }
  destruct (H w) as [He Ho]. split; [exact He|].
  unfold footprint in Ho. injection Ho as H1 H2 H3. auto.
Qed.

Lemma self_end_date_run (w : World lib) (e : datetime lib) :
  end_date lib (self lib w) = Some e -> self_end_date lib w = (Ok e, w).
Proof.
  intros H. unfold self_end_date. rewrite bind_run. cbn [get_self].
  rewrite H. reflexivity.
Qed.

Lemma self_start_date_run (w : World lib) (s : datetime lib) :
  start_date lib (self lib w) = Some s -> self_start_date lib w = (Ok s, w).
Proof.
  intros H. unfold self_start_date. rewrite bind_run. cbn [get_self].
  rewrite H. reflexivity.
Qed.

Lemma in_py_range (n i : Z) : In i (py_range n) -> 0 <= i < n.
Proof.
  unfold py_range. rewrite in_map_iff. intros (k & <- & Hk).
  apply in_seq in Hk. lia.
Qed.

(** The loop of the list comprehension. *)
Lemma date_list_loop (w : World lib) (s : datetime lib)
    (f : Z -> datetime lib) :
  start_date lib (self lib w) = Some s ->
  forall (xs : list Z) (acc : list string),
    (forall i, In i xs -> add_days lib s i = Ok (f i)) ->
    for_fold lib xs acc
      (fun i acc =>
         bind lib (self_start_date lib)
           (fun s => bind lib (lift lib (add_days lib s i))
                       (fun d => ret lib (acc ++ [strftime_ymd lib d])))) w
    = (Ok (acc ++ map (fun i => strftime_ymd lib (f i)) xs), w).
Proof.
  intros Hs. induction xs as [|x xs IH]; intros acc Hadd.
  - cbn [for_fold map]. rewrite app_nil_r. reflexivity.
  - cbn [for_fold map].
    rewrite (bind_ok lib _ _ w w (acc ++ [strftime_ymd lib (f x)])).
    + rewrite IH by (intros i Hi; apply Hadd; right; exact Hi).
      rewrite <- app_assoc. reflexivity.
    + rewrite (bind_ok lib _ _ w w s) by (apply self_start_date_run; exact Hs).
      rewrite (bind_ok lib _ _ w w (f x))
        by (unfold lift; rewrite Hadd by (left; reflexivity); reflexivity).
      reflexivity.
Qed.

Lemma build_date_list_run (w : World lib) (s e : datetime lib) (n : Z)
    (f : Z -> datetime lib) :
  start_date lib (self lib w) = Some s ->
  end_date lib (self lib w) = Some e ->
  diff_days lib e s = Ok n ->
  (forall i, 0 <= i <= n -> add_days lib s i = Ok (f i)) ->
  build_date_list lib w
  = (Ok (map (fun i => strftime_ymd lib (f i)) (py_range (n + 1))), w).
Proof.
  intros Hs He Hn Hadd. unfold build_date_list.
  rewrite (bind_ok lib _ _ w w e) by (apply self_end_date_run; exact He).
  rewrite (bind_ok lib _ _ w w s) by (apply self_start_date_run; exact Hs).
  rewrite (bind_ok lib _ _ w w n) by (unfold lift; rewrite Hn; reflexivity).
  apply (date_list_loop w s f Hs (py_range (n + 1)) []).
  intros i Hi. apply in_py_range in Hi. apply Hadd. lia.
Qed.

(** X23: the date list of the startup pass holds the working dates from
    the start date to the end date, both included, one for every day: if
    the end date is [n] days after the start date, the list is the
    dates [start + 0 .. start + n], formatted, in this order; it is empty
    when the end date lies before the start date.  Building it changes
    nothing. *)
Theorem build_date_list_days (w : World lib) (s e : datetime lib) (n : Z)
    (f : Z -> datetime lib) :
  start_date lib (self lib w) = Some s ->
  end_date lib (self lib w) = Some e ->
  diff_days lib e s = Ok n ->
  (forall i, 0 <= i <= n -> add_days lib s i = Ok (f i)) ->
  build_date_list lib w
  = (Ok (map (fun i => strftime_ymd lib (f i)) (py_range (n + 1))), w)
  /\ py_len (map (fun i => strftime_ymd lib (f i)) (py_range (n + 1)))
     = Z.max 0 (n + 1).
Proof.
  intros Hs He Hn Hadd.
  split; [apply (build_date_list_run w s e n f); assumption|].
  unfold py_len, py_range. rewrite !length_map, length_seq. lia.
Qed.

(** X26: a bulk update whose end date lies before its start date fails
    on the empty date list.  On an interpreter that leaves annotations
    unevaluated, when the two dates typed at the prompt are read and the
    second lies before the first, [startup_update] raises [IndexError]
    at [date_list[-1]]; the two dates have been stored as the working
    dates and no request has been sent. *)
Theorem bulk_update_empty_range (d : nat) (w : World lib)
    (line1 line2 : string) (typed : list string) (s e : datetime lib) (n : Z) :
  AUTO_DATE_RANGE cfg = false ->
  deferred_annotations lib = true ->
  w_stdin lib w = line1 :: line2 :: typed ->
  strptime_ymd lib line1 = Ok s ->
  strptime_ymd lib line2 = Ok e ->
  diff_days lib e s = Ok n ->
  n < 0 ->
  fst (startup_update lib cfg d w) = Exc IndexError
  /\ w_requests lib (snd (startup_update lib cfg d w)) = w_requests lib w
  /\ start_date lib (self lib (snd (startup_update lib cfg d w))) = Some s
  /\ end_date lib (self lib (snd (startup_update lib cfg d w))) = Some e.
Proof.
  intros Hauto Hdef Hin H1 H2 Hn Hneg.
  unfold startup_update. rewrite Hauto, Hdef.
  rewrite (bind_ok lib _ _ w (after_input lib w (line2 :: typed)) line1)
    by (unfold input; rewrite Hin; reflexivity).
  rewrite (bind_ok lib _ _ _ (after_input lib w typed) line2) by reflexivity.
  rewrite (bind_ok lib _ _ _ _ s) by (unfold lift; rewrite H1; reflexivity).
  rewrite (bind_ok lib _ _ _ _ (self lib w)) by reflexivity.
  rewrite (bind_ok lib _ _ _ _ tt) by reflexivity.
  rewrite (bind_ok lib _ _ _ _ e) by (unfold lift; rewrite H2; reflexivity).
  rewrite (bind_ok lib _ _ _ _
             (mkSelf lib (points lib (self lib w)) (timezone lib (self lib w))
                (end_date lib (self lib w)) (Some s))) by reflexivity.
  rewrite (bind_ok lib _ _ _ _ tt) by reflexivity.
  match goal with
  | |- context [bind lib (build_date_list lib) _ ?W] =>
      rewrite (bind_ok lib _ _ W W [])
  end.
  - split; [reflexivity|]. split; [reflexivity|]. split; reflexivity.
  - rewrite (build_date_list_run _ s e n (fun _ => s));
      [|reflexivity|reflexivity|exact Hn|intros i Hi; lia].
    unfold py_range. replace (Z.to_nat (n + 1)) with 0%nat by lia. reflexivity.
Qed.

(** X24: what the constructor establishes.  When [__init__] returns,
    the buffer is empty, the timezone is set (to the configured one when
    [LOCAL_TIMEZONE] is set), the end date is the moment of the
    construction and the start date lies [AUTO_UPDATE_DATE_RANGE] days
    before it; with [LOCAL_TIMEZONE] set no request was sent. *)
Theorem init_establishes (d : nat) (w w' : World lib) :
  init lib cfg d w = (Ok tt, w') ->
  points lib (self lib w') = []
  /\ (exists tz,
        timezone lib (self lib w') = Some tz
        /\ (py_truthy (LOCAL_TIMEZONE cfg) = true ->
            pytz_timezone lib (LOCAL_TIMEZONE cfg) = Ok tz))
  /\ end_date lib (self lib w') = Some (datetime_now lib (w_clock lib w'))
  /\ (exists st,
        start_date lib (self lib w') = Some st
        /\ add_days lib (datetime_now lib (w_clock lib w'))
             (- AUTO_UPDATE_DATE_RANGE cfg) = Ok st)
  /\ (py_truthy (LOCAL_TIMEZONE cfg) = true ->
      w_requests lib w' = w_requests lib w).
Proof.
  intros H. unfold init in H.
  rewrite (bind_ok lib _ _ w
             (mkWorld lib (w_clock lib w) (w_token_file lib w) (w_net lib w)
                (w_requests lib w) (w_slept lib w) (w_log lib w) (w_stdin lib w)
                (w_sink lib w) (w_written lib w) (mkSelf lib [] None None None)) tt)
    in H by reflexivity.
  rewrite bind_run in H.
  match type of H with
  | match ?c ?W with _ => _ end = _ =>
      assert (Hkeep : keeps_self lib c);
      [|assert (Hset : py_truthy (LOCAL_TIMEZONE cfg) = true ->
                       c W = (match pytz_timezone lib (LOCAL_TIMEZONE cfg) with
                              | Ok tz => Ok tz | Exc e => Exc e end, W));
        [|specialize (Hkeep W); destruct (c W) as [[tz|e] w1] eqn:Etz;
          [|discriminate H]]]
  end.
  - destruct (py_truthy (LOCAL_TIMEZONE cfg)); [apply keeps_self_lift|].
    apply keeps_self_bind; [apply keeps_self_fitbit_data_request|]. intros profile.
    apply keeps_self_bind; [apply keeps_self_lift|]. intros user.
    apply keeps_self_bind; [apply keeps_self_lift|]. intros name.
    apply keeps_self_lift.
  - intros Hyes. rewrite Hyes. unfold lift.
    destruct (pytz_timezone lib (LOCAL_TIMEZONE cfg)); reflexivity.
  - cbn [snd self] in Hkeep.
    unfold working_start in H. cbn in H. rewrite Hkeep in H. cbn in H.
    destruct (add_days lib (datetime_now lib (w_clock lib w1))
                (- AUTO_UPDATE_DATE_RANGE cfg)) as [st|e] eqn:Est;
      [|discriminate H].
    injection H as <-. cbn.
    split; [reflexivity|]. split.
    { exists tz. split; [reflexivity|]. intros Hyes.
      specialize (Hset Hyes).
      destruct (pytz_timezone lib (LOCAL_TIMEZONE cfg)); congruence. }
    split; [reflexivity|]. split; [exists st; auto|].
    intros Hyes. specialize (Hset Hyes).
    assert (Hw1 : w1
                  = mkWorld lib (w_clock lib w) (w_token_file lib w) (w_net lib w)
                      (w_requests lib w) (w_slept lib w) (w_log lib w)
                      (w_stdin lib w) (w_sink lib w) (w_written lib w)
                      (mkSelf lib [] None None None))
      by congruence.
    rewrite Hw1. reflexivity.
Qed.

End Startup.

(* ===================================================================== *)
(** * The theorems at concrete worlds *)
(* ===================================================================== *)

(** The partitioner on the ten days of the scenario: the fourth chunk
    keeps the result from being the three chunks of the specification,
    whatever the fuel. *)
Lemma partition_scenario_has_four_chunks :
  ~ exists fuel,
      yield_dates_with_gap fuel jan_2024_01_10 3
      = ([("2024-01-01", "2024-01-04"); ("2024-01-04", "2024-01-07");
          ("2024-01-07", "2024-01-10")], Finished).
Proof.
  intros [fuel H].
  do 4 (destruct fuel as [|fuel]; [vm_compute in H; discriminate H|]).
  destruct fuel; vm_compute in H; discriminate H.
Qed.

Lemma partition_chunks_witness :
  1 <= 3 /\ (1 <= List.length jan_2024_01_10)%nat
  /\ yield_dates_with_gap 11 jan_2024_01_10 3
     = (map (spec_chunk jan_2024_01_10 3 "") (seq 0 (chunk_count jan_2024_01_10 3)),
        Finished).
Proof.
  split; [lia|]. split; [cbn; lia|].
  apply (partition_chunks "" jan_2024_01_10 3); [lia | cbn; lia].
Defined.

Lemma token_file_A_fresh (net : list net_event) :
  token_fresh simple_lib (world_at 50 (Some token_file_A) net).
Proof.
  exists [("access_token", JStr "A"); ("refresh_token", JStr "R");
          ("expiry_timestamp", JNum 100)], 100.
  repeat split. cbn. lia.
Qed.



(** Three connection failures in a row: no response was ever bound when
    the final log line reads it. *)
Lemma offline_raises_unbound_local :
  fst (plain_request world_offline) = Exc UnboundLocalError.
Proof. reflexivity. Qed.

(** A server-side status that is not retried: 501 ends the call at once,
    nothing is slept and the next answer is never asked for. *)
Lemma not_implemented_is_fatal :
  fst (plain_request world_501) = Exc (HTTPError 501)
  /\ w_slept simple_lib (snd (plain_request world_501)) = []
  /\ w_net simple_lib (snd (plain_request world_501))
     = [Respond (ok_answer devices_body)].
Proof. repeat split. Qed.

Lemma server_error_statuses_witness :
  request_loop simple_lib cfg0 3 (ret simple_lib (JStr "A")) devices_endpoint
    (bearer_headers simple_lib cfg0 (JStr "A")) (JObj []) (JObj []) "GET" 0 None
    world_three_500
  = request_loop simple_lib cfg0 2 (ret simple_lib (JStr "A")) devices_endpoint
      (bearer_headers simple_lib cfg0 (JStr "A")) (JObj []) (JObj []) "GET" 1
      (Some (error_answer 500 [] "Internal Server Error"))
      (after_attempt simple_lib world_three_500
         (the_request devices_endpoint (bearer_headers simple_lib cfg0 (JStr "A"))
            (JObj []) (JObj []) "GET")
         [Respond (error_answer 500 [] "Internal Server Error");
          Respond (error_answer 500 [] "Internal Server Error")]
         [(WARNING, "Error 500 encountered. Retrying after 120s....")]
         [120; 30]).
Proof.
  apply (server_error_statuses simple_lib cfg0 2 (ret simple_lib (JStr "A"))
           devices_endpoint (bearer_headers simple_lib cfg0 (JStr "A"))
           (JObj []) (JObj []) "GET" 0 None world_three_500
           (error_answer 500 [] "Internal Server Error")
           [Respond (error_answer 500 [] "Internal Server Error");
            Respond (error_answer 500 [] "Internal Server Error")]).
  - reflexivity.
  - reflexivity.
  - reflexivity.
  - cbn. lia.
  - cbn. left. reflexivity.
Defined.


(** C4 (failing input): the first attempt is answered 401 at second 50
    with a token that expires at second 100; the second attempt is made
    at second 110.  It carries the same [Authorization] header as the
    first: the token store is not consulted again, although at that
    moment it would exchange the expired token for a new one. *)
Theorem token_reused_after_unauthorized :
  fst (plain_request world_401_then_200) = Ok devices_body
  /\ map req_headers (w_requests simple_lib (snd (plain_request world_401_then_200)))
     = [bearer_headers simple_lib cfg0 (JStr "A");
        bearer_headers simple_lib cfg0 (JStr "A")]
  /\ w_slept simple_lib (snd (plain_request world_401_then_200)) = [30; 30]
  /\ w_clock simple_lib (snd (plain_request world_401_then_200)) = 110
  /\ w_token_file simple_lib (snd (plain_request world_401_then_200))
     = Some token_file_A
  /\ fst (get_access_token simple_lib cfg0 2
            (world_at 110 (Some token_file_A) [Respond (ok_answer new_tokens_body)]))
     = Ok (JStr "B").
Proof. repeat split. Qed.

(** At the very second of the expiry no refresh takes place: the stored
    token is returned and nothing is sent. *)
Lemma no_refresh_at_expiry_instant :
  w_clock simple_lib world_expiring_now = 100
  /\ stored_access_token simple_lib world_expiring_now = JStr "A"
  /\ get_access_token simple_lib cfg0 2 world_expiring_now
     = (Ok (JStr "A"), world_expiring_now)
  /\ w_requests simple_lib (snd (get_access_token simple_lib cfg0 2 world_expiring_now))
     = [].
Proof. repeat split. Qed.

(** An expired token is exchanged once and the new expiry is written. *)
Lemma refresh_iff_expired_witness :
  fst (get_access_token simple_lib cfg0 2 world_expired) = Ok (JStr "B")
  /\ w_token_file simple_lib (snd (get_access_token simple_lib cfg0 2 world_expired))
     = Some (JObj [("access_token", JStr "B"); ("refresh_token", JStr "R2");
                   ("expiry_timestamp", JNum (150 + 28800 - 300))])
  /\ w_requests simple_lib (snd (get_access_token simple_lib cfg0 2 world_expired))
     = [token_request simple_lib cfg0 (JStr "R")].
Proof.
  destruct (refresh_iff_expired simple_lib cfg0 1 world_expired
              [("access_token", JStr "A"); ("refresh_token", JStr "R");
               ("expiry_timestamp", JNum 100)] 100 eq_refl eq_refl)
    as (_ & _ & H).
  rewrite (H ltac:(cbn; lia) (ok_answer new_tokens_body) [] new_tokens_body
             (JStr "B") (JStr "R2") 28800 eq_refl eq_refl eq_refl eq_refl eq_refl
             eq_refl).
  repeat split.
Defined.

(** Without a token file the typed refresh token is read and the call
    raises before anything is sent. *)
Lemma bootstrap_witness :
  w_token_file simple_lib world_no_token_file = None
  /\ get_access_token simple_lib cfg0 2 world_no_token_file
     = (Exc UnboundLocalError, after_input simple_lib world_no_token_file []).
Proof.
  split; [reflexivity|].
  apply (proj1 (bootstrap_never_returns_token simple_lib cfg0 2
                  world_no_token_file eq_refl) "R" []).
  reflexivity.
Defined.


(** C1 (failing input): the three attempts of a fetch are answered 500,
    so [fitbit_data_request] returns [None].  [get_battery_level] and
    [get_daily_data_limit_30d] raise instead of logging the failure and
    going on; the startup pass stops at its first handler and leaves
    the answers waiting for the other metrics unread.  On the same
    world [get_daily_data_limit_none] and [fetch_latest_activities] log
    the failure and return. *)
Theorem absent_result_escapes_handler :
  fst (get_battery_level simple_lib cfg0 2 world_fetch_fails) = Exc TypeError
  /\ ~ In (ERROR, "Recording battery level failed : Charge 5")
          (w_log simple_lib (snd (get_battery_level simple_lib cfg0 2 world_fetch_fails)))
  /\ fst (get_daily_data_limit_30d simple_lib cfg0 2 None None world_fetch_fails)
     = Exc AttributeError
  /\ List.length (w_requests simple_lib
                    (snd (get_daily_data_limit_30d simple_lib cfg0 2 None None
                            world_fetch_fails))) = 3%nat
  /\ fst (startup_update simple_lib cfg0 2 world_fetch_fails) = Exc AttributeError
  /\ w_net simple_lib (snd (startup_update simple_lib cfg0 2 world_fetch_fails))
     = [Respond (ok_answer devices_body); Respond (ok_answer devices_body)]
  /\ fst (get_daily_data_limit_none simple_lib cfg0 2 None None world_fetch_fails)
     = Ok tt
  /\ In (ERROR, "Recording failed: Avg SPO2 for date 2023-12-31 to 2024-01-01")
        (w_log simple_lib
           (snd (get_daily_data_limit_none simple_lib cfg0 2 None None
                   world_fetch_fails)))
  /\ fst (fetch_latest_activities simple_lib cfg0 2 None world_fetch_fails) = Ok tt.
Proof.
  split; [reflexivity|]. split.
  { cbv. intros H. repeat (destruct H as [H|H]; [discriminate H|]). exact H. }
  do 5 (split; [reflexivity|]).
  split; [|reflexivity].
  cbv. do 5 right. left. reflexivity.
Qed.



(* ===================================================================== *)
(** * The further theorems at concrete worlds *)
(* ===================================================================== *)

Lemma partition_covers_witness :
  exists chunks,
    yield_dates_with_gap 11 (py_range 10) 3 = (chunks, Finished)
    /\ Forall (fun p => 0 <= fst p /\ fst p <= snd p
                        /\ snd p <= fst p + 3 /\ snd p < 10) chunks
    /\ (forall k, 0 <= k < 10 -> Exists (fun p => fst p <= k <= snd p) chunks).
Proof. apply (partition_covers 10 3); lia. Defined.

Lemma token_file_A_fresh_with_points (net : list net_event)
    (sink : list sink_event) (buffer : list json) :
  token_fresh simple_lib (world_with_points 50 net sink buffer).
Proof.
  exists [("access_token", JStr "A"); ("refresh_token", JStr "R");
          ("expiry_timestamp", JNum 100)], 100.
  repeat split. cbn. lia.
Qed.

Lemma empty_object_answer (key : string) : empty_answer key (ok_answer (JObj [])).
Proof.
  split; [reflexivity|]. exists (JObj []). split; [reflexivity|].
  exists JNull. split; reflexivity.
Qed.

(** Three answers 500 to a call with headers: the token file is as it
    was. *)
Lemma client_with_headers_leaves_token_store_witness :
  w_token_file simple_lib
    (snd (fitbit_data_request simple_lib cfg0 2 devices_endpoint
            (bearer_headers simple_lib cfg0 (JStr "A")) (JObj []) (JObj []) "GET"
            world_three_500))
  = Some token_file_A
  /\ w_stdin simple_lib
       (snd (fitbit_data_request simple_lib cfg0 2 devices_endpoint
               (bearer_headers simple_lib cfg0 (JStr "A")) (JObj []) (JObj []) "GET"
               world_three_500))
     = [].
Proof.
  apply (client_with_headers_leaves_token_store simple_lib cfg0 2 devices_endpoint
           (bearer_headers simple_lib cfg0 (JStr "A")) (JObj []) (JObj []) "GET"
           world_three_500).
  reflexivity.
Defined.

Lemma client_request_count_witness :
  exists k : nat,
    (1 <= k <= 3)%nat
    /\ w_requests simple_lib (snd (plain_request world_three_500))
       = repeat (the_request devices_endpoint
                   (bearer_headers simple_lib cfg0 (JStr "A")) (JObj []) (JObj [])
                   "GET") k
    /\ w_net simple_lib (snd (plain_request world_three_500))
       = skipn k (w_net simple_lib world_three_500).
Proof.
  apply (client_request_count simple_lib cfg0 1 devices_endpoint
           (JObj []) (JObj []) (JObj []) "GET" world_three_500).
  right. apply token_file_A_fresh.
Defined.



Lemma rate_limit_without_retry_after_witness :
  exists w',
    plain_request world_429_bare = (Exc KeyError, w')
    /\ w_requests simple_lib w'
       = [the_request devices_endpoint
            (bearer_headers simple_lib cfg0 (JStr "A")) (JObj []) (JObj []) "GET"]
    /\ w_slept simple_lib w' = []
    /\ w_net simple_lib w' = [Respond (ok_answer devices_body)].
Proof.
  apply (rate_limit_without_retry_after simple_lib cfg0 1 devices_endpoint
           (JObj []) (JObj []) (JObj []) "GET" world_429_bare
           (error_answer 429 [] "Too Many Requests")
           [Respond (ok_answer devices_body)]).
  - right. apply token_file_A_fresh.
  - reflexivity.
  - reflexivity.
  - reflexivity.
Defined.


Lemma other_network_error_propagates_witness :
  fst (plain_request world_timeout) = Exc (OtherError "ReadTimeout")
  /\ w_slept simple_lib (snd (plain_request world_timeout)) = []
  /\ w_net simple_lib (snd (plain_request world_timeout))
     = [Respond (ok_answer devices_body)].
Proof.
  unfold plain_request.
  rewrite (other_network_error_propagates simple_lib cfg0 1 devices_endpoint
             (JObj []) (JObj []) (JObj []) "GET" world_timeout
             (OtherError "ReadTimeout") [Respond (ok_answer devices_body)]).
  - split; [reflexivity|]. split; reflexivity.
  - right. apply token_file_A_fresh.
  - reflexivity.
  - intros msg H. discriminate H.
Defined.

Lemma refreshed_token_is_reused_witness :
  exists w1,
    get_access_token simple_lib cfg0 2 world_expired = (Ok (JStr "B"), w1)
    /\ get_access_token simple_lib cfg0 2 w1 = (Ok (JStr "B"), w1).
Proof.
  apply (refreshed_token_is_reused simple_lib cfg0 1 2 world_expired
           [("access_token", JStr "A"); ("refresh_token", JStr "R");
            ("expiry_timestamp", JNum 100)] 100
           (ok_answer new_tokens_body) [] new_tokens_body (JStr "B") (JStr "R2")
           28800); try reflexivity; cbn; lia.
Defined.

Lemma refused_points_go_out_next_witness :
  exists w',
    bind simple_lib (write_points simple_lib)
      (fun _ => bind simple_lib (points_append simple_lib sample_point)
                  (fun _ => write_points simple_lib))
      world_refused_then_accepted
    = (Ok tt, w')
    /\ w_written simple_lib w' = [[sample_point; sample_point]]
    /\ points simple_lib (self simple_lib w') = []
    /\ w_sink simple_lib w' = [].
Proof.
  apply (refused_points_go_out_next simple_lib world_refused_then_accepted
           "timeout" [] sample_point).
  - intros H. discriminate H.
  - reflexivity.
Defined.

(** Two devices in the answer: one point, of the first. *)
Lemma battery_level_of_first_device_witness :
  points simple_lib
    (self simple_lib (snd (get_battery_level simple_lib cfg0 2 world_two_devices)))
  = [JObj [("measurement", JStr "DeviceBatteryLevel");
           ("time", JStr "2024-01-01T01:00:00+00:00");
           ("fields", JObj [("value", JFloat level_85)])]].
Proof.
  rewrite (battery_level_of_first_device simple_lib cfg0 1 world_two_devices
             (ok_answer two_devices_body) []
             (JObj [("batteryLevel", JNum 85);
                    ("lastSyncTime", JStr "2024-01-01T10:00:00")])
             [JObj [("batteryLevel", JNum 40);
                    ("lastSyncTime", JStr "2023-12-25T08:00:00")]]
             32400 "2024-01-01T10:00:00"
             (mkDatetime 1704103200 None) (mkDatetime 1704103200 (Some 32400))
             (mkDatetime 1704070800 (Some 0)) (JNum 85) level_85).
  - reflexivity.
  - apply token_file_A_fresh_with_points.
  - reflexivity.
  - reflexivity.
  - reflexivity.
  - reflexivity.
  - reflexivity.
  - reflexivity.
  - reflexivity.
  - reflexivity.
  - reflexivity.
  - reflexivity.
Defined.

Lemma activity_failure_reads_unbound_name_witness :
  fst (get_daily_data_limit_365d simple_lib cfg0 2 (Some "2023-12-31")
         (Some "2024-01-01") (world_empty_answers 6))
  = Exc UnboundLocalError
  /\ w_net simple_lib
       (snd (get_daily_data_limit_365d simple_lib cfg0 2 (Some "2023-12-31")
               (Some "2024-01-01") (world_empty_answers 6)))
     = [Respond (ok_answer (JObj []))]
  /\ points simple_lib
       (self simple_lib
          (snd (get_daily_data_limit_365d simple_lib cfg0 2 (Some "2023-12-31")
                  (Some "2024-01-01") (world_empty_answers 6))))
     = [].
Proof.
  apply (activity_failure_reads_unbound_name simple_lib cfg0 1
           (world_empty_answers 6) "2023-12-31" "2024-01-01"
           (ok_answer (JObj [])) (ok_answer (JObj [])) (ok_answer (JObj []))
           (ok_answer (JObj [])) (ok_answer (JObj []))
           [Respond (ok_answer (JObj []))]).
  - apply token_file_A_fresh_with_points.
  - intros H. discriminate H.
  - intros H. discriminate H.
  - reflexivity.
  - apply empty_object_answer.
  - apply empty_object_answer.
  - apply empty_object_answer.
  - apply empty_object_answer.
  - apply empty_object_answer.
Defined.

Lemma empty_answers_are_skipped_witness :
  fst (get_daily_data_limit_30d simple_lib cfg0 2 (Some "2023-12-31")
         (Some "2024-01-01") (world_empty_answers 4))
  = Ok tt
  /\ w_net simple_lib
       (snd (get_daily_data_limit_30d simple_lib cfg0 2 (Some "2023-12-31")
               (Some "2024-01-01") (world_empty_answers 4)))
     = []
  /\ points simple_lib
       (self simple_lib
          (snd (get_daily_data_limit_30d simple_lib cfg0 2 (Some "2023-12-31")
                  (Some "2024-01-01") (world_empty_answers 4))))
     = [].
Proof.
  apply (empty_answers_are_skipped simple_lib cfg0 1
           (world_empty_answers 4) "2023-12-31" "2024-01-01"
           (ok_answer (JObj [])) (ok_answer (JObj [])) (ok_answer (JObj []))
           (ok_answer (JObj [])) []).
  - apply token_file_A_fresh_with_points.
  - intros H. discriminate H.
  - intros H. discriminate H.
  - reflexivity.
  - apply empty_object_answer.
  - apply empty_object_answer.
  - apply empty_object_answer.
  - split; [reflexivity|]. exists (JObj []). split; reflexivity.
Defined.

(** The second of three records lacks a field: the handler raises
    [KeyError] and the point of the first record stays buffered. *)
Lemma spo2_points_in_order_witness :
  fst (get_daily_data_limit_none simple_lib cfg0 2 (Some "2024-01-01")
         (Some "2024-01-03") world_spo2)
  = Exc KeyError
  /\ points simple_lib
       (self simple_lib
          (snd (get_daily_data_limit_none simple_lib cfg0 2 (Some "2024-01-01")
                  (Some "2024-01-03") world_spo2)))
     = [JObj [("measurement", JStr "SPO2");
              ("time", JStr "2023-12-31T15:00:00+00:00");
              ("tags", JObj [("Device", JStr "Charge 5")]);
              ("fields", JObj [("avg", JNum 96); ("max", JNum 99);
                               ("min", JNum 93)])]].
Proof.
  apply (spo2_points_in_order simple_lib cfg0 1 world_spo2 "2024-01-01" "2024-01-03"
           (ok_answer spo2_body) [] spo2_body
           [JObj [("dateTime", JStr "2024-01-01");
                  ("value", JObj [("avg", JNum 96); ("max", JNum 99); ("min", JNum 93)])];
            JObj [("dateTime", JStr "2024-01-02");
                  ("value", JObj [("avg", JNum 95)])];
            JObj [("dateTime", JStr "2024-01-03");
                  ("value", JObj [("avg", JNum 97); ("max", JNum 99); ("min", JNum 94)])]]
           32400).
  - apply token_file_A_fresh_with_points.
  - intros H. discriminate H.
  - intros H. discriminate H.
  - reflexivity.
  - reflexivity.
  - reflexivity.
  - reflexivity.
  - reflexivity.
  - reflexivity.
Defined.

(** The bulk update on an interpreter that evaluates annotations: the
    two dates are read, then the [def] raises. *)
Lemma bulk_update_never_completes_witness :
  (exists e, fst (startup_update simple_lib cfg_bulk 2 world_bulk) = Exc e)
  /\ w_requests simple_lib (snd (startup_update simple_lib cfg_bulk 2 world_bulk)) = []
  /\ w_written simple_lib (snd (startup_update simple_lib cfg_bulk 2 world_bulk)) = []
  /\ points simple_lib
       (self simple_lib (snd (startup_update simple_lib cfg_bulk 2 world_bulk)))
     = [].
Proof.
  apply (bulk_update_never_completes simple_lib cfg_bulk 2 world_bulk);
    reflexivity.
Defined.

Lemma build_date_list_days_witness :
  build_date_list simple_lib (world_with_points 50 [] [] [])
  = (Ok ["2023-12-31"; "2024-01-01"], world_with_points 50 [] [] [])
  /\ py_len ["2023-12-31"; "2024-01-01"] = 2.
Proof.
  apply (build_date_list_days simple_lib (world_with_points 50 [] [] [])
           (mkDatetime 1703980800 None) (mkDatetime 1704067200 None) 1
           (fun i => mkDatetime (1703980800 + 86400 * i) None)).
  - reflexivity.
  - reflexivity.
  - reflexivity.
  - intros i Hi. reflexivity.
Defined.

(** The dates typed in the wrong order. *)
Lemma bulk_update_empty_range_witness :
  fst (startup_update deferred_lib cfg_bulk 2 world_bulk_reversed) = Exc IndexError
  /\ w_requests deferred_lib
       (snd (startup_update deferred_lib cfg_bulk 2 world_bulk_reversed)) = []
  /\ start_date deferred_lib
       (self deferred_lib (snd (startup_update deferred_lib cfg_bulk 2 world_bulk_reversed)))
     = Some (mkDatetime 1704844800 None)
  /\ end_date deferred_lib
       (self deferred_lib (snd (startup_update deferred_lib cfg_bulk 2 world_bulk_reversed)))
     = Some (mkDatetime 1704067200 None).
Proof.
  apply (bulk_update_empty_range deferred_lib cfg_bulk 2 world_bulk_reversed
           "2024-01-10" "2024-01-01" [] (mkDatetime 1704844800 None)
           (mkDatetime 1704067200 None) (-9)).
  - reflexivity.
  - reflexivity.
  - reflexivity.
  - reflexivity.
  - reflexivity.
  - reflexivity.
  - lia.
Defined.

(** The exchange of the expired token is answered 400. *)
Lemma rejected_refresh_fails_the_call_witness :
  fst (plain_request world_refresh_rejected) = Exc (HTTPError 400)
  /\ w_requests simple_lib (snd (plain_request world_refresh_rejected))
     = [token_request simple_lib cfg0 (JStr "R")]
  /\ w_token_file simple_lib (snd (plain_request world_refresh_rejected))
     = Some token_file_A
  /\ w_net simple_lib (snd (plain_request world_refresh_rejected))
     = [Respond (ok_answer devices_body)].
Proof.
  apply (rejected_refresh_fails_the_call simple_lib cfg0 0 devices_endpoint
           (JObj []) (JObj []) "GET" world_refresh_rejected
           [("access_token", JStr "A"); ("refresh_token", JStr "R");
            ("expiry_timestamp", JNum 100)] 100
           (error_answer 400 [] "invalid_grant")
           [Respond (ok_answer devices_body)]).
  - reflexivity.
  - reflexivity.
  - cbn. lia.
  - reflexivity.
  - cbn. lia.
  - intros H. discriminate H.
  - intros H. discriminate H.
  - reflexivity.
Defined.

Lemma init_establishes_witness :
  timezone simple_lib
    (self simple_lib (snd (init simple_lib cfg0 2 (world_at 50 (Some token_file_A) []))))
  = Some 32400
  /\ points simple_lib
       (self simple_lib (snd (init simple_lib cfg0 2 (world_at 50 (Some token_file_A) []))))
     = []
  /\ w_requests simple_lib (snd (init simple_lib cfg0 2 (world_at 50 (Some token_file_A) [])))
     = [].
Proof.
  destruct (init_establishes simple_lib cfg0 2 (world_at 50 (Some token_file_A) [])
              (snd (init simple_lib cfg0 2 (world_at 50 (Some token_file_A) [])))
              eq_refl)
    as (Hp & (tz & Htz & Hcfg) & He & Hst & Hreq).
  split; [reflexivity|]. split; [exact Hp|]. exact (Hreq eq_refl).
Defined.
